(** * ai4foodsecurity: augmentation geometry, training loop and prediction export

    A shallow embedding of
      - [dataloaders/custom_data_transform.py] ([EOTransformer.transform],
        [random_crop], [crop_or_pad_to_size]),
      - [evaluation_utils.py] ([bin_cross_entr_each_crop], [save_predictions]),
      - the per-fold epoch loop of [training_cross_val.py] ([main]).

    Conventions.  Python integers are [Z]; [//] is [Z.div] and [%] is
    [Z.modulo] (both round towards minus infinity, like Python).  A numpy
    array is a record holding its [shape] next to nested lists of values, so
    that an array with an empty axis still knows its other extents.  Pixel
    values are kept abstract in the geometry part; where the code computes with
    them (mean, scaling, z-normalisation) they are rationals [Q], i.e. float
    rounding is idealised to exact arithmetic.  Every random draw of the code
    is an explicit argument of the embedded function. *)

From Stdlib Require Import ZArith QArith Qfield Lqa List Lia String Bool.
From stdpp Require Import base gmap strings pretty.
Import ListNotations.

(* ------------------------------------------------------------------------- *)
(** ** Python and numpy primitives *)

Module Py.

(** One bound of a Python slice on an axis of length [n]: a negative bound
    counts from the end, and the result is clamped to [0, n]. *)
Definition slice_index (n : nat) (i : Z) : nat :=
  let i' := if (i <? 0)%Z then (i + Z.of_nat n)%Z else i in
  Z.to_nat (Z.min (Z.max i' 0) (Z.of_nat n)).

(** [l[start:stop]] on an axis of length [n]. *)
Definition slice {A : Type} (n : nat) (start stop : Z) (l : list A) : list A :=
  let lo := slice_index n start in
  let hi := slice_index n stop in
  firstn (hi - lo) (skipn lo l).

(** Length of [l[start:stop]] on an axis of length [n]. *)
Definition slice_len (n : nat) (start stop : Z) : nat :=
  (slice_index n stop - slice_index n start)%nat.

(** [np.random.randint(low, high)] returns an integer of [low, high). *)
Definition randint_returns (low high x : Z) : Prop := (low <= x < high)%Z.

(** [np.random.choice([0, 1, 2, 3])]. *)
Definition choice4_returns (x : Z) : Prop := (0 <= x < 4)%Z.

End Py.

(* ------------------------------------------------------------------------- *)
(** ** Arrays *)

Section Arrays.

Context {A : Type}.
Variable zero : A.

(** A raster of rows. *)
Definition plane := list (list A).

(** 2-D array (the mask): shape [(H, W)]. *)
Record ndarray2 := mk2 { shape2 : nat * nat; data2 : plane }.

(** 4-D array (the image stack): shape [(T, D, H, W)]. *)
Record ndarray4 := mk4 { shape4 : nat * nat * nat * nat;
                         data4 : list (list plane) }.

Definition wf_plane (H W : nat) (p : plane) : Prop :=
  length p = H /\ Forall (fun r => length r = W) p.

Definition wf2 (m : ndarray2) : Prop :=
  wf_plane (fst (shape2 m)) (snd (shape2 m)) (data2 m).

Definition wf4 (x : ndarray4) : Prop :=
  let '(T, D, H, W) := shape4 x in
  length (data4 x) = T /\
  Forall (fun xt => length xt = D /\ Forall (wf_plane H W) xt) (data4 x).

Definition get2 (p : plane) (i j : nat) : A := nth j (nth i p []) zero.

Definition get4 (x : list (list plane)) (t d i j : nat) : A :=
  get2 (nth d (nth t x []) []) i j.

(** *** Basic slicing along the two axes of a plane *)

Definition slice_rows (H : nat) (a b : Z) (p : plane) : plane :=
  Py.slice H a b p.

Definition slice_cols (W : nat) (a b : Z) (p : plane) : plane :=
  map (Py.slice W a b) p.

(** *** [np.pad] with the default mode (constant 0) *)

Definition pad_rows (W : nat) (before after : nat) (p : plane) : plane :=
  repeat (repeat zero W) before ++ p ++ repeat (repeat zero W) after.

Definition pad_cols (before after : nat) (p : plane) : plane :=
  map (fun r => repeat zero before ++ r ++ repeat zero after) p.

(** *** [np.flip], [np.transpose] and [np.rot90] on the plane axes *)

Definition flip_rows (p : plane) : plane := rev p.

Definition flip_cols (p : plane) : plane := map (@rev A) p.

Definition transpose (W : nat) (p : plane) : plane :=
  map (fun j => map (fun r => nth j r zero) p) (seq 0 W).

(** numpy: [k %= 4]; [k == 0] returns the array, [k == 2] flips both axes,
    [k == 1] is [transpose(flip(m, axes[1]))] and [k == 3] is
    [flip(transpose(m), axes[1])]. *)
Definition rot90_plane (W : nat) (k : Z) (p : plane) : plane :=
  let k := (k mod 4)%Z in
  if (k =? 0)%Z then p
  else if (k =? 2)%Z then flip_cols (flip_rows p)
  else if (k =? 1)%Z then transpose W (flip_cols p)
  else flip_cols (transpose W p).

Definition rot90_shape (k : Z) (s : nat * nat) : nat * nat :=
  let k := (k mod 4)%Z in
  if ((k =? 0) || (k =? 2))%Z then s else (snd s, fst s).

(** *** The same operations on the image stack and on the mask *)

Definition on_planes (f : plane -> plane) (x : list (list plane))
  : list (list plane) := map (map f) x.

(** [image_stack[:, :, a:b, c:d]] *)
Definition slice4 (a b c d : Z) (x : ndarray4) : ndarray4 :=
  let '(T, D, H, W) := shape4 x in
  mk4 (T, D, Py.slice_len H a b, Py.slice_len W c d)
      (on_planes (fun p => slice_cols W c d (slice_rows H a b p)) (data4 x)).

(** [mask[a:b, c:d]] *)
Definition slice2 (a b c d : Z) (m : ndarray2) : ndarray2 :=
  let '(H, W) := shape2 m in
  mk2 (Py.slice_len H a b, Py.slice_len W c d)
      (slice_cols W c d (slice_rows H a b (data2 m))).

(** [image_stack[:, :, a:b, :]] and [mask[a:b, :]] *)
Definition slice4_rows (a b : Z) (x : ndarray4) : ndarray4 :=
  let '(T, D, H, W) := shape4 x in
  mk4 (T, D, Py.slice_len H a b, W) (on_planes (slice_rows H a b) (data4 x)).

Definition slice2_rows (a b : Z) (m : ndarray2) : ndarray2 :=
  let '(H, W) := shape2 m in
  mk2 (Py.slice_len H a b, W) (slice_rows H a b (data2 m)).

(** [image_stack[:, :, :, a:b]] and [mask[:, a:b]] *)
Definition slice4_cols (a b : Z) (x : ndarray4) : ndarray4 :=
  let '(T, D, H, W) := shape4 x in
  mk4 (T, D, H, Py.slice_len W a b) (on_planes (slice_cols W a b) (data4 x)).

Definition slice2_cols (a b : Z) (m : ndarray2) : ndarray2 :=
  let '(H, W) := shape2 m in
  mk2 (H, Py.slice_len W a b) (slice_cols W a b (data2 m)).

(** [np.pad(image_stack, ((0,0),(0,0),(bf,af),(0,0)))], [np.pad(mask, ((bf,af),(0,0)))] *)
Definition pad4_rows (bf af : nat) (x : ndarray4) : ndarray4 :=
  let '(T, D, H, W) := shape4 x in
  mk4 (T, D, (bf + H + af)%nat, W) (on_planes (pad_rows W bf af) (data4 x)).

Definition pad2_rows (bf af : nat) (m : ndarray2) : ndarray2 :=
  let '(H, W) := shape2 m in
  mk2 ((bf + H + af)%nat, W) (pad_rows W bf af (data2 m)).

(** [np.pad(image_stack, ((0,0),(0,0),(0,0),(bf,af)))], [np.pad(mask, ((0,0),(bf,af)))] *)
Definition pad4_cols (bf af : nat) (x : ndarray4) : ndarray4 :=
  let '(T, D, H, W) := shape4 x in
  mk4 (T, D, H, (bf + W + af)%nat) (on_planes (pad_cols bf af) (data4 x)).

Definition pad2_cols (bf af : nat) (m : ndarray2) : ndarray2 :=
  let '(H, W) := shape2 m in
  mk2 (H, (bf + W + af)%nat) (pad_cols bf af (data2 m)).

(** [np.rot90(image_stack, rot, [2, 3])] and [np.rot90(mask, rot)] *)
Definition rot90_4 (k : Z) (x : ndarray4) : ndarray4 :=
  let '(T, D, H, W) := shape4 x in
  let '(H', W') := rot90_shape k (H, W) in
  mk4 (T, D, H', W') (on_planes (rot90_plane W k) (data4 x)).

Definition rot90_2 (k : Z) (m : ndarray2) : ndarray2 :=
  mk2 (rot90_shape k (shape2 m)) (rot90_plane (snd (shape2 m)) k (data2 m)).

(* ----------------------------------------------------------------------- *)
(** ** custom_data_transform.py *)

(** [random_crop(image_stack, mask, image_size)].  [h] and [w] are the values
    returned by the two [np.random.randint] calls; they are only used when
    neither guard returns early.  [int(np.floor(.))] and [int(np.ceil(.))] act
    on integers and are the identity. *)
Definition random_crop (image_stack : ndarray4) (mask : ndarray2)
    (image_size : Z) (h w : Z) : ndarray4 * ndarray2 :=
  let '(_, _, H, W) := shape4 image_stack in
  if (Z.of_nat H - image_size / 2 <=? image_size)%Z then (image_stack, mask)
  else if (Z.of_nat W - image_size / 2 <=? image_size)%Z then (image_stack, mask)
  else
    (slice4 (h - image_size / 2) (h + image_size / 2)
            (w - image_size / 2) (w + image_size / 2) image_stack,
     slice2 (h - image_size / 2) (h + image_size / 2)
            (w - image_size / 2) (w + image_size / 2) mask).

(** [crop_or_pad_to_size(image_stack, mask, image_size)].  [hpad] and [wpad]
    are computed once from the incoming shape.  Python parses [-c(hpad) // 2]
    as [(-c(hpad)) // 2]; [f] and [c] are the identity on the integers
    [hpad], [wpad], and [f(hpad / 2)], [c(hpad / 2)] are the floor and the
    ceiling of the exact half. *)
Definition crop_or_pad_to_size (image_stack : ndarray4) (mask : ndarray2)
    (image_size : Z) : ndarray4 * ndarray2 :=
  let '(_, _, H, W) := shape4 image_stack in
  let hpad := (image_size - Z.of_nat H)%Z in
  let wpad := (image_size - Z.of_nat W)%Z in
  let '(image_stack, mask) :=
    if (hpad <? 0)%Z
    then (slice4_rows ((- hpad) / 2) (hpad / 2) image_stack,
          slice2_rows ((- hpad) / 2) (hpad / 2) mask)
    else (image_stack, mask) in
  let '(image_stack, mask) :=
    if (wpad <? 0)%Z
    then (slice4_cols ((- wpad) / 2) (wpad / 2) image_stack,
          slice2_cols ((- wpad) / 2) (wpad / 2) mask)
    else (image_stack, mask) in
  let '(image_stack, mask) :=
    if (hpad >? 0)%Z
    then (pad4_rows (Z.to_nat (hpad / 2)) (Z.to_nat (hpad - hpad / 2)) image_stack,
          pad2_rows (Z.to_nat (hpad / 2)) (Z.to_nat (hpad - hpad / 2)) mask)
    else (image_stack, mask) in
  let '(image_stack, mask) :=
    if (wpad >? 0)%Z
    then (pad4_cols (Z.to_nat (wpad / 2)) (Z.to_nat (wpad - wpad / 2)) image_stack,
          pad2_cols (Z.to_nat (wpad / 2)) (Z.to_nat (wpad - wpad / 2)) mask)
    else (image_stack, mask) in
  (image_stack, mask).

(** The spatial branch of [EOTransformer.transform] up to and including the
    rotation (lines 41-49).  [h], [w] are the draws of [random_crop] and [rot]
    the draw of [np.random.choice([0, 1, 2, 3])]. *)
Definition transform_spatial (image_size : Z) (h w rot : Z)
    (image_stack : ndarray4) (mask : ndarray2) : ndarray4 * ndarray2 :=
  let '(_, _, H, W) := shape4 image_stack in
  let '(image_stack, mask) :=
    if ((Z.of_nat H >=? image_size) && (Z.of_nat W >=? image_size))%Z
    then random_crop image_stack mask image_size h w
    else (image_stack, mask) in
  let '(image_stack, mask) := crop_or_pad_to_size image_stack mask image_size in
  (rot90_4 rot image_stack, rot90_2 rot mask).

End Arrays.

(* ------------------------------------------------------------------------- *)
(** ** Exceptions *)

Inductive exn :=
  | IndexError | ValueError | RuntimeError | NameError | ZeroDivisionError
  | UnpicklingError.

Inductive result (X : Type) := Ok (x : X) | Raise (e : exn).
Arguments Ok {X} x.
Arguments Raise {X} e.

Definition bind {X Y : Type} (r : result X) (k : X -> result Y) : result Y :=
  match r with Ok x => k x | Raise e => Raise e end.

Notation "'try' x <- r 'in' k" := (bind r (fun x => k))
  (at level 10, x name, r at level 100, k at level 200).

(* ------------------------------------------------------------------------- *)
(** ** [EOTransformer.transform] on rational pixel values *)

Module Transform.

Definition Qltb (a b : Q) : bool := negb (Qle_bool b a).

Fixpoint Qsum (l : list Q) : Q :=
  match l with [] => 0%Q | x :: r => (x + Qsum r)%Q end.

(** [.mean()] of a 1-D vector. *)
Definition mean (l : list Q) : Q :=
  (Qsum l / inject_Z (Z.of_nat (length l)))%Q.

Record EOTransformer := mkEOTransformer
  { spatial_encoder : bool; normalize : bool; image_size : Z }.

(** The random draws of one call of [transform], in program order:
    the two [randint] of [random_crop], the rotation count, and the two
    [np.random.normal(scale=0.01)] of the z-normalisation. *)
Record draws := mkDraws
  { draw_h : Z; draw_w : Z; draw_rot : Z; draw_mean : Q; draw_std : Q }.

(** What [transform] returns as image: [T, D] without spatial encoder,
    [T, D, H, W] with it. *)
Inductive image :=
  | Image2 (x : ndarray2 (A := Q))
  | Image4 (x : ndarray4 (A := Q)).

(** What [transform] returns as mask: an array, or the integer [-1]. *)
Inductive mask_out :=
  | MaskArray (m : ndarray2 (A := Q))
  | MaskScalar (z : Z).

(** [plane[mask > 0]]: the pixels of [plane] at which the mask is positive,
    in row-major order. *)
Definition boolean_index (p : plane (A := Q)) (mask : plane (A := Q)) : list Q :=
  map fst (List.filter (fun xm => Qltb 0%Q (snd xm)) (combine (concat p) (concat mask))).

(** [image_stack[:, :, mask > 0].mean(2)]; numpy raises [IndexError] when the
    mask's shape differs from the two indexed axes. *)
Definition masked_mean (image_stack : ndarray4 (A := Q)) (mask : ndarray2 (A := Q))
  : result (ndarray2 (A := Q)) :=
  let '(T, D, H, W) := shape4 image_stack in
  if negb ((fst (shape2 mask) =? H)%nat && (snd (shape2 mask) =? W)%nat)
  then Raise IndexError
  else Ok (mk2 (T, D)
             (map (map (fun p => mean (boolean_index p (data2 mask))))
                  (data4 image_stack))).

Definition sensor_scale : Q := (1 # 10000)%Q.
Definition norm_mean : Q := (1014 # 10000)%Q.
Definition norm_std : Q := (1171 # 10000)%Q.

(** [image_stack * 1e-4] followed, when [normalize], by
    [image_stack -= 0.1014 + jm] and [image_stack /= 0.1171 + js], on one
    entry. *)
Definition scale_entry (normalize : bool) (jm js : Q) (x : Q) : Q :=
  let x := (x * sensor_scale)%Q in
  if normalize then ((x - (norm_mean + jm)) / (norm_std + js))%Q else x.

Definition scale_image (normalize : bool) (jm js : Q) (im : image) : image :=
  match im with
  | Image2 x => Image2 (mk2 (shape2 x) (map (map (scale_entry normalize jm js)) (data2 x)))
  | Image4 x => Image4 (mk4 (shape4 x)
                   (map (map (map (map (scale_entry normalize jm js)))) (data4 x)))
  end.

Definition transform (self : EOTransformer) (r : draws)
    (image_stack : ndarray4 (A := Q)) (mask : ndarray2 (A := Q))
  : result (image * mask_out) :=
  try im_mask <-
    (if negb (spatial_encoder self)
     then try x <- masked_mean image_stack mask in
          Ok (Image2 x, MaskScalar (-1))
     else
       let '(x, m) := transform_spatial 0%Q (image_size self)
                        (draw_h r) (draw_w r) (draw_rot r) image_stack mask in
       Ok (Image4 x, MaskArray m)) in
  Ok (scale_image (normalize self) (draw_mean r) (draw_std r) (fst im_mask),
      snd im_mask).

End Transform.

(* ------------------------------------------------------------------------- *)
(** ** Command-line arguments ([argparse] namespace) *)

Record Args := mkArgs
  { split : string;
    target_dir : string;
    batch_size : Z;
    max_epochs : Z;
    patience : Z;
    checkpoint_epoch : Z }.

(** [os.path.join(a, b)] for a relative [b]. *)
Definition path_join (a b : string) : string :=
  match a with
  | EmptyString => b
  | _ => if String.eqb (String.substring (String.length a - 1) 1 a) "/"
         then (a ++ b)%string else (a ++ "/" ++ b)%string
  end.

(* ------------------------------------------------------------------------- *)
(** ** torch's [DataLoader] batching

    [BatchSampler.__iter__]: indices are appended to the current batch, a full
    batch is yielded and restarted, and what is left at the end is yielded
    only when [drop_last] is false.  The constructor refuses a batch size
    that is not positive. *)

Fixpoint batch_sampler {X : Type} (batch_size : nat) (drop_last : bool)
    (sampler : list X) (batch : list X) : list (list X) :=
  match sampler with
  | [] => if (0 <? length batch)%nat && negb drop_last then [batch] else []
  | idx :: rest =>
      let batch := batch ++ [idx] in
      if (length batch =? batch_size)%nat
      then batch :: batch_sampler batch_size drop_last rest []
      else batch_sampler batch_size drop_last rest batch
  end.

Definition DataLoader {X : Type} (sampler : list X) (batch_size : Z)
    (drop_last : bool) : result (list (list X)) :=
  if (batch_size <=? 0)%Z then Raise ValueError
  else Ok (batch_sampler (Z.to_nat batch_size) drop_last sampler []).

(** training_cross_val.py, lines 108 and 109. *)
Definition train_loader {X : Type} (args : Args) (train_ids : list X) :=
  DataLoader train_ids (batch_size args) true.

Definition valid_loader {X : Type} (args : Args) (val_ids : list X) :=
  DataLoader val_ids (batch_size args) true.

(* ------------------------------------------------------------------------- *)
(** ** evaluation_utils.py *)

Section Evaluation.

(** External numerics: the row-wise softmax and the reduction of
    [nn.BCELoss] on two vectors of equal length. *)
Variable softmax : list Q -> list Q.
Variable bce : list Q -> list Q -> Q.

(** [x[:, i]] *)
Definition column (x : ndarray2 (A := Q)) (i : nat) : result (list Q) :=
  if (i <? snd (shape2 x))%nat
  then Ok (map (fun r => nth i r 0%Q) (data2 x))
  else Raise IndexError.

(** [nn.BCELoss()(input, target)]: refuses operands of different sizes. *)
Definition BCELoss (input target : list Q) : result Q :=
  if (length input =? length target)%nat then Ok (bce input target)
  else Raise ValueError.

Definition one_hot (classes : nat) (y : Z) : list Q :=
  map (fun c => if (Z.of_nat c =? y)%Z then 1%Q else 0%Q) (seq 0 classes).

(** [torch.FloatTensor(batch_size, classes)], [zero_()] and
    [scatter_(1, y_true.view(-1, 1), 1)]: the index may not have more rows
    than the target tensor, and each label must be a valid column. *)
Definition scatter_onehot (batch_size classes : Z) (y_true : list Z)
  : result (ndarray2 (A := Q)) :=
  if ((batch_size <? 0) || (classes <? 0))%Z then Raise RuntimeError
  else
    let B := Z.to_nat batch_size in
    let C := Z.to_nat classes in
    if (B <? length y_true)%nat then Raise RuntimeError
    else if negb (forallb (fun y => (0 <=? y)%Z && (y <? classes)%Z) y_true)
    then Raise RuntimeError
    else Ok (mk2 (B, C)
               (map (one_hot C) y_true
                  ++ repeat (repeat 0%Q C) (B - length y_true))).

(** The loop [for i in range(classes): bin_ce += loss_bc(...)]. *)
Fixpoint bin_ce_loop (cols : list nat) (y_prob y_true_onehot : ndarray2 (A := Q))
    (bin_ce : Q) : result Q :=
  match cols with
  | [] => Ok bin_ce
  | i :: rest =>
      try p <- column y_prob i in
      try t <- column y_true_onehot i in
      try l <- BCELoss p t in
      bin_ce_loop rest y_prob y_true_onehot (bin_ce + l)%Q
  end.

Definition bin_cross_entr_each_crop (logprobs : ndarray2 (A := Q))
    (y_true : list Z) (classes : Z) (args : Args) : result Q :=
  let y_prob := mk2 (shape2 logprobs) (map softmax (data2 logprobs)) in
  try y_true_onehot <- scatter_onehot (batch_size args) classes y_true in
  bin_ce_loop (seq 0 (Z.to_nat classes)) y_prob y_true_onehot 0%Q.

(** *** [save_predictions] *)

(** The model object: its parameters and its train/eval flag; [forward] is
    the network applied to one sample. *)
Variable ModelState : Type.
Variable Input : Type.
Variable forward : ModelState -> Input -> list Q.

Record prediction := mkPrediction
  { fid : Z; crop_id : Z; crop_name : string; crop_probs : list Q }.

Inductive file :=
  | CheckpointFile (epoch : Z) (model_state : ModelState)
  | JsonFile (rows : list prediction)
  | OtherFile.

Inductive output :=
  | Print (s : string)
  | PrintResuming (path : string) (epoch : Z)
  | PrintFrameHead (rows : list prediction).

Record world := mkWorld
  { files : gmap string file;
    stdout : list output;
    model : ModelState;
    model_training : bool }.

(** [np.argmax]: index of the first maximum. *)
Fixpoint argmax_from (best_i : nat) (best : Q) (i : nat) (l : list Q) : nat :=
  match l with
  | [] => best_i
  | x :: r => if Transform.Qltb best x then argmax_from i x (S i) r
              else argmax_from best_i best (S i) r
  end.

Definition argmax (l : list Q) : result nat :=
  match l with [] => Raise ValueError | x :: r => Ok (argmax_from 0 x 1 r) end.

Definition index {X : Type} (l : list X) (i : nat) : result X :=
  match nth_error l i with Some x => Ok x | None => Raise IndexError end.

(** [torch.load(path)] followed by the three look-ups of the keys. *)
Definition torch_load (fs : gmap string file) (path : string)
  : result (Z * ModelState) :=
  match fs !! path with
  | Some (CheckpointFile e s) => Ok (e, s)
  | _ => Raise UnpicklingError
  end.

(** One iteration of the loop over the loader: a batch is the list of its
    samples, each an input with its field id. *)
Definition predict_batch (m : ModelState) (label_ids : list Z)
    (label_names : list string) (batch : list (Input * Z)) : result prediction :=
  let logits := map (fun s => forward m (fst s)) batch in
  try predicted_probabilities <- index (map softmax logits) 0 in
  try predicted_class <- argmax predicted_probabilities in
  try f <- index (map snd batch) 0 in
  try cid <- index label_ids predicted_class in
  try cname <- index label_names predicted_class in
  Ok (mkPrediction f cid cname predicted_probabilities).

Fixpoint predict_loop (m : ModelState) (label_ids : list Z)
    (label_names : list string) (data_loader : list (list (Input * Z)))
    (output_list : list prediction) : result (list prediction) :=
  match data_loader with
  | [] => Ok output_list
  | batch :: rest =>
      try r <- predict_batch m label_ids label_names batch in
      predict_loop m label_ids label_names rest (output_list ++ [r])
  end.

Definition save_predictions (save_model_path : string)
    (data_loader : list (list (Input * Z))) (label_ids : list Z)
    (label_names : list string) (args : Args) (w : world) : result world :=
  if bool_decide (is_Some (files w !! save_model_path)) then
    try ck <- torch_load (files w) save_model_path in
    let START_EPOCH := fst ck in
    let w := mkWorld (files w) (stdout w) (snd ck) false in
    let w := mkWorld (files w)
               (stdout w ++ [PrintResuming save_model_path START_EPOCH])
               (model w) (model_training w) in
    try output_list <- predict_loop (model w) label_ids label_names data_loader [] in
    let output_name :=
      if String.eqb (split args) "train"
      then path_join (target_dir args) "validation.json"
      else path_join (target_dir args) "submission.json" in
    let msg :=
      if String.eqb (split args) "train"
      then Print ("Validation was saved to location: " ++ output_name)
      else Print ("Submission was saved to location: " ++ output_name) in
    Ok (mkWorld (<[output_name := JsonFile output_list]> (files w))
                (stdout w ++ [msg; PrintFrameHead (firstn 5 output_list)])
                (model w) (model_training w))
  else
    Ok (mkWorld (files w) (stdout w ++ [Print "INFO: no best model found ..."])
                (model w) (model_training w)).

End Evaluation.

(* ------------------------------------------------------------------------- *)
(** ** training_cross_val.py: the epoch loop of one fold *)

Module Training.

(** A loss as the loop compares it: a finite value, an infinity or NaN. *)
Inductive loss := Fin (q : Q) | PInf | NInf | NaN.

(** [a < b] on floats: false as soon as one side is NaN. *)
Definition loss_ltb (a b : loss) : bool :=
  match a, b with
  | Fin x, Fin y => Transform.Qltb x y
  | Fin _, PInf => true
  | NInf, Fin _ => true
  | NInf, PInf => true
  | _, _ => false
  end.

Section Fold.

(** What the fold observes of the external training: the model's and the
    optimizer's [state_dict()] at the end of epoch [e], and the validation
    loss of epoch [e]. *)
Variable ModelState OptimizerState : Type.
Variable model_state : nat -> ModelState.
Variable optimizer_state : nat -> OptimizerState.
Variable valid_loss : nat -> loss.

(** The dictionary given to [torch.save] (its [log] entry left out). *)
Record checkpoint := mkCheckpoint
  { ck_model_state : ModelState;
    ck_optimizer_state : OptimizerState;
    ck_epoch : nat }.

(** The variables of [main] that the loop updates; [saved] lists the
    [torch.save] calls in the order they happen.  [best_model] and
    [best_optimizer] are assigned together and are unbound ([None]) until the
    first assignment. *)
Record fold_state := mkFoldState
  { best_loss : loss;
    best_epoch : nat;
    best_snapshot : option (ModelState * OptimizerState);
    patience_count : nat;
    saved : list (string * checkpoint) }.

Inductive flow := Next (s : fold_state) | Break (s : fold_state).

Definition epoch_path (args : Args) (epoch : nat) : string :=
  path_join (target_dir args) ("epoch_" ++ pretty epoch ++ "_model.pt").

Definition best_path (args : Args) (fold : nat) : string :=
  path_join (target_dir args) ("best_model_fold_" ++ pretty fold ++ ".pt").

(** Lines 176-185. *)
Definition early_stopping (epoch : nat) (s : fold_state) : fold_state :=
  if loss_ltb (valid_loss epoch) (best_loss s)
  then mkFoldState (valid_loss epoch) epoch
         (Some (model_state epoch, optimizer_state epoch)) 0 (saved s)
  else mkFoldState (best_loss s) (best_epoch s) (best_snapshot s)
         (S (patience_count s)) (saved s).

(** Lines 176-195: the end of the body of [for epoch in range(max_epochs)]. *)
Definition epoch_body (args : Args) (epoch : nat) (s : fold_state)
  : result flow :=
  let s := early_stopping epoch s in
  if (Z.of_nat (patience_count s) =? patience args)%Z then Ok (Break s)
  else if (checkpoint_epoch args =? 0)%Z then Raise ZeroDivisionError
  else if ((Z.of_nat epoch mod checkpoint_epoch args =? 0)%Z
           && negb (Z.of_nat epoch =? 0)%Z)
  then Ok (Next (mkFoldState (best_loss s) (best_epoch s) (best_snapshot s)
                   (patience_count s)
                   (saved s ++ [(epoch_path args epoch,
                                 mkCheckpoint (model_state epoch)
                                   (optimizer_state epoch) epoch)])))
  else Ok (Next s).

(** The [for] loop; the second component is the epoch of the [break]. *)
Fixpoint epoch_loop (args : Args) (epochs : list nat) (s : fold_state)
  : result (fold_state * option nat) :=
  match epochs with
  | [] => Ok (s, None)
  | epoch :: rest =>
      try f <- epoch_body args epoch s in
      match f with
      | Next s' => epoch_loop args rest s'
      | Break s' => Ok (s', Some epoch)
      end
  end.

(** The variables as set at the top of a fold (lines 97-100).  [best_model]
    is not reset: [prev] is what an earlier fold left in it. *)
Definition fold_init (prev : option (ModelState * OptimizerState)) : fold_state :=
  mkFoldState PInf 0 prev 0 [].

(** One fold: the loop, then lines 202-203. *)
Definition run_fold (args : Args) (fold : nat)
    (prev : option (ModelState * OptimizerState))
  : result (fold_state * option nat) :=
  try r <- epoch_loop args (seq 0 (Z.to_nat (max_epochs args))) (fold_init prev) in
  let s := fst r in
  match best_snapshot s with
  | None => Raise NameError
  | Some (m, o) =>
      Ok (mkFoldState (best_loss s) (best_epoch s) (best_snapshot s)
            (patience_count s)
            (saved s ++ [(best_path args fold, mkCheckpoint m o (best_epoch s))]),
          snd r)
  end.

End Fold.

End Training.

(* ------------------------------------------------------------------------- *)
(** ** evaluation_utils.py: [train_epoch] and [validation_epoch] *)

Section Epochs.

Variable softmax : list Q -> list Q.
Variable bce : list Q -> list Q -> Q.

(** The network: its parameters, the width of its output, its forward pass
    on one sample, what one [loss.backward(); optimizer.step()] makes of the
    parameters, and [logprobs.exp()] on one row. *)
Variable ModelState Input : Type.
Variable out_dim : nat.
Variable forward : ModelState -> Input -> list Q.
Variable optimizer_step : ModelState -> list (Input * Z * Z) -> ModelState.
Variable exp_row : list Q -> list Q.

(** The model object: parameters and train/eval flag. *)
Record net := mkNet { net_state : ModelState; net_training : bool }.

(** [model(x)] on a batch: one row per sample. *)
Definition model_call (st : ModelState) (batch : list (Input * Z * Z))
  : ndarray2 (A := Q) :=
  mk2 (length batch, out_dim) (map (fun s => forward st (fst (fst s))) batch).

(** [torch.stack] refuses an empty list. *)
Definition torch_stack {X : Type} (l : list X) : result (list X) :=
  match l with [] => Raise RuntimeError | _ => Ok l end.

(** [torch.cat] of 1-D tensors refuses an empty list. *)
Definition torch_cat {X : Type} (l : list (list X)) : result (list X) :=
  match l with [] => Raise RuntimeError | _ => Ok (concat l) end.

(** [row.argmax(-1)]: index of the first maximum, an error on an empty row. *)
Definition torch_argmax (row : list Q) : result nat :=
  match row with
  | [] => Raise IndexError
  | x :: r => Ok (argmax_from 0 x 1 r)
  end.

Fixpoint argmax_rows (rows : list (list Q)) : result (list nat) :=
  match rows with
  | [] => Ok []
  | row :: rest =>
      try k <- torch_argmax row in
      try ks <- argmax_rows rest in
      Ok (k :: ks)
  end.

(** The loop of [train_epoch]; a sample is [(x, y_true, fid)]. *)
Fixpoint train_loop (st : ModelState) (dataloader : list (list (Input * Z * Z)))
    (classes : Z) (args : Args) (losses : list Q)
  : result (ModelState * list Q) :=
  match dataloader with
  | [] => Ok (st, losses)
  | batch :: rest =>
      let logprobs := model_call st batch in
      let y_true := map (fun s => snd (fst s)) batch in
      try loss <- bin_cross_entr_each_crop softmax bce logprobs y_true classes args in
      train_loop (optimizer_step st batch) rest classes args (losses ++ [loss])
  end.

Definition train_epoch (model : net) (dataloader : list (list (Input * Z * Z)))
    (classes : Z) (args : Args) : result (net * list Q) :=
  let model := mkNet (net_state model) true in
  try r <- train_loop (net_state model) dataloader classes args [] in
  try stacked <- torch_stack (snd r) in
  Ok (mkNet (fst r) (net_training model), stacked).

(** What [validation_epoch] accumulates. *)
Record validation := mkValidation
  { v_losses : list Q;
    v_y_true : list (list Z);
    v_y_pred : list (list nat);
    v_y_score : list (list (list Q));
    v_field_ids : list (list Z) }.

Fixpoint validation_loop (st : ModelState)
    (dataloader : list (list (Input * Z * Z))) (classes : Z) (args : Args)
    (acc : validation) : result validation :=
  match dataloader with
  | [] => Ok acc
  | batch :: rest =>
      let logprobs := model_call st batch in
      let y_true := map (fun s => snd (fst s)) batch in
      let field_id := map snd batch in
      try loss <- bin_cross_entr_each_crop softmax bce logprobs y_true classes args in
      try pred <- argmax_rows (data2 logprobs) in
      validation_loop st rest classes args
        (mkValidation (v_losses acc ++ [loss]) (v_y_true acc ++ [y_true])
           (v_y_pred acc ++ [pred])
           (v_y_score acc ++ [map exp_row (data2 logprobs)])
           (v_field_ids acc ++ [field_id]))
  end.

(** Returns the model object (now in eval mode) with
    [(loss, y_true, y_pred, y_score, field_id)]. *)
Definition validation_epoch (model : net)
    (dataloader : list (list (Input * Z * Z))) (classes : Z) (args : Args)
  : result (net * (list Q * list Z * list nat * list (list Q) * list Z)) :=
  let model := mkNet (net_state model) false in
  try acc <- validation_loop (net_state model) dataloader classes args
               (mkValidation [] [] [] [] []) in
  try losses <- torch_stack (v_losses acc) in
  try y_true <- torch_cat (v_y_true acc) in
  try y_pred <- torch_cat (v_y_pred acc) in
  try y_score <- torch_cat (v_y_score acc) in
  try field_ids <- torch_cat (v_field_ids acc) in
  Ok (model, (losses, y_true, y_pred, y_score, field_ids)).

End Epochs.

(** training_cross_val.py, lines 229, 234 and 238: the loader of the
    prediction export keeps the last incomplete batch. *)
Definition test_loader {X : Type} (args : Args) (ids : list X) :=
  DataLoader ids (batch_size args) false.

(* ------------------------------------------------------------------------- *)
(** ** training_cross_val.py: [reset_weights], lines 38-46, under
       [model.apply], line 216 *)

Module Reset.

(** A torch module: its name, whether it has [reset_parameters], and its
    child modules.  No module object is registered twice. *)
#[warnings="-register-all"]
Inductive layer := Layer (name : string) (resettable : bool)
                         (submodules : list layer).

Definition children (m : layer) : list layer :=
  match m with Layer _ _ cs => cs end.

Definition has_reset_parameters (m : layer) : bool :=
  match m with Layer _ r _ => r end.

(** The layers whose [reset_parameters] is called, in the order of the
    calls. *)
Definition reset_weights (m : layer) : list layer :=
  List.filter has_reset_parameters (children m).

(** torch's [Module.apply(fn)]: [fn] runs on the subtree of every child, then
    on the module itself. *)
Fixpoint apply (fn : layer -> list layer) (m : layer) : list layer :=
  match m with
  | Layer _ _ cs => flat_map (apply fn) cs ++ fn m
  end.

End Reset.

(* ------------------------------------------------------------------------- *)
(** ** training_cross_val.py: [add_nni_params], lines 253-265, and
       [get_paselatae_model_config], lines 267-335 *)

Module Config.

Inductive error :=
  | TypeError | IndexError | KeyError | ValueError | AttributeError
  | UnboundLocalError | AssertionError.

Inductive res (X : Type) := Return (x : X) | Throw (e : error).
Arguments Return {X} x.
Arguments Throw {X} e.

Definition bind {X Y : Type} (r : res X) (k : X -> res Y) : res Y :=
  match r with Return x => k x | Throw e => Throw e end.

Declare Scope config_scope.
Notation "'try' x <- r 'in' k" := (bind r (fun x => k))
  (at level 10, x name, r at level 100, k at level 200) : config_scope.
Local Open Scope config_scope.

(** The Python values an argument or a configuration entry holds. *)
#[warnings="-register-all"]
Inductive value :=
  | VNone
  | VBool (b : bool)
  | VInt (z : Z)
  | VFloat (q : Q)
  | VStr (s : string)
  | VList (l : list value).

(** [vars(args)] of an [argparse.Namespace], and a [dict] with string keys. *)
Abbreviation namespace := (gmap string value).

(** [args.name] *)
Definition getattr (args : namespace) (name : string) : res value :=
  match args !! name with
  | Some v => Return v
  | None => Throw AttributeError
  end.

(** [d[key]] *)
Definition item (d : namespace) (key : string) : res value :=
  match d !! key with
  | Some v => Return v
  | None => Throw KeyError
  end.

(** [if v:] *)
Definition truthy (v : value) : bool :=
  match v with
  | VNone => false
  | VBool b => b
  | VInt z => negb (z =? 0)%Z
  | VFloat q => negb (Qeq_bool q 0)
  | VStr s => negb (String.eqb s EmptyString)
  | VList l => match l with [] => false | _ => true end
  end.

(** [len(v)] *)
Definition len (v : value) : res nat :=
  match v with
  | VStr s => Return (String.length s)
  | VList l => Return (length l)
  | _ => Throw TypeError
  end.

(** [v[i]] for an index [i >= 0] *)
Definition getitem (v : value) (i : nat) : res value :=
  match v with
  | VStr s => match String.get i s with
              | Some c => Return (VStr (String c EmptyString))
              | None => Throw IndexError
              end
  | VList l => match nth_error l i with
               | Some x => Return x
               | None => Throw IndexError
               end
  | _ => Throw TypeError
  end.

(** [v == s] for a string literal [s] *)
Definition eq_str (v : value) (s : string) : bool :=
  match v with VStr t => String.eqb t s | _ => false end.

(** Reading a local variable that no branch has bound. *)
Definition local (v : option value) : res value :=
  match v with
  | Some x => Return x
  | None => Throw UnboundLocalError
  end.

Definition get_paselatae_model_config (args : namespace) : res namespace :=
  try include_extras <- getattr args "include_extras" in
  let extra_size := if truthy include_extras then 2%Z else 0%Z in
  let mlp2_first_layer := (128 + extra_size)%Z in
  try input_data <- getattr args "input_data" in
  try n <- len input_data in
  try both <-
    (if (n =? 1)%nat then
       try first <- getitem input_data 0 in
       let lms :=
         if eq_str first "planet" then Some (VInt 244)
         else if eq_str first "planet-5" then Some (VInt 48)
         else if eq_str first "sentinel-1" then Some (VInt 41)
         else None in
       try input_dim <- getattr args "input_dim" in
       try dim0 <- getitem input_dim 0 in
       try n_head <- getattr args "n_head" in
       try d_k <- getattr args "d_k" in
       try dropout <- getattr args "dropout" in
       try lms <- local lms in
       let config : namespace :=
         list_to_map
           [("mlp1", VList [dim0; VInt 32; VInt 64]);
            ("pooling", VStr "mean_std");
            ("mlp2", VList [VInt mlp2_first_layer; VInt mlp2_first_layer]);
            ("n_head", n_head);
            ("d_k", d_k);
            ("mlp3", VList [VInt 256; VInt 128]);
            ("dropout", dropout);
            ("T", VInt 1000);
            ("lms", lms);
            ("positions", VStr "bespoke");
            ("mlp4", VList [VInt 128; VInt 64; VInt 32; VInt 5]);
            ("d_model", VInt 256);
            ("geomfeat", include_extras)] in
       try input_dim <- getattr args "input_dim" in
       try dim0 <- getitem input_dim 0 in
       try mlp1 <- item config "mlp1" in
       try pooling <- item config "pooling" in
       try mlp2 <- item config "mlp2" in
       try n_head <- item config "n_head" in
       try d_k <- item config "d_k" in
       try mlp3 <- item config "mlp3" in
       try dropout <- item config "dropout" in
       try T <- item config "T" in
       try lms <- item config "lms" in
       try mlp4 <- item config "mlp4" in
       try d_model <- item config "d_model" in
       let model_config : namespace :=
         list_to_map
           [("input_dim", dim0); ("mlp1", mlp1); ("pooling", pooling);
            ("mlp2", mlp2); ("n_head", n_head); ("d_k", d_k); ("mlp3", mlp3);
            ("dropout", dropout); ("T", T); ("len_max_seq", lms);
            ("positions", VNone); ("mlp4", mlp4); ("d_model", d_model)] in
       Return (config, model_config)
     else
       try input_dim <- getattr args "input_dim" in
       try dim0 <- getitem input_dim 0 in
       try input_dim <- getattr args "input_dim" in
       try dim1 <- getitem input_dim 1 in
       try n_head <- getattr args "n_head" in
       try d_k <- getattr args "d_k" in
       try dropout <- getattr args "dropout" in
       let config : namespace :=
         list_to_map
           [("mlp1-planet", VList [dim0; VInt 32; VInt 64]);
            ("mlp1-s1", VList [dim1; VInt 32; VInt 64]);
            ("pooling", VStr "mean_std");
            ("mlp2", VList [VInt mlp2_first_layer; VInt mlp2_first_layer]);
            ("n_head", n_head);
            ("d_k", d_k);
            ("mlp3_planet", VList [VInt 256; VInt 128]);
            ("mlp3_s1", VList [VInt 256; VInt 64]);
            ("dropout", dropout);
            ("T", VInt 1000);
            ("lms_planet", VInt 244);
            ("lms_s1", VInt 41);
            ("positions", VStr "bespoke");
            ("mlp4", VList [VInt (128 + 64); VInt 64; VInt 32; VInt 5]);
            ("d_model", VInt 256);
            ("geomfeat", include_extras)] in
       try input_dim <- getattr args "input_dim" in
       try dim0 <- getitem input_dim 0 in
       try input_dim <- getattr args "input_dim" in
       try dim1 <- getitem input_dim 1 in
       try mlp1_planet <- item config "mlp1-planet" in
       try mlp1_s1 <- item config "mlp1-s1" in
       try pooling <- item config "pooling" in
       try mlp2 <- item config "mlp2" in
       try n_head <- item config "n_head" in
       try d_k <- item config "d_k" in
       try mlp3_planet <- item config "mlp3_planet" in
       try mlp3_s1 <- item config "mlp3_s1" in
       try dropout <- item config "dropout" in
       try T <- item config "T" in
       try lms_planet <- item config "lms_planet" in
       try lms_s1 <- item config "lms_s1" in
       try mlp4 <- item config "mlp4" in
       try d_model <- item config "d_model" in
       let model_config : namespace :=
         list_to_map
           [("input_dim_planet", dim0); ("input_dim_s1", dim1);
            ("mlp1_planet", mlp1_planet); ("mlp1_s1", mlp1_s1);
            ("pooling", pooling); ("mlp2", mlp2); ("n_head", n_head);
            ("d_k", d_k); ("mlp3_planet", mlp3_planet); ("mlp3_s1", mlp3_s1);
            ("dropout", dropout); ("T", T);
            ("len_max_seq_planet", lms_planet); ("len_max_seq_s1", lms_s1);
            ("positions", VNone); ("mlp4", mlp4); ("d_model", d_model)] in
       Return (config, model_config)) in
  let config := fst both in
  let model_config := snd both in
  try geomfeat <- item config "geomfeat" in
  if truthy geomfeat
  then Return (<["extra_size" := VInt extra_size]>
                 (<["with_extra" := VBool true]> model_config))
  else Return (<["extra_size" := VNone]>
                 (<["with_extra" := VBool false]> model_config)).

(** *** [add_nni_params] *)

Section Nni.

(** [int(s)] on a string: the integer it spells, if it spells one. *)
Variable int_of_str : string -> option Z.

(** [int(v)]; a float is truncated towards zero. *)
Definition to_int (v : value) : res Z :=
  match v with
  | VInt z => Return z
  | VBool b => Return (if b then 1 else 0)%Z
  | VFloat q => Return (Z.quot (Qnum q) (Zpos (Qden q)))
  | VStr s => match int_of_str s with
              | Some z => Return z
              | None => Throw ValueError
              end
  | VNone | VList _ => Throw TypeError
  end.

(** [type(v) is int] *)
Definition type_is_int (v : value) : bool :=
  match v with VInt _ => true | _ => false end.

(** [key in args] *)
Definition contains (args : namespace) (key : string) : bool :=
  match args !! key with Some _ => true | None => false end.

(** The dict comprehension of lines 258-259 over [args_nni.items()]. *)
Fixpoint casted (args_dict : namespace) (items : list (string * value))
  : res (list (string * value)) :=
  match items with
  | [] => Return []
  | (key, v) :: rest =>
      try old <- item args_dict key in
      try v' <- (if type_is_int old
                 then try z <- to_int v in Return (VInt z)
                 else Return v) in
      try rest' <- casted args_dict rest in
      Return ((key, v') :: rest')
  end.

(** [d.update(items)] *)
Definition update (d : namespace) (items : list (string * value))
  : namespace :=
  fold_left (fun d kv => <[fst kv := snd kv]> d) items d.

(** [os.path.expandvars('$NNI_OUTPUT_DIR')]: a variable that is not set is
    left as written. *)
Definition expandvars_nni_output_dir (environ : gmap string string) : string :=
  match environ !! "NNI_OUTPUT_DIR" with
  | Some dir => dir
  | None => "$NNI_OUTPUT_DIR"
  end.

(** [os.path.basename(p)] is [p[p.rfind('/') + 1:]]: what follows the last
    slash. *)
Fixpoint after_last_slash (p tail : string) : string :=
  match p with
  | EmptyString => tail
  | String c rest =>
      if String.eqb (String c EmptyString) "/" then after_last_slash rest rest
      else after_last_slash rest tail
  end.

Definition basename (p : value) : res string :=
  match p with
  | VStr s => Return (after_last_slash s s)
  | _ => Throw TypeError
  end.

(** [args_nni] is what [nni.get_next_parameter()] returns, as the list of its
    items; [environ] is [os.environ]. *)
Definition add_nni_params (args_nni : list (string * value))
    (environ : gmap string string) (args : namespace) : res namespace :=
  if negb (forallb (contains args) (map fst args_nni))
  then Throw AssertionError
  else
    let args_dict := args in
    try args_nni_casted <- casted args_dict args_nni in
    let args_dict := update args_dict args_nni_casted in
    let nni_output_dir := expandvars_nni_output_dir environ in
    try target <- item args_dict "target_dir" in
    try base <- basename target in
    let nni_path := path_join nni_output_dir base in
    Return (<["target_dir" := VStr nni_path]> args_dict).

End Nni.

End Config.

(* ------------------------------------------------------------------------- *)
(** ** Specification-side definitions

    What the statements below compare the code with. *)

Section PlaneLevel.

Context {A : Type}.
Variable zero : A.

(** The pixel of [p] at a signed position, zero outside the [H] x [W] raster. *)
Definition at_or_zero (H W : nat) (p : plane (A := A)) (i j : Z) : A :=
  if ((0 <=? i) && (i <? Z.of_nat H) && (0 <=? j) && (j <? Z.of_nat W))%Z
  then get2 zero p (Z.to_nat i) (Z.to_nat j) else zero.

(** The pixel at an optional source position, zero for padding. *)
Definition src (p : plane (A := A)) (o : option (nat * nat)) : A :=
  match o with Some (i, j) => get2 zero p i j | None => zero end.

(** Rows (or columns) removed at the leading edge when an axis of extent [n]
    is cropped to [size]; minus the rows added there when it is padded. *)
Definition lead (n : nat) (size : Z) : Z :=
  if (size <? Z.of_nat n)%Z then (Z.of_nat n - size) / 2
  else - ((size - Z.of_nat n) / 2).

(** What [random_crop] does to one plane, and to the spatial shape. *)
Definition random_crop_plane (H W : nat) (size h w : Z) (p : plane (A := A)) : plane (A := A) :=
  if (Z.of_nat H - size / 2 <=? size)%Z then p
  else if (Z.of_nat W - size / 2 <=? size)%Z then p
  else slice_cols W (w - size / 2) (w + size / 2)
         (slice_rows H (h - size / 2) (h + size / 2) p).

Definition random_crop_shape (H W : nat) (size h w : Z) : nat * nat :=
  if (Z.of_nat H - size / 2 <=? size)%Z then (H, W)
  else if (Z.of_nat W - size / 2 <=? size)%Z then (H, W)
  else (Py.slice_len H (h - size / 2) (h + size / 2),
        Py.slice_len W (w - size / 2) (w + size / 2)).

(** What [crop_or_pad_to_size] does to one plane. *)
Definition crop_or_pad_plane (H W : nat) (size : Z) (p : plane (A := A)) : plane (A := A) :=
  let hpad := (size - Z.of_nat H)%Z in
  let wpad := (size - Z.of_nat W)%Z in
  let p1 := if (hpad <? 0)%Z then slice_rows H ((- hpad) / 2) (hpad / 2) p else p in
  let p2 := if (wpad <? 0)%Z then slice_cols W ((- wpad) / 2) (wpad / 2) p1 else p1 in
  let W2 := if (wpad <? 0)%Z then Py.slice_len W ((- wpad) / 2) (wpad / 2) else W in
  let p3 := if (hpad >? 0)%Z
            then pad_rows zero W2 (Z.to_nat (hpad / 2)) (Z.to_nat (hpad - hpad / 2)) p2
            else p2 in
  if (wpad >? 0)%Z
  then pad_cols zero (Z.to_nat (wpad / 2)) (Z.to_nat (wpad - wpad / 2)) p3
  else p3.

Definition crop_or_pad_shape (H W : nat) (size : Z) : nat * nat :=
  let hpad := (size - Z.of_nat H)%Z in
  let wpad := (size - Z.of_nat W)%Z in
  let H1 := if (hpad <? 0)%Z then Py.slice_len H ((- hpad) / 2) (hpad / 2) else H in
  let W2 := if (wpad <? 0)%Z then Py.slice_len W ((- wpad) / 2) (wpad / 2) else W in
  let H3 := if (hpad >? 0)%Z
            then (Z.to_nat (hpad / 2) + H1 + Z.to_nat (hpad - hpad / 2))%nat
            else H1 in
  let W4 := if (wpad >? 0)%Z
            then (Z.to_nat (wpad / 2) + W2 + Z.to_nat (wpad - wpad / 2))%nat
            else W2 in
  (H3, W4).

(** What the spatial branch of [transform] does to one plane, and to the
    spatial shape. *)
Definition transform_plane (H W : nat) (size h w rot : Z)
    (p : plane (A := A)) : plane (A := A) :=
  let rc := ((Z.of_nat H >=? size) && (Z.of_nat W >=? size))%Z in
  let p1 := if rc then random_crop_plane H W size h w p else p in
  let s1 := if rc then random_crop_shape H W size h w else (H, W) in
  rot90_plane zero (snd (crop_or_pad_shape (fst s1) (snd s1) size)) rot
    (crop_or_pad_plane (fst s1) (snd s1) size p1).

Definition transform_shape (H W : nat) (size h w rot : Z) : nat * nat :=
  let rc := ((Z.of_nat H >=? size) && (Z.of_nat W >=? size))%Z in
  let s1 := if rc then random_crop_shape H W size h w else (H, W) in
  rot90_shape rot (crop_or_pad_shape (fst s1) (snd s1) size).

End PlaneLevel.

(** The raster whose pixel at [(i, j)] is the position [(i, j)] itself. *)
Definition coords (H W : nat) : plane (A := option (nat * nat)) :=
  map (fun i => map (fun j => Some (i, j)) (seq 0 W)) (seq 0 H).

(** The source position of every output pixel of the spatial branch: the
    code run on the raster of positions. *)
Definition source_of (H W : nat) (size h w rot : Z) (i j : nat)
  : option (nat * nat) :=
  get2 None (transform_plane None H W size h w rot (coords H W)) i j.

(** *** Concrete inputs used to exercise the statements *)

Module Sample.

(** A 5 x 5 raster whose pixel at [(i, j)] is [10 i + j + 1]. *)
Definition raster5 : plane (A := Q) :=
  map (fun i => map (fun j => inject_Z (10 * Z.of_nat i + Z.of_nat j + 1))
                    (seq 0 5)) (seq 0 5).

Definition mask5 : ndarray2 (A := Q) := mk2 (5, 5)%nat raster5.

(** One date, two channels holding the same raster. *)
Definition stack5 : ndarray4 (A := Q) := mk4 (1, 2, 5, 5)%nat [[raster5; raster5]].

(** A 7 x 7 raster, large enough for [random_crop] to crop to size 4. *)
Definition raster7 : plane (A := Q) :=
  map (fun i => map (fun j => inject_Z (10 * Z.of_nat i + Z.of_nat j + 1))
                    (seq 0 7)) (seq 0 7).

Definition mask7 : ndarray2 (A := Q) := mk2 (7, 7)%nat raster7.

Definition stack7 : ndarray4 (A := Q) := mk4 (1, 1, 7, 7)%nat [[raster7]].

End Sample.

(** *** The mean over the masked pixels, position by position *)




(** *** Normalisation with constants that depend on the channel

    [normalised_with mu sigma]: the z-normalisation of [transform] subtracts
    [mu c] plus the jitter from, and divides by [sigma c] plus the jitter,
    every rescaled entry of channel [c]. *)
Definition normalised_with (mu sigma : nat -> Q) : Prop :=
  forall (jm js : Q) (x : ndarray4 (A := Q)) (T D H W t c i j : nat),
    wf4 x -> shape4 x = (T, D, H, W) ->
    (t < T)%nat -> (c < D)%nat -> (i < H)%nat -> (j < W)%nat ->
    match Transform.scale_image true jm js (Transform.Image4 x) with
    | Transform.Image4 y =>
        (get4 0%Q (data4 y) t c i j
         == (get4 0%Q (data4 x) t c i j * (1 # 10000) - (mu c + jm))
            / (sigma c + js))%Q
    | Transform.Image2 _ => False
    end.

(** The constants differ from one channel to another. *)
Definition differ_per_channel (mu sigma : nat -> Q) : Prop :=
  exists c c', ~ (mu c == mu c')%Q \/ ~ (sigma c == sigma c')%Q.

(** *** Concrete inputs for the evaluation and training statements *)

Module SampleRun.

(** A stand-in for the external softmax: the vector over its sum. *)
Definition probs (l : list Q) : list Q :=
  map (fun x => (x / Transform.Qsum l)%Q) l.

(** A stand-in for the external BCE reduction. *)
Definition bce0 (input target : list Q) : Q := 0%Q.

(** A model whose output is its input vector. *)
Definition forward0 (m : unit) (x : list Q) : list Q := x.

Definition label_ids : list Z := [1; 2; 3; 4; 5]%Z.

Definition label_names : list string :=
  ["Wheat"; "Barley"; "Canola"; "Lucerne/Medics"; "Small grain grazing"]%string.

Definition args0 : Args := mkArgs "test" "." 2 10 2 3.

(** One batch of two samples, field ids 11 and 12. *)
Definition loader2 : list (list (list Q * Z)) :=
  [[([1; 3; 1; 0; 0]%Q, 11%Z); ([4; 1; 0; 0; 0]%Q, 12%Z)]].

Definition row11 : prediction :=
  mkPrediction 11 2 "Barley" (probs [1; 3; 1; 0; 0]%Q).

(** A file system holding a checkpoint at [best_model.pt]. *)
Definition world0 : world unit :=
  mkWorld unit (<["best_model.pt" := CheckpointFile unit 7 tt]> ∅) [] tt true.

End SampleRun.

(** *** The fold, epoch by epoch *)

Module FoldSpec.

Section Spec.

Variable ModelState OptimizerState : Type.
Variable model_state : nat -> ModelState.
Variable optimizer_state : nat -> OptimizerState.
Variable valid_loss : nat -> Training.loss.

(** The best validation loss of the epochs before [e]. *)
Fixpoint best_before (e : nat) : Training.loss :=
  match e with
  | O => Training.PInf
  | S e' => if Training.loss_ltb (valid_loss e') (best_before e')
            then valid_loss e' else best_before e'
  end.

(** Epoch [e] attains a new best validation loss. *)
Definition improves (e : nat) : bool :=
  Training.loss_ltb (valid_loss e) (best_before e).

(** The number of consecutive non-improving epochs that end with epoch [e]. *)
Fixpoint stale (e : nat) : nat :=
  match e with
  | O => if improves 0 then 0 else 1
  | S e' => if improves (S e') then 0 else S (stale e')
  end.

(** The last improving epoch before [e]. *)
Fixpoint last_improving (e : nat) : option nat :=
  match e with
  | O => None
  | S e' => if improves e' then Some e' else last_improving e'
  end.

(** The first epoch below [N] at which the run of non-improving epochs has
    length [patience]. *)
Definition stop_epoch (args : Args) (N : nat) : option nat :=
  find (fun e => (Z.of_nat (stale e) =? patience args)%Z) (seq 0 N).

(** Epoch [e] is a positive multiple of [checkpoint_epoch]. *)
Definition periodic (args : Args) (e : nat) : bool :=
  ((Z.of_nat e mod checkpoint_epoch args =? 0)%Z && negb (Z.of_nat e =? 0)%Z).

(** The epochs whose body ran to its end, and those that ran at all. *)
Definition completed (args : Args) (N : nat) : nat :=
  match stop_epoch args N with Some b => b | None => N end.

Definition executed (args : Args) (N : nat) : nat :=
  match stop_epoch args N with Some b => S b | None => N end.

Definition periodic_saves (args : Args) (n : nat)
  : list (string * Training.checkpoint ModelState OptimizerState) :=
  map (fun e => (Training.epoch_path args e,
                 Training.mkCheckpoint ModelState OptimizerState
                   (model_state e) (optimizer_state e) e))
      (List.filter (periodic args) (seq 0 n)).

(** The loop variables after the loop over [range(N)]. *)
Definition loop_state (args : Args) (prev : option (ModelState * OptimizerState))
    (N : nat) : Training.fold_state ModelState OptimizerState :=
  let ex := executed args N in
  Training.mkFoldState ModelState OptimizerState
    (best_before ex)
    (match last_improving ex with Some b => b | None => 0%nat end)
    (match last_improving ex with
     | Some b => Some (model_state b, optimizer_state b)
     | None => prev
     end)
    (match ex with O => 0%nat | S e => stale e end)
    (periodic_saves args (completed args N)).

(** The claim C3 as stated: every executed epoch that is a positive multiple
    of [checkpoint_epoch], and every executed epoch that attains a new best
    validation loss, has a saved checkpoint holding the states of that
    epoch. *)
Definition saved_at_every_periodic_and_best (args : Args) (fold : nat)
    (prev : option (ModelState * OptimizerState)) : Prop :=
  forall s exit,
    Training.run_fold ModelState OptimizerState model_state optimizer_state
      valid_loss args fold prev = Ok (s, exit) ->
    forall e, (e < executed args (Z.to_nat (max_epochs args)))%nat ->
      periodic args e = true \/ improves e = true ->
      exists path ck,
        In (path, ck) (Training.saved ModelState OptimizerState s) /\
        Training.ck_epoch ModelState OptimizerState ck = e /\
        Training.ck_model_state ModelState OptimizerState ck = model_state e /\
        Training.ck_optimizer_state ModelState OptimizerState ck
        = optimizer_state e.

End Spec.

End FoldSpec.

(** A fold of four epochs before the stop: losses 5, 4, 6, 6, then NaN;
    the states are identified with the epoch they were taken at. *)
Module SampleFold.

Definition losses (e : nat) : Training.loss :=
  nth e [Training.Fin 5; Training.Fin 4; Training.Fin 6; Training.Fin 6]
      Training.NaN.

Definition state_of (e : nat) : nat := e.

End SampleFold.

(** *** A concrete epoch: five samples [(x, y_true, fid)], batch size 2 *)

Module SampleEpoch.

Definition samples : list (list Q * Z * Z) :=
  [([1; 3; 1; 0; 0]%Q, 1%Z, 11%Z); ([4; 1; 0; 0; 0]%Q, 0%Z, 12%Z);
   ([0; 1; 0; 5; 0]%Q, 3%Z, 13%Z); ([0; 0; 2; 0; 1]%Q, 2%Z, 14%Z);
   ([1; 1; 1; 1; 9]%Q, 4%Z, 15%Z)].

Definition step0 (st : unit) (batch : list (list Q * Z * Z)) : unit := st.

Definition exp0 (row : list Q) : list Q := row.

Definition model0 : net unit := mkNet unit tt false.

End SampleEpoch.

(** *** The records of the prediction export *)

Section RecordSpec.

Variable softmax : list Q -> list Q.
Variable ModelState Input : Type.
Variable forward : ModelState -> Input -> list Q.

(** What one record is made of. *)
Definition top1_record (st : ModelState) (label_ids : list Z)
    (label_names : list string) (b : list (Input * Z)) (r : prediction) : Prop :=
  exists x f rest k,
    b = (x, f) :: rest /\
    fid r = f /\
    crop_probs r = softmax (forward st x) /\
    (k < length (crop_probs r))%nat /\
    (forall j, (j < length (crop_probs r))%nat ->
               (nth j (crop_probs r) 0 <= nth k (crop_probs r) 0)%Q) /\
    (forall j, (j < k)%nat ->
               (nth j (crop_probs r) 0 < nth k (crop_probs r) 0)%Q) /\
    nth_error label_ids k = Some (crop_id r) /\
    nth_error label_names k = Some (crop_name r).

End RecordSpec.

(** [k] is the first index at which the vector [p] is maximal. *)
Definition first_maximum (p : list Q) (k : nat) : Prop :=
  (k < length p)%nat /\
  (forall j, (j < length p)%nat -> (nth j p 0 <= nth k p 0)%Q) /\
  (forall j, (j < k)%nat -> (nth j p 0 < nth k p 0)%Q).

(** The modules below a module: its children and theirs, and so on. *)
Fixpoint descendants (m : Reset.layer) : list Reset.layer :=
  match m with
  | Reset.Layer _ _ cs => flat_map (fun c => c :: descendants c) cs
  end.

(** Whether a path contains a slash. *)
Fixpoint has_slash (p : string) : bool :=
  match p with
  | EmptyString => false
  | String c rest => String.eqb (String c EmptyString) "/" || has_slash rest
  end.

(** Argument namespaces to run the configuration code on: the argparse
    defaults, one sensor, two sensors with a single input dimension, and a
    trial of NNI. *)
Module SampleConfig.
Import Config.

Definition defaults : namespace :=
  list_to_map
    [("include_extras", VInt 0); ("input_data", VStr "planet");
     ("input_dim", VInt 4); ("n_head", VInt 16); ("d_k", VInt 8);
     ("dropout", VFloat (2 # 10)); ("target_dir", VStr ".");
     ("batch_size", VInt 8)].

Definition single (sensor : string) (extras : Z) : namespace :=
  list_to_map
    [("include_extras", VInt extras); ("input_data", VList [VStr sensor]);
     ("input_dim", VList [VInt 4]); ("n_head", VInt 16); ("d_k", VInt 8);
     ("dropout", VFloat (2 # 10))].

Definition combined_one_dim : namespace :=
  list_to_map
    [("include_extras", VInt 0);
     ("input_data", VList [VStr "planet"; VStr "sentinel-1"]);
     ("input_dim", VList [VInt 4]); ("n_head", VInt 16); ("d_k", VInt 8);
     ("dropout", VFloat (2 # 10))].

Definition nni_args : namespace :=
  list_to_map
    [("target_dir", VStr "runs/exp1"); ("batch_size", VInt 64);
     ("dropout", VFloat (2 # 10))].

Definition nni_params : list (string * value) :=
  [("batch_size", VFloat (32 # 1)); ("dropout", VFloat (1 # 2))].

Definition environ : gmap string string :=
  {["NNI_OUTPUT_DIR" := "/nni/out"]}.

Definition no_int (s : string) : option Z := None.

End SampleConfig.

(* ------------------------------------------------------------------------- *)
(** ** Facts about slices and the plane operations *)

Section SliceFacts.

Lemma slice_index_crop_start (n : nat) (size : Z) :
  (0 <= size < Z.of_nat n)%Z ->
  Py.slice_index n ((- (size - Z.of_nat n)) / 2)
  = Z.to_nat ((Z.of_nat n - size) / 2).
Proof.
  intros Hs. unfold Py.slice_index.
  replace (- (size - Z.of_nat n))%Z with (Z.of_nat n - size)%Z by lia.
  destruct (Z.ltb_spec ((Z.of_nat n - size) / 2) 0) as [Hneg|Hpos].
  - exfalso. Z.to_euclidean_division_equations. lia.
  - f_equal. Z.to_euclidean_division_equations. lia.
Qed.

Lemma slice_index_crop_stop (n : nat) (size : Z) :
  (0 <= size < Z.of_nat n)%Z ->
  Py.slice_index n ((size - Z.of_nat n) / 2)
  = Z.to_nat ((Z.of_nat n - size) / 2 + size).
Proof.
  intros Hs. unfold Py.slice_index.
  destruct (Z.ltb_spec ((size - Z.of_nat n) / 2) 0) as [Hneg|Hpos].
  - f_equal. Z.to_euclidean_division_equations. lia.
  - exfalso. Z.to_euclidean_division_equations. lia.
Qed.

Lemma slice_len_crop (n : nat) (size : Z) :
  (0 <= size < Z.of_nat n)%Z ->
  Py.slice_len n ((- (size - Z.of_nat n)) / 2) ((size - Z.of_nat n) / 2)
  = Z.to_nat size.
Proof.
  intros Hs. unfold Py.slice_len.
  rewrite slice_index_crop_start, slice_index_crop_stop by exact Hs.
  assert (0 <= (Z.of_nat n - size) / 2)%Z
    by (Z.to_euclidean_division_equations; lia).
  lia.
Qed.

Lemma slice_index_le (n : nat) (i : Z) : (Py.slice_index n i <= n)%nat.
Proof. unfold Py.slice_index. destruct (i <? 0)%Z; lia. Qed.

Context {A : Type}.

Lemma slice_length (n : nat) (a b : Z) (l : list A) :
  length l = n -> length (Py.slice n a b l) = Py.slice_len n a b.
Proof.
  intros Hl. unfold Py.slice, Py.slice_len.
  rewrite length_firstn, length_skipn, Hl.
  pose proof (slice_index_le n a). pose proof (slice_index_le n b). lia.
Qed.

Lemma slice_nth (n : nat) (a b : Z) (l : list A) (d : A) (i : nat) :
  nth i (Py.slice n a b l) d
  = if (i <? Py.slice_len n a b)%nat then nth (Py.slice_index n a + i) l d else d.
Proof.
  unfold Py.slice, Py.slice_len. rewrite nth_firstn.
  destruct (i <? _)%nat; [apply nth_skipn | reflexivity].
Qed.

End SliceFacts.

Section PlaneFacts.

Context {A : Type}.
Variable zero : A.

Lemma slice_nil (n : nat) (a b : Z) : Py.slice n a b (@nil A) = [].
Proof. unfold Py.slice. rewrite skipn_nil. apply firstn_nil. Qed.

Lemma get2_nil_row (p : plane (A := A)) (i j : nat) :
  (length p <= i)%nat -> get2 zero p i j = zero.
Proof.
  intros Hi. unfold get2. rewrite (nth_overflow p) by exact Hi.
  destruct j; reflexivity.
Qed.

Lemma get2_repeat_zero (W n i j : nat) :
  get2 zero (repeat (repeat zero W) n) i j = zero.
Proof.
  unfold get2. destruct (Nat.lt_ge_cases i n) as [Hlt|Hge].
  - rewrite (nth_indep _ [] (repeat zero W)) by (rewrite repeat_length; exact Hlt).
    rewrite nth_repeat. apply nth_repeat.
  - rewrite (nth_overflow (repeat (repeat zero W) n))
      by (rewrite repeat_length; exact Hge).
    destruct j; reflexivity.
Qed.

Lemma get2_slice_rows (H : nat) (a b : Z) (p : plane (A := A)) (i j : nat) :
  get2 zero (slice_rows H a b p) i j
  = if (i <? Py.slice_len H a b)%nat
    then get2 zero p (Py.slice_index H a + i) j else zero.
Proof.
  unfold get2, slice_rows. rewrite slice_nth.
  destruct (i <? _)%nat; [reflexivity | destruct j; reflexivity].
Qed.

Lemma get2_slice_cols (W : nat) (a b : Z) (p : plane (A := A)) (i j : nat) :
  get2 zero (slice_cols W a b p) i j
  = if (j <? Py.slice_len W a b)%nat
    then get2 zero p i (Py.slice_index W a + j) else zero.
Proof.
  unfold get2, slice_cols.
  rewrite <- (slice_nil W a b) at 1. rewrite map_nth. apply slice_nth.
Qed.

Lemma get2_pad_rows (W bf af : nat) (p : plane (A := A)) (i j : nat) :
  get2 zero (pad_rows zero W bf af p) i j
  = if (i <? bf)%nat then zero else get2 zero p (i - bf) j.
Proof.
  unfold pad_rows. destruct (Nat.ltb_spec i bf) as [Hlt|Hge].
  - unfold get2. rewrite app_nth1 by (rewrite repeat_length; exact Hlt).
    apply get2_repeat_zero.
  - unfold get2. rewrite app_nth2 by (rewrite repeat_length; lia).
    rewrite repeat_length.
    destruct (Nat.lt_ge_cases (i - bf) (length p)) as [Hin|Hout].
    + rewrite app_nth1 by exact Hin. reflexivity.
    + rewrite app_nth2 by lia.
      fold (get2 zero (repeat (repeat zero W) af) (i - bf - length p) j).
      rewrite get2_repeat_zero. symmetry. apply get2_nil_row. exact Hout.
Qed.

Lemma nth_pad_row (bf af : nat) (r : list A) (j : nat) :
  nth j (repeat zero bf ++ r ++ repeat zero af) zero
  = if (j <? bf)%nat then zero else nth (j - bf) r zero.
Proof.
  destruct (Nat.ltb_spec j bf) as [Hlt|Hge].
  - rewrite app_nth1 by (rewrite repeat_length; exact Hlt). apply nth_repeat.
  - rewrite app_nth2 by (rewrite repeat_length; lia). rewrite repeat_length.
    destruct (Nat.lt_ge_cases (j - bf) (length r)) as [Hin|Hout].
    + apply app_nth1. exact Hin.
    + rewrite app_nth2 by lia. rewrite nth_repeat.
      symmetry. apply nth_overflow. exact Hout.
Qed.

Lemma get2_pad_cols (bf af : nat) (p : plane (A := A)) (i j : nat) :
  get2 zero (pad_cols zero bf af p) i j
  = if (j <? bf)%nat then zero else get2 zero p i (j - bf).
Proof.
  unfold pad_cols. destruct (Nat.lt_ge_cases i (length p)) as [Hin|Hout].
  - unfold get2.
    rewrite (nth_indep _ [] (repeat zero bf ++ [] ++ repeat zero af))
      by (rewrite length_map; exact Hin).
    rewrite (map_nth (fun r => repeat zero bf ++ r ++ repeat zero af)).
    apply nth_pad_row.
  - rewrite !get2_nil_row by (rewrite ?length_map; exact Hout).
    destruct (j <? bf)%nat; reflexivity.
Qed.

(** *** Shapes are preserved as numpy says *)

Lemma wf_slice_rows (H W : nat) (a b : Z) (p : plane (A := A)) :
  wf_plane H W p -> wf_plane (Py.slice_len H a b) W (slice_rows H a b p).
Proof.
  intros [Hl Hr]. split.
  - apply slice_length. exact Hl.
  - unfold slice_rows, Py.slice. apply Forall_take, Forall_drop, Hr.
Qed.

Lemma wf_slice_cols (H W : nat) (a b : Z) (p : plane (A := A)) :
  wf_plane H W p -> wf_plane H (Py.slice_len W a b) (slice_cols W a b p).
Proof.
  intros [Hl Hr]. split.
  - unfold slice_cols. rewrite length_map. exact Hl.
  - unfold slice_cols. rewrite Forall_map.
    rewrite List.Forall_forall in *. intros r Hin.
    apply slice_length. apply Hr. exact Hin.
Qed.

Lemma wf_pad_rows (H W bf af : nat) (p : plane (A := A)) :
  wf_plane H W p -> wf_plane (bf + H + af) W (pad_rows zero W bf af p).
Proof.
  intros [Hl Hr]. split.
  - unfold pad_rows. rewrite !length_app, !repeat_length. lia.
  - unfold pad_rows. rewrite !Forall_app. repeat split.
    + apply List.Forall_forall. intros r Hin. apply repeat_spec in Hin.
      subst r. apply repeat_length.
    + exact Hr.
    + apply List.Forall_forall. intros r Hin. apply repeat_spec in Hin.
      subst r. apply repeat_length.
Qed.

Lemma wf_pad_cols (H W bf af : nat) (p : plane (A := A)) :
  wf_plane H W p -> wf_plane H (bf + W + af) (pad_cols zero bf af p).
Proof.
  intros [Hl Hr]. split.
  - unfold pad_cols. rewrite length_map. exact Hl.
  - unfold pad_cols. rewrite Forall_map.
    rewrite List.Forall_forall in *. intros r Hin.
    rewrite !length_app, !repeat_length, (Hr r Hin). lia.
Qed.

Lemma wf_flip_rows (H W : nat) (p : plane (A := A)) :
  wf_plane H W p -> wf_plane H W (flip_rows p).
Proof.
  intros [Hl Hr]. split.
  - unfold flip_rows. rewrite length_rev. exact Hl.
  - unfold flip_rows. apply Forall_rev. exact Hr.
Qed.

Lemma wf_flip_cols (H W : nat) (p : plane (A := A)) :
  wf_plane H W p -> wf_plane H W (flip_cols p).
Proof.
  intros [Hl Hr]. split.
  - unfold flip_cols. rewrite length_map. exact Hl.
  - unfold flip_cols. rewrite Forall_map.
    rewrite List.Forall_forall in *. intros r Hin.
    rewrite length_rev. apply Hr. exact Hin.
Qed.

Lemma wf_transpose (H W : nat) (p : plane (A := A)) :
  wf_plane H W p -> wf_plane W H (transpose zero W p).
Proof.
  intros [Hl Hr]. split.
  - unfold transpose. rewrite length_map, length_seq. reflexivity.
  - unfold transpose. rewrite Forall_map. apply List.Forall_forall.
    intros j _. rewrite length_map. exact Hl.
Qed.

Lemma wf_rot90_plane (n : nat) (k : Z) (p : plane (A := A)) :
  wf_plane n n p -> wf_plane n n (rot90_plane zero n k p).
Proof.
  intros Hp. unfold rot90_plane.
  destruct (_ =? 0)%Z; [exact Hp|].
  destruct (_ =? 2)%Z; [apply wf_flip_cols, wf_flip_rows, Hp|].
  destruct (_ =? 1)%Z.
  - apply wf_transpose, wf_flip_cols, Hp.
  - apply wf_flip_cols, wf_transpose, Hp.
Qed.

End PlaneFacts.

(** *** The plane operations commute with a pointwise change of values *)

Section Naturality.

Context {A B : Type}.
Variables (zA : A) (zB : B) (f : A -> B).
Hypothesis f_zero : f zA = zB.

Lemma slice_map {X Y : Type} (g : X -> Y) (n : nat) (a b : Z) (l : list X) :
  Py.slice n a b (map g l) = map g (Py.slice n a b l).
Proof. unfold Py.slice. rewrite skipn_map. apply firstn_map. Qed.

Lemma slice_rows_map (H : nat) (a b : Z) (p : plane (A := A)) :
  slice_rows H a b (map (map f) p) = map (map f) (slice_rows H a b p).
Proof. apply slice_map. Qed.

Lemma slice_cols_map (W : nat) (a b : Z) (p : plane (A := A)) :
  slice_cols W a b (map (map f) p) = map (map f) (slice_cols W a b p).
Proof.
  unfold slice_cols. rewrite !map_map. apply map_ext.
  intros r. apply slice_map.
Qed.

Lemma pad_rows_map (W bf af : nat) (p : plane (A := A)) :
  pad_rows zB W bf af (map (map f) p) = map (map f) (pad_rows zA W bf af p).
Proof.
  unfold pad_rows. rewrite !map_app, !map_repeat, f_zero.
  reflexivity.
Qed.

Lemma pad_cols_map (bf af : nat) (p : plane (A := A)) :
  pad_cols zB bf af (map (map f) p) = map (map f) (pad_cols zA bf af p).
Proof.
  unfold pad_cols. rewrite !map_map. apply map_ext. intros r.
  rewrite !map_app, !map_repeat, f_zero. reflexivity.
Qed.

Lemma flip_rows_map (p : plane (A := A)) :
  flip_rows (map (map f) p) = map (map f) (flip_rows p).
Proof. unfold flip_rows. symmetry. apply map_rev. Qed.

Lemma flip_cols_map (p : plane (A := A)) :
  flip_cols (map (map f) p) = map (map f) (flip_cols p).
Proof.
  unfold flip_cols. rewrite !map_map. apply map_ext. intros r.
  symmetry. apply map_rev.
Qed.

Lemma transpose_map (W : nat) (p : plane (A := A)) :
  transpose zB W (map (map f) p) = map (map f) (transpose zA W p).
Proof.
  unfold transpose. rewrite !map_map. apply map_ext. intros j.
  rewrite !map_map. apply map_ext. intros r.
  rewrite <- f_zero. apply map_nth.
Qed.

Lemma rot90_plane_map (W : nat) (k : Z) (p : plane (A := A)) :
  rot90_plane zB W k (map (map f) p) = map (map f) (rot90_plane zA W k p).
Proof.
  unfold rot90_plane.
  destruct (_ =? 0)%Z; [reflexivity|].
  destruct (_ =? 2)%Z; [rewrite flip_rows_map; apply flip_cols_map|].
  destruct (_ =? 1)%Z.
  - rewrite flip_cols_map. apply transpose_map.
  - rewrite transpose_map. apply flip_cols_map.
Qed.

Lemma random_crop_plane_map (H W : nat) (size h w : Z) (p : plane (A := A)) :
  random_crop_plane H W size h w (map (map f) p)
  = map (map f) (random_crop_plane H W size h w p).
Proof.
  unfold random_crop_plane.
  destruct (_ <=? _)%Z; [reflexivity|].
  destruct (_ <=? _)%Z; [reflexivity|].
  rewrite slice_rows_map. apply slice_cols_map.
Qed.

Lemma crop_or_pad_plane_map (H W : nat) (size : Z) (p : plane (A := A)) :
  crop_or_pad_plane zB H W size (map (map f) p)
  = map (map f) (crop_or_pad_plane zA H W size p).
Proof.
  unfold crop_or_pad_plane.
  destruct (size - Z.of_nat H <? 0)%Z, (size - Z.of_nat W <? 0)%Z,
    (size - Z.of_nat H >? 0)%Z, (size - Z.of_nat W >? 0)%Z;
    rewrite ?slice_rows_map, ?slice_cols_map, ?pad_rows_map, ?pad_cols_map;
    reflexivity.
Qed.

Lemma transform_plane_map (H W : nat) (size h w rot : Z) (p : plane (A := A)) :
  transform_plane zB H W size h w rot (map (map f) p)
  = map (map f) (transform_plane zA H W size h w rot p).
Proof.
  unfold transform_plane.
  destruct ((Z.of_nat H >=? size) && (Z.of_nat W >=? size))%Z;
    rewrite ?random_crop_plane_map, crop_or_pad_plane_map;
    apply rot90_plane_map.
Qed.

Lemma get2_map (p : plane (A := A)) (i j : nat) :
  get2 zB (map (map f) p) i j = f (get2 zA p i j).
Proof.
  unfold get2. change (@nil B) with (map f []).
  rewrite (map_nth (map f)). rewrite <- f_zero. apply map_nth.
Qed.

End Naturality.

Lemma map_nth_seq {X : Type} (l : list X) (d : X) :
  map (fun i => nth i l d) (seq 0 (length l)) = l.
Proof.
  induction l as [|x l IH]; [reflexivity|].
  cbn [length seq map nth]. f_equal.
  rewrite <- seq_shift, map_map. exact IH.
Qed.

Section StackFacts.

Context {A : Type}.
Variable zero : A.

(** A well-shaped plane is the raster of its own pixels. *)
Lemma src_coords (H W : nat) (p : plane (A := A)) :
  wf_plane H W p -> map (map (src zero p)) (coords H W) = p.
Proof.
  intros [Hl Hr]. unfold coords. rewrite map_map.
  transitivity (map (fun i => nth i p []) (seq 0 (length p)));
    [| apply map_nth_seq].
  rewrite Hl. apply map_ext_in. intros i Hi. apply in_seq in Hi.
  rewrite map_map. cbn [src].
  assert (Hrow : length (nth i p []) = W).
  { rewrite List.Forall_forall in Hr. apply Hr. apply nth_In. lia. }
  transitivity (map (fun j => nth j (nth i p []) zero)
                  (seq 0 (length (nth i p []))));
    [| apply map_nth_seq].
  rewrite Hrow. reflexivity.
Qed.

Lemma on_planes_id (x : list (list (plane (A := A)))) :
  on_planes (fun p => p) x = x.
Proof.
  unfold on_planes. rewrite <- (map_id x) at 2. apply map_ext.
  intros xt. apply map_id.
Qed.

Lemma on_planes_comp (F G : plane (A := A) -> plane (A := A))
    (x : list (list (plane (A := A)))) :
  on_planes G (on_planes F x) = on_planes (fun p => G (F p)) x.
Proof.
  unfold on_planes. rewrite map_map. apply map_ext.
  intros xt. apply map_map.
Qed.

Lemma wf4_plane (T D H W : nat) (x : list (list (plane (A := A)))) (t d : nat) :
  wf4 (mk4 (T, D, H, W) x) -> (t < T)%nat -> (d < D)%nat ->
  length (nth t x []) = D /\ wf_plane H W (nth d (nth t x []) []).
Proof.
  unfold wf4. cbn [shape4 data4]. intros [Hl Hx] Ht Hd.
  rewrite List.Forall_forall in Hx.
  destruct (Hx (nth t x [])) as [HD Hp]; [apply nth_In; lia|].
  split; [exact HD|].
  rewrite List.Forall_forall in Hp. apply Hp. apply nth_In. lia.
Qed.

Lemma wf4_on_planes (F : plane (A := A) -> plane (A := A))
    (T D H W H' W' : nat) (x : list (list (plane (A := A)))) :
  (forall p, wf_plane H W p -> wf_plane H' W' (F p)) ->
  wf4 (mk4 (T, D, H, W) x) -> wf4 (mk4 (T, D, H', W') (on_planes F x)).
Proof.
  unfold wf4, on_planes. cbn [shape4 data4]. intros HF [Hl Hx]. split.
  - rewrite length_map. exact Hl.
  - rewrite Forall_map. rewrite List.Forall_forall in *.
    intros xt Hin. destruct (Hx xt Hin) as [HD Hp]. split.
    + rewrite length_map. exact HD.
    + rewrite Forall_map. rewrite List.Forall_forall in *.
      intros p Hp'. apply HF, Hp, Hp'.
Qed.

Lemma get4_on_planes (F : plane (A := A) -> plane (A := A))
    (T D H W : nat) (x : list (list (plane (A := A)))) (t d i j : nat) :
  wf4 (mk4 (T, D, H, W) x) -> (t < T)%nat -> (d < D)%nat ->
  get4 zero (on_planes F x) t d i j
  = get2 zero (F (nth d (nth t x []) [])) i j.
Proof.
  intros Hwf Ht Hd. destruct (wf4_plane _ _ _ _ _ t d Hwf Ht Hd) as [HD _].
  unfold get4, on_planes. f_equal.
  change (@nil (plane (A := A))) with (map F []) at 1.
  rewrite (map_nth (map F)).
  rewrite (nth_indep _ [] (F [])) by (rewrite length_map; lia).
  apply map_nth.
Qed.

(** *** The array functions act plane by plane *)

Lemma random_crop_factor (x : ndarray4 (A := A)) (m : ndarray2 (A := A)) (T D H W : nat)
    (size h w : Z) :
  shape4 x = (T, D, H, W) -> shape2 m = (H, W) ->
  random_crop x m size h w
  = (mk4 (T, D, fst (random_crop_shape H W size h w),
                snd (random_crop_shape H W size h w))
         (on_planes (random_crop_plane H W size h w) (data4 x)),
     mk2 (random_crop_shape H W size h w)
         (random_crop_plane H W size h w (data2 m))).
Proof.
  destruct x as [sx xd], m as [sm md]. cbn [shape4 shape2 data4 data2].
  intros -> ->. unfold random_crop, random_crop_shape, random_crop_plane.
  cbn [shape4 shape2 data4 data2].
  destruct (_ <=? _)%Z; [rewrite on_planes_id; reflexivity|].
  destruct (_ <=? _)%Z; [rewrite on_planes_id; reflexivity|].
  reflexivity.
Qed.

Lemma crop_or_pad_factor (x : ndarray4 (A := A)) (m : ndarray2 (A := A)) (T D H W : nat)
    (size : Z) :
  shape4 x = (T, D, H, W) -> shape2 m = (H, W) ->
  crop_or_pad_to_size zero x m size
  = (mk4 (T, D, fst (crop_or_pad_shape H W size),
                snd (crop_or_pad_shape H W size))
         (on_planes (crop_or_pad_plane zero H W size) (data4 x)),
     mk2 (crop_or_pad_shape H W size)
         (crop_or_pad_plane zero H W size (data2 m))).
Proof.
  destruct x as [sx xd], m as [sm md]. cbn [shape4 shape2 data4 data2].
  intros -> ->. unfold crop_or_pad_to_size, crop_or_pad_shape, crop_or_pad_plane.
  cbn [shape4 shape2 data4 data2].
  destruct (size - Z.of_nat H <? 0)%Z, (size - Z.of_nat W <? 0)%Z,
    (size - Z.of_nat H >? 0)%Z, (size - Z.of_nat W >? 0)%Z;
    cbn [shape4 shape2 data4 data2 slice4_rows slice2_rows slice4_cols
           slice2_cols pad4_rows pad2_rows pad4_cols pad2_cols fst snd];
    rewrite ?on_planes_comp, ?on_planes_id; reflexivity.
Qed.

Lemma transform_spatial_factor (x : ndarray4 (A := A)) (m : ndarray2 (A := A)) (T D H W : nat)
    (size h w rot : Z) :
  shape4 x = (T, D, H, W) -> shape2 m = (H, W) ->
  transform_spatial zero size h w rot x m
  = (mk4 (T, D, fst (transform_shape H W size h w rot),
                snd (transform_shape H W size h w rot))
         (on_planes (transform_plane zero H W size h w rot) (data4 x)),
     mk2 (transform_shape H W size h w rot)
         (transform_plane zero H W size h w rot (data2 m))).
Proof.
  intros Hx Hm. unfold transform_spatial, transform_shape, transform_plane.
  rewrite Hx.
  destruct ((Z.of_nat H >=? size) && (Z.of_nat W >=? size))%Z.
  - rewrite (random_crop_factor x m T D H W size h w Hx Hm).
    cbv iota beta.
    rewrite (crop_or_pad_factor _ _ T D (fst (random_crop_shape H W size h w))
               (snd (random_crop_shape H W size h w)) size)
      by (cbn [shape4 shape2]; try reflexivity;
          destruct (random_crop_shape H W size h w); reflexivity).
    destruct (crop_or_pad_shape _ _ size) as [Hc Wc].
    unfold rot90_4, rot90_2. cbn [data4 data2 shape4 shape2 fst snd].
    rewrite !on_planes_comp.
    destruct (rot90_shape rot (Hc, Wc)) as [H' W']. reflexivity.
  - rewrite (crop_or_pad_factor x m T D H W size Hx Hm).
    cbn [fst snd].
    destruct (crop_or_pad_shape H W size) as [Hc Wc].
    unfold rot90_4, rot90_2. cbn [data4 data2 shape4 shape2 fst snd].
    destruct (rot90_shape rot (Hc, Wc)) as [H' W'].
    rewrite !on_planes_comp. reflexivity.
Qed.

End StackFacts.

Section CropPadFacts.

Context {A : Type}.
Variable zero : A.

Lemma get2_outside (H W : nat) (p : plane (A := A)) (i j : nat) :
  wf_plane H W p -> (H <= i \/ W <= j)%nat -> get2 zero p i j = zero.
Proof.
  intros [Hl Hr] Hout.
  destruct (Nat.lt_ge_cases i H) as [Hi|Hi].
  - unfold get2. apply nth_overflow.
    rewrite List.Forall_forall in Hr.
    rewrite (Hr (nth i p [])) by (apply nth_In; lia). lia.
  - apply get2_nil_row. lia.
Qed.

Lemma fit_len (n : nat) (size : Z) :
  (0 <= size)%Z ->
  (if (size - Z.of_nat n >? 0)%Z
   then (Z.to_nat ((size - Z.of_nat n) / 2)
         + (if (size - Z.of_nat n <? 0)%Z
            then Py.slice_len n ((- (size - Z.of_nat n)) / 2)
                   ((size - Z.of_nat n) / 2)
            else n)
         + Z.to_nat (size - Z.of_nat n - (size - Z.of_nat n) / 2))%nat
   else if (size - Z.of_nat n <? 0)%Z
        then Py.slice_len n ((- (size - Z.of_nat n)) / 2)
               ((size - Z.of_nat n) / 2)
        else n) = Z.to_nat size.
Proof.
  intros Hs. rewrite Z.gtb_ltb.
  destruct (Z.ltb_spec 0 (size - Z.of_nat n)) as [Hpad|Hnopad];
    destruct (Z.ltb_spec (size - Z.of_nat n) 0) as [Hcrop|Hnocrop]; try lia.
  - Z.to_euclidean_division_equations. lia.
  - rewrite slice_len_crop by lia. reflexivity.
Qed.

Lemma crop_or_pad_shape_exact (H W : nat) (size : Z) :
  (0 <= size)%Z ->
  crop_or_pad_shape H W size = (Z.to_nat size, Z.to_nat size).
Proof.
  intros Hs. unfold crop_or_pad_shape. cbv zeta.
  f_equal; apply fit_len; exact Hs.
Qed.

Lemma wf_random_crop_plane (H W : nat) (size h w : Z) (p : plane (A := A)) :
  wf_plane H W p ->
  wf_plane (fst (random_crop_shape H W size h w))
           (snd (random_crop_shape H W size h w))
           (random_crop_plane H W size h w p).
Proof.
  intros Hp. unfold random_crop_shape, random_crop_plane.
  destruct (_ <=? _)%Z; [exact Hp|].
  destruct (_ <=? _)%Z; [exact Hp|].
  apply wf_slice_cols, wf_slice_rows, Hp.
Qed.

Lemma wf_crop_or_pad_plane (H W : nat) (size : Z) (p : plane (A := A)) :
  wf_plane H W p ->
  wf_plane (fst (crop_or_pad_shape H W size)) (snd (crop_or_pad_shape H W size))
           (crop_or_pad_plane zero H W size p).
Proof.
  intros Hp. unfold crop_or_pad_shape, crop_or_pad_plane. cbv zeta.
  destruct (size - Z.of_nat H <? 0)%Z, (size - Z.of_nat W <? 0)%Z,
    (size - Z.of_nat H >? 0)%Z, (size - Z.of_nat W >? 0)%Z;
    cbn [fst snd];
    repeat first [ exact Hp | apply wf_pad_cols | apply wf_pad_rows
                 | apply wf_slice_cols | apply wf_slice_rows ].
Qed.

Lemma rot90_shape_square (k : Z) (n : nat) : rot90_shape k (n, n) = (n, n).
Proof. unfold rot90_shape. destruct (_ || _); reflexivity. Qed.

Lemma transform_shape_exact (H W : nat) (size h w rot : Z) :
  (0 <= size)%Z ->
  transform_shape H W size h w rot = (Z.to_nat size, Z.to_nat size).
Proof.
  intros Hs. unfold transform_shape. cbv zeta.
  rewrite crop_or_pad_shape_exact by exact Hs. apply rot90_shape_square.
Qed.

Lemma wf_transform_plane (H W : nat) (size h w rot : Z) (p : plane (A := A)) :
  (0 <= size)%Z -> wf_plane H W p ->
  wf_plane (Z.to_nat size) (Z.to_nat size)
           (transform_plane zero H W size h w rot p).
Proof.
  intros Hs Hp. unfold transform_plane. cbv zeta.
  set (rc := ((Z.of_nat H >=? size) && (Z.of_nat W >=? size))%Z).
  set (s1 := if rc then random_crop_shape H W size h w else (H, W)).
  set (p1 := if rc then random_crop_plane H W size h w p else p).
  assert (Hp1 : wf_plane (fst s1) (snd s1) p1).
  { subst s1 p1. destruct rc; [apply wf_random_crop_plane, Hp | exact Hp]. }
  pose proof (wf_crop_or_pad_plane (fst s1) (snd s1) size p1 Hp1) as Hc.
  rewrite crop_or_pad_shape_exact in Hc |- * by exact Hs.
  cbn [fst snd] in Hc |- *. apply wf_rot90_plane, Hc.
Qed.

(** Pixel by pixel: what [crop_or_pad_to_size] puts at [(i, j)]. *)
Lemma crop_or_pad_plane_get (H W : nat) (size : Z) (p : plane (A := A))
    (i j : nat) :
  wf_plane H W p -> (0 <= size)%Z ->
  (i < Z.to_nat size)%nat -> (j < Z.to_nat size)%nat ->
  get2 zero (crop_or_pad_plane zero H W size p) i j
  = at_or_zero zero H W p (Z.of_nat i + lead H size) (Z.of_nat j + lead W size).
Proof.
  intros Hp Hs Hi Hj. unfold crop_or_pad_plane, at_or_zero, lead. cbv zeta.
  rewrite !Z.gtb_ltb.
  destruct (Z.ltb_spec (size - Z.of_nat H) 0) as [Hch|Hch];
  destruct (Z.ltb_spec (size - Z.of_nat W) 0) as [Hcw|Hcw];
  destruct (Z.ltb_spec 0 (size - Z.of_nat H)) as [Hph|Hph];
  destruct (Z.ltb_spec 0 (size - Z.of_nat W)) as [Hpw|Hpw]; try lia;
  destruct (Z.ltb_spec size (Z.of_nat H)) as [Hlh|Hlh]; try lia;
  destruct (Z.ltb_spec size (Z.of_nat W)) as [Hlw|Hlw]; try lia;
  rewrite ?get2_pad_cols, ?get2_pad_rows, ?get2_slice_cols, ?get2_slice_rows;
  rewrite ?slice_len_crop, ?slice_index_crop_start by lia.
  all: repeat match goal with
       | |- context [(?a <? ?b)%nat] => destruct (Nat.ltb_spec a b)
       | |- context [(?a <? ?b)%Z] => destruct (Z.ltb_spec a b)
       | |- context [(?a <=? ?b)%Z] => destruct (Z.leb_spec a b)
       end; cbn [andb].
  all: try reflexivity.
  all: try (exfalso; Z.to_euclidean_division_equations; lia).
  all: try (f_equal; Z.to_euclidean_division_equations; lia).
  all: try (apply (get2_outside H W); [exact Hp|];
            Z.to_euclidean_division_equations; lia).
Qed.

End CropPadFacts.

(* ------------------------------------------------------------------------- *)
(** ** [crop_or_pad_to_size]: exact target size *)

Lemma lead_split (n : nat) (size : Z) :
  (0 <= size)%Z ->
  ((size < Z.of_nat n)%Z ->
     lead n size = ((Z.of_nat n - size) / 2)%Z /\
     (Z.of_nat n - size - lead n size
      = (Z.of_nat n - size) / 2 + (Z.of_nat n - size) mod 2)%Z) /\
  ((Z.of_nat n <= size)%Z ->
     (- lead n size = (size - Z.of_nat n) / 2)%Z /\
     (size - Z.of_nat n + lead n size
      = (size - Z.of_nat n) / 2 + (size - Z.of_nat n) mod 2)%Z).
Proof.
  intros Hs. unfold lead.
  destruct (Z.ltb_spec size (Z.of_nat n)); split; intros; try lia;
    split; try lia; Z.to_euclidean_division_equations; lia.
Qed.

Lemma crop_or_pad_general {A : Type} (zero : A)
    (x : ndarray4 (A := A)) (m : ndarray2 (A := A)) (T D H W : nat) (size : Z) :
  (0 <= size)%Z -> wf4 x -> wf2 m ->
  shape4 x = (T, D, H, W) -> shape2 m = (H, W) ->
  let r := crop_or_pad_to_size zero x m size in
  let n := Z.to_nat size in
  shape4 (fst r) = (T, D, n, n) /\ wf4 (fst r) /\
  shape2 (snd r) = (n, n) /\ wf2 (snd r) /\
  (forall t d i j, (t < T)%nat -> (d < D)%nat -> (i < n)%nat -> (j < n)%nat ->
     get4 zero (data4 (fst r)) t d i j
     = at_or_zero zero H W (nth d (nth t (data4 x) []) [])
         (Z.of_nat i + lead H size) (Z.of_nat j + lead W size)) /\
  (forall i j, (i < n)%nat -> (j < n)%nat ->
     get2 zero (data2 (snd r)) i j
     = at_or_zero zero H W (data2 m)
         (Z.of_nat i + lead H size) (Z.of_nat j + lead W size)).
Proof.
  intros Hs Hx Hm Sx Sm. cbv zeta.
  rewrite (crop_or_pad_factor zero x m T D H W size Sx Sm).
  rewrite (crop_or_pad_shape_exact H W size Hs). cbn [fst snd shape4 shape2 data4 data2].
  assert (Hx' : wf4 (mk4 (T, D, H, W) (data4 x))).
  { destruct x as [sx xd]. cbn in Sx |- *. subst sx. exact Hx. }
  assert (Hm' : wf_plane H W (data2 m)).
  { unfold wf2 in Hm. rewrite Sm in Hm. exact Hm. }
  assert (HF : forall p, wf_plane H W p ->
                 wf_plane (Z.to_nat size) (Z.to_nat size)
                          (crop_or_pad_plane zero H W size p)).
  { intros p Hp. pose proof (wf_crop_or_pad_plane zero H W size p Hp) as Hc.
    rewrite crop_or_pad_shape_exact in Hc by exact Hs. exact Hc. }
  split; [reflexivity|]. split; [|split; [reflexivity|]; split; [|split]].
  - apply (wf4_on_planes _ T D H W); assumption.
  - apply HF, Hm'.
  - intros t d i j Ht Hd Hi Hj.
    rewrite (get4_on_planes zero _ T D H W) by assumption.
    apply crop_or_pad_plane_get; try assumption.
    apply (wf4_plane T D H W (data4 x) t d Hx' Ht Hd).
  - intros i j Hi Hj. apply crop_or_pad_plane_get; assumption.
Qed.

(** C1.  For a well-shaped image stack [T, D, H, W] and mask [H, W] and a
    target size [image_size >= 0], [crop_or_pad_to_size] returns a stack of
    shape [T, D, image_size, image_size] and a mask of shape
    [image_size, image_size].  On each spatial axis independently the output
    pixel at position [i] is the input pixel at [i + lead], zero when that
    position lies outside the input: when the axis is cropped, [lead] rows are
    removed at the leading edge and [lead + (difference mod 2)] at the trailing
    edge; when it is padded, the same split of zero rows is added, the extra
    one at the trailing edge.  In particular a [10, 4, 16, 16] stack with
    target 32 becomes [10, 4, 32, 32], zero outside the central 16 x 16 block,
    which holds the input. *)
Theorem crop_or_pad_to_size_exact :
  (forall (A : Type) (zero : A) (x : ndarray4 (A := A)) (m : ndarray2 (A := A))
          (T D H W : nat) (image_size : Z),
     (1 <= T)%nat -> (1 <= D)%nat -> (1 <= H)%nat -> (1 <= W)%nat ->
     (0 <= image_size)%Z -> wf4 x -> wf2 m ->
     shape4 x = (T, D, H, W) -> shape2 m = (H, W) ->
     let r := crop_or_pad_to_size zero x m image_size in
     let n := Z.to_nat image_size in
     shape4 (fst r) = (T, D, n, n) /\ wf4 (fst r) /\
     shape2 (snd r) = (n, n) /\ wf2 (snd r) /\
     (forall t d i j, (t < T)%nat -> (d < D)%nat -> (i < n)%nat -> (j < n)%nat ->
        get4 zero (data4 (fst r)) t d i j
        = at_or_zero zero H W (nth d (nth t (data4 x) []) [])
            (Z.of_nat i + lead H image_size) (Z.of_nat j + lead W image_size)) /\
     (forall i j, (i < n)%nat -> (j < n)%nat ->
        get2 zero (data2 (snd r)) i j
        = at_or_zero zero H W (data2 m)
            (Z.of_nat i + lead H image_size) (Z.of_nat j + lead W image_size)) /\
     (forall k, k = H \/ k = W ->
        ((image_size < Z.of_nat k)%Z ->
           lead k image_size = ((Z.of_nat k - image_size) / 2)%Z /\
           (Z.of_nat k - image_size - lead k image_size
            = (Z.of_nat k - image_size) / 2 + (Z.of_nat k - image_size) mod 2)%Z) /\
        ((Z.of_nat k <= image_size)%Z ->
           (- lead k image_size = (image_size - Z.of_nat k) / 2)%Z /\
           (image_size - Z.of_nat k + lead k image_size
            = (image_size - Z.of_nat k) / 2 + (image_size - Z.of_nat k) mod 2)%Z)))
  /\
  (forall (A : Type) (zero : A) (x : ndarray4 (A := A)) (m : ndarray2 (A := A)),
     wf4 x -> wf2 m ->
     shape4 x = (10, 4, 16, 16)%nat -> shape2 m = (16, 16)%nat ->
     let r := crop_or_pad_to_size zero x m 32 in
     shape4 (fst r) = (10, 4, 32, 32)%nat /\ shape2 (snd r) = (32, 32)%nat /\
     forall t d i j, (t < 10)%nat -> (d < 4)%nat -> (i < 32)%nat -> (j < 32)%nat ->
       ((i < 8 \/ 24 <= i \/ j < 8 \/ 24 <= j)%nat ->
          get4 zero (data4 (fst r)) t d i j = zero /\
          get2 zero (data2 (snd r)) i j = zero) /\
       ((8 <= i < 24)%nat -> (8 <= j < 24)%nat ->
          get4 zero (data4 (fst r)) t d i j
          = get4 zero (data4 x) t d (i - 8) (j - 8) /\
          get2 zero (data2 (snd r)) i j = get2 zero (data2 m) (i - 8) (j - 8))).
Proof.
  split.
  - intros A zero x m T D H W size _ _ _ _ Hs Hx Hm Sx Sm. cbv zeta.
    destruct (crop_or_pad_general zero x m T D H W size Hs Hx Hm Sx Sm)
      as (H1 & H2 & H3 & H4 & H5 & H6).
    repeat (split; [assumption|]).
    intros k _. apply lead_split. exact Hs.
  - intros A zero x m Hx Hm Sx Sm. cbv zeta.
    destruct (crop_or_pad_general zero x m 10 4 16 16 32 ltac:(lia) Hx Hm Sx Sm)
      as (H1 & _ & H3 & _ & H5 & H6).
    split; [exact H1|]. split; [exact H3|].
    intros t d i j Ht Hd Hi Hj.
    specialize (H5 t d i j Ht Hd ltac:(cbn; lia) ltac:(cbn; lia)).
    specialize (H6 i j ltac:(cbn; lia) ltac:(cbn; lia)).
    rewrite H5, H6. unfold at_or_zero, lead, get4.
    change ((32 <? Z.of_nat 16)%Z) with false. cbv iota.
    change (- ((32 - Z.of_nat 16) / 2))%Z with (-8)%Z.
    split.
    + intros Hout.
      assert (E : ((0 <=? Z.of_nat i + -8) && (Z.of_nat i + -8 <? Z.of_nat 16)
                   && (0 <=? Z.of_nat j + -8) && (Z.of_nat j + -8 <? Z.of_nat 16))%Z
                  = false).
      { destruct (Z.leb_spec 0 (Z.of_nat i + -8)),
          (Z.ltb_spec (Z.of_nat i + -8) (Z.of_nat 16)),
          (Z.leb_spec 0 (Z.of_nat j + -8)),
          (Z.ltb_spec (Z.of_nat j + -8) (Z.of_nat 16)); try reflexivity; lia. }
      rewrite E. split; reflexivity.
    + intros Hin1 Hin2.
      assert (E : ((0 <=? Z.of_nat i + -8) && (Z.of_nat i + -8 <? Z.of_nat 16)
                   && (0 <=? Z.of_nat j + -8) && (Z.of_nat j + -8 <? Z.of_nat 16))%Z
                  = true).
      { destruct (Z.leb_spec 0 (Z.of_nat i + -8)),
          (Z.ltb_spec (Z.of_nat i + -8) (Z.of_nat 16)),
          (Z.leb_spec 0 (Z.of_nat j + -8)),
          (Z.ltb_spec (Z.of_nat j + -8) (Z.of_nat 16)); try reflexivity; lia. }
      rewrite E.
      replace (Z.to_nat (Z.of_nat i + -8)) with (i - 8)%nat by lia.
      replace (Z.to_nat (Z.of_nat j + -8)) with (j - 8)%nat by lia.
      split; reflexivity.
Qed.

Lemma wf_raster (n : nat) (f : nat -> nat -> Q) :
  wf_plane n n (map (fun i => map (fun j => f i j) (seq 0 n)) (seq 0 n)).
Proof.
  split.
  - rewrite length_map. apply length_seq.
  - rewrite Forall_map. apply List.Forall_forall. intros i _.
    rewrite length_map. apply length_seq.
Qed.

Lemma wf_mask5 : wf2 Sample.mask5.
Proof. exact (wf_raster 5 _). Defined.

Lemma wf_stack5 : wf4 Sample.stack5.
Proof.
  split; [reflexivity|].
  repeat constructor; exact (wf_raster 5 _).
Defined.

Lemma wf_mask7 : wf2 Sample.mask7.
Proof. exact (wf_raster 7 _). Defined.

Lemma wf_stack7 : wf4 Sample.stack7.
Proof.
  split; [reflexivity|].
  repeat constructor; exact (wf_raster 7 _).
Defined.

Lemma crop_or_pad_to_size_exact_witness :
  shape4 (fst (crop_or_pad_to_size 0%Q Sample.stack5 Sample.mask5 2))
  = (1, 2, 2, 2)%nat /\
  shape2 (snd (crop_or_pad_to_size 0%Q Sample.stack5 Sample.mask5 2))
  = (2, 2)%nat.
Proof.
  destruct (proj1 crop_or_pad_to_size_exact Q 0%Q Sample.stack5 Sample.mask5
              1%nat 2%nat 5%nat 5%nat 2%Z
              ltac:(lia) ltac:(lia) ltac:(lia) ltac:(lia) ltac:(lia)
              wf_stack5 wf_mask5 eq_refl eq_refl)
    as (Hs & _ & Hm & _).
  split; [exact Hs | exact Hm].
Defined.

(* ------------------------------------------------------------------------- *)
(** ** [random_crop]: when it crops, and that the window fits *)

(** C7.  For a target size [image_size >= 0], [random_crop] returns its
    inputs unchanged when [H - image_size // 2 <= image_size] or
    [W - image_size // 2 <= image_size].  Otherwise both [randint] ranges are
    non-empty, and for every centre [(h, w)] drawn from them the window
    [h - image_size // 2, h + image_size // 2) lies inside [0, H) (likewise
    for [w] and [W]), no slice bound is clamped or wrapped, and the result is
    a proper crop of spatial shape [2 (image_size // 2)] squared, different
    from the input. *)
Theorem random_crop_window_in_bounds :
  forall (A : Type) (x : ndarray4 (A := A)) (m : ndarray2 (A := A))
         (T D H W : nat) (image_size h w : Z),
    (0 <= image_size)%Z ->
    shape4 x = (T, D, H, W) -> shape2 m = (H, W) ->
    let half := (image_size / 2)%Z in
    ((Z.of_nat H - half <= image_size \/ Z.of_nat W - half <= image_size)%Z ->
       random_crop x m image_size h w = (x, m)) /\
    (~ (Z.of_nat H - half <= image_size \/ Z.of_nat W - half <= image_size)%Z ->
       (image_size < Z.of_nat H - half)%Z /\
       (image_size < Z.of_nat W - half)%Z /\
       (Py.randint_returns image_size (Z.of_nat H - half) h ->
        Py.randint_returns image_size (Z.of_nat W - half) w ->
          (0 <= h - half /\ h - half <= h + half /\ h + half < Z.of_nat H)%Z /\
          (0 <= w - half /\ w - half <= w + half /\ w + half < Z.of_nat W)%Z /\
          Py.slice_index H (h - half) = Z.to_nat (h - half) /\
          Py.slice_index H (h + half) = Z.to_nat (h + half) /\
          Py.slice_index W (w - half) = Z.to_nat (w - half) /\
          Py.slice_index W (w + half) = Z.to_nat (w + half) /\
          shape4 (fst (random_crop x m image_size h w))
          = (T, D, Z.to_nat (2 * half), Z.to_nat (2 * half)) /\
          shape2 (snd (random_crop x m image_size h w))
          = (Z.to_nat (2 * half), Z.to_nat (2 * half)) /\
          random_crop x m image_size h w <> (x, m))).
Proof.
  intros A x m T D H W size h w Hs Sx Sm half.
  assert (Hhalf : (0 <= half /\ 2 * half <= size)%Z).
  { subst half. Z.to_euclidean_division_equations. lia. }
  split.
  - intros Hguard. unfold random_crop. rewrite Sx. fold half.
    destruct (Z.leb_spec (Z.of_nat H - half) size); [reflexivity|].
    destruct (Z.leb_spec (Z.of_nat W - half) size); [reflexivity|]. lia.
  - intros Hnot.
    assert (HH : (size < Z.of_nat H - half)%Z) by lia.
    assert (HW : (size < Z.of_nat W - half)%Z) by lia.
    split; [exact HH|]. split; [exact HW|].
    intros [Hh1 Hh2] [Hw1 Hw2].
    assert (Ia : forall n c, (size <= c < Z.of_nat n - half)%Z ->
              Py.slice_index n (c - half) = Z.to_nat (c - half) /\
              Py.slice_index n (c + half) = Z.to_nat (c + half)).
    { intros n c Hc. unfold Py.slice_index.
      destruct (Z.ltb_spec (c - half) 0); [lia|].
      destruct (Z.ltb_spec (c + half) 0); [lia|]. split; f_equal; lia. }
    destruct (Ia H h ltac:(lia)) as [E1 E2].
    destruct (Ia W w ltac:(lia)) as [E3 E4].
    assert (Sr : random_crop x m size h w
                 = (slice4 (h - half) (h + half) (w - half) (w + half) x,
                    slice2 (h - half) (h + half) (w - half) (w + half) m)).
    { unfold random_crop. rewrite Sx. fold half.
      destruct (Z.leb_spec (Z.of_nat H - half) size); [lia|].
      destruct (Z.leb_spec (Z.of_nat W - half) size); [lia|]. reflexivity. }
    assert (S4 : shape4 (fst (random_crop x m size h w))
                 = (T, D, Z.to_nat (2 * half), Z.to_nat (2 * half))).
    { rewrite Sr. cbn [fst]. unfold slice4. rewrite Sx. cbn [shape4].
      unfold Py.slice_len. rewrite E1, E2, E3, E4. repeat f_equal; lia. }
    repeat (split; [first [assumption | lia]|]).
    split.
    + rewrite Sr. cbn [snd]. unfold slice2. rewrite Sm. cbn [shape2].
      unfold Py.slice_len. rewrite E1, E2, E3, E4. repeat f_equal; lia.
    + intros Heq. rewrite Heq in S4. cbn [fst] in S4. rewrite Sx in S4.
      injection S4 as S4h S4w. lia.
Qed.

Lemma random_crop_window_in_bounds_witness :
  random_crop Sample.stack5 Sample.mask5 4 0 0 = (Sample.stack5, Sample.mask5)
  /\ random_crop Sample.stack7 Sample.mask7 4 4 4
     <> (Sample.stack7, Sample.mask7).
Proof.
  split.
  - apply (proj1 (random_crop_window_in_bounds Q Sample.stack5 Sample.mask5
                    1%nat 2%nat 5%nat 5%nat 4%Z 0%Z 0%Z
                    ltac:(lia) eq_refl eq_refl)).
    left. vm_compute. discriminate.
  - apply (proj2 (random_crop_window_in_bounds Q Sample.stack7 Sample.mask7
                    1%nat 1%nat 7%nat 7%nat 4%Z 4%Z 4%Z
                    ltac:(lia) eq_refl eq_refl)).
    + vm_compute. intros [Hc|Hc]; apply Hc; reflexivity.
    + split; vm_compute; [discriminate | reflexivity].
    + split; vm_compute; [discriminate | reflexivity].
Defined.

(* ------------------------------------------------------------------------- *)
(** ** The spatial branch keeps image and mask aligned *)

Lemma get4_map_in_range {A B : Type} (zA : A) (zB : B) (f : A -> B)
    (T D H W : nat) (x : list (list (plane (A := A)))) (t d i j : nat) :
  wf4 (mk4 (T, D, H, W) x) ->
  (t < T)%nat -> (d < D)%nat -> (i < H)%nat -> (j < W)%nat ->
  get4 zB (map (map (map (map f))) x) t d i j = f (get4 zA x t d i j).
Proof.
  intros Hwf Ht Hd Hi Hj.
  destruct (wf4_plane T D H W x t d Hwf Ht Hd) as [HD [Hl Hr]].
  assert (Hrow : length (nth i (nth d (nth t x []) []) []) = W).
  { rewrite List.Forall_forall in Hr. apply Hr. apply nth_In. lia. }
  unfold get4, get2, plane in *.
  assert (E1 : nth t (map (map (map (map f))) x) []
               = map (map (map f)) (nth t x []))
    by exact (map_nth (map (map (map f))) x [] t).
  assert (E2 : nth d (map (map (map f)) (nth t x [])) []
               = map (map f) (nth d (nth t x []) []))
    by exact (map_nth (map (map f)) (nth t x []) [] d).
  assert (E3 : nth i (map (map f) (nth d (nth t x []) [])) []
               = map f (nth i (nth d (nth t x []) []) []))
    by exact (map_nth (map f) (nth d (nth t x []) []) [] i).
  rewrite E1, E2, E3.
  rewrite (nth_indep _ zB (f zA)) by (rewrite length_map; lia).
  apply map_nth.
Qed.

Lemma transform_spatial_aligned {A : Type} (zero : A)
    (x : ndarray4 (A := A)) (m : ndarray2 (A := A)) (T D H W : nat)
    (size h w rot : Z) :
  (0 <= size)%Z -> wf4 x -> wf2 m ->
  shape4 x = (T, D, H, W) -> shape2 m = (H, W) ->
  let r := transform_spatial zero size h w rot x m in
  let n := Z.to_nat size in
  shape4 (fst r) = (T, D, n, n) /\ wf4 (fst r) /\
  shape2 (snd r) = (n, n) /\ wf2 (snd r) /\
  forall t d i j, (t < T)%nat -> (d < D)%nat ->
    get4 zero (data4 (fst r)) t d i j
    = src zero (nth d (nth t (data4 x) []) []) (source_of H W size h w rot i j)
    /\ get2 zero (data2 (snd r)) i j
       = src zero (data2 m) (source_of H W size h w rot i j).
Proof.
  intros Hs Hx Hm Sx Sm. cbv zeta.
  rewrite (transform_spatial_factor zero x m T D H W size h w rot Sx Sm).
  rewrite (transform_shape_exact H W size h w rot Hs).
  cbn [fst snd shape4 shape2 data4 data2].
  assert (Hx' : wf4 (mk4 (T, D, H, W) (data4 x))).
  { destruct x as [sx xd]. cbn in Sx |- *. subst sx. exact Hx. }
  assert (Hm' : wf_plane H W (data2 m)).
  { unfold wf2 in Hm. rewrite Sm in Hm. exact Hm. }
  assert (Hsrc : forall p i j, wf_plane H W p ->
            get2 zero (transform_plane zero H W size h w rot p) i j
            = src zero p (source_of H W size h w rot i j)).
  { intros p i j Hp. unfold source_of.
    rewrite <- (get2_map None zero (src zero p) eq_refl).
    rewrite <- (transform_plane_map None zero (src zero p) eq_refl).
    rewrite (src_coords zero H W p Hp). reflexivity. }
  split; [reflexivity|]. split; [|split; [reflexivity|]; split].
  - apply (wf4_on_planes _ T D H W); [|exact Hx'].
    intros p Hp. apply wf_transform_plane; assumption.
  - apply wf_transform_plane; assumption.
  - intros t d i j Ht Hd. split.
    + rewrite (get4_on_planes zero _ T D H W) by assumption.
      apply Hsrc. apply (wf4_plane T D H W (data4 x) t d Hx' Ht Hd).
    + apply Hsrc. exact Hm'.
Qed.

(** C6.  With the spatial encoder, for every draw of the crop centre, of the
    rotation and of the jitters, [transform] returns an image stack
    [T, D, image_size, image_size] and a mask [image_size, image_size] such
    that every output position [(i, j)] has one source position, the same
    for all planes of the image and for the mask (or is padding in all of
    them): the image holds there the rescaled source pixel and the mask the
    source mask value.  [random_crop], [crop_or_pad_to_size] and the rotation
    each apply to the mask the very plane operation they apply to every image
    plane. *)
Theorem transform_keeps_mask_aligned :
  forall (self : Transform.EOTransformer) (r : Transform.draws)
         (x : ndarray4 (A := Q)) (m : ndarray2 (A := Q)) (T D H W : nat),
    Transform.spatial_encoder self = true ->
    (0 <= Transform.image_size self)%Z ->
    wf4 x -> wf2 m -> shape4 x = (T, D, H, W) -> shape2 m = (H, W) ->
    let size := Transform.image_size self in
    let n := Z.to_nat size in
    let h := Transform.draw_h r in
    let w := Transform.draw_w r in
    let rot := Transform.draw_rot r in
    (exists x' m',
       Transform.transform self r x m
       = Ok (Transform.Image4 x', Transform.MaskArray m') /\
       shape4 x' = (T, D, n, n) /\ shape2 m' = (n, n) /\ wf4 x' /\ wf2 m' /\
       forall t d i j, (t < T)%nat -> (d < D)%nat -> (i < n)%nat -> (j < n)%nat ->
         get4 0%Q (data4 x') t d i j
         = Transform.scale_entry (Transform.normalize self)
             (Transform.draw_mean r) (Transform.draw_std r)
             (src 0%Q (nth d (nth t (data4 x) []) [])
                  (source_of H W size h w rot i j))
         /\ get2 0%Q (data2 m') i j
            = src 0%Q (data2 m) (source_of H W size h w rot i j)) /\
    (data4 (fst (random_crop x m size h w))
     = on_planes (random_crop_plane H W size h w) (data4 x) /\
     data2 (snd (random_crop x m size h w))
     = random_crop_plane H W size h w (data2 m)) /\
    (data4 (fst (crop_or_pad_to_size 0%Q x m size))
     = on_planes (crop_or_pad_plane 0%Q H W size) (data4 x) /\
     data2 (snd (crop_or_pad_to_size 0%Q x m size))
     = crop_or_pad_plane 0%Q H W size (data2 m)) /\
    (data4 (rot90_4 0%Q rot x) = on_planes (rot90_plane 0%Q W rot) (data4 x) /\
     data2 (rot90_2 0%Q rot m) = rot90_plane 0%Q W rot (data2 m)).
Proof.
  intros self r x m T D H W Hsp Hs Hx Hm Sx Sm size n h w rot.
  split; [|split; [|split]].
  - destruct (transform_spatial_aligned 0%Q x m T D H W size h w rot
                Hs Hx Hm Sx Sm) as (S4 & W4 & S2 & W2 & Hpix).
    unfold Transform.transform. rewrite Hsp. cbn [negb].
    fold size h w rot.
    destruct (transform_spatial 0%Q size h w rot x m) as [xs ms] eqn:E.
    cbn [fst snd] in S4, W4, S2, W2, Hpix.
    cbn [bind fst snd Transform.scale_image].
    eexists. eexists. split; [reflexivity|].
    cbn [shape4 data4].
    split; [exact S4|]. split; [exact S2|].
    assert (Hxs : wf4 (mk4 (T, D, n, n) (data4 xs))).
    { destruct xs as [sxs xsd]. cbn in S4 |- *. subst sxs. exact W4. }
    split; [|split; [exact W2|]].
    + rewrite S4. unfold wf4 in Hxs |- *. cbn [shape4 data4] in Hxs |- *.
      destruct Hxs as [Hl Hall]. split; [rewrite length_map; exact Hl|].
      rewrite Forall_map. rewrite List.Forall_forall in *.
      intros xt Hin. destruct (Hall xt Hin) as [HD Hp]. split.
      * rewrite length_map. exact HD.
      * rewrite Forall_map. rewrite List.Forall_forall in *.
        intros p Hp'. destruct (Hp p Hp') as [Hpl Hpr]. split.
        -- rewrite length_map. exact Hpl.
        -- rewrite Forall_map. rewrite List.Forall_forall in *.
           intros row Hrow. rewrite length_map. apply Hpr, Hrow.
    + intros t d i j Ht Hd Hi Hj.
      destruct (Hpix t d i j Ht Hd) as [P4 P2]. split; [|exact P2].
      rewrite (get4_map_in_range 0%Q 0%Q _ T D n n) by assumption.
      rewrite P4. reflexivity.
  - rewrite (random_crop_factor x m T D H W size h w Sx Sm). split; reflexivity.
  - rewrite (crop_or_pad_factor 0%Q x m T D H W size Sx Sm). split; reflexivity.
  - unfold rot90_4, rot90_2. rewrite Sx, Sm.
    destruct (rot90_shape rot (H, W)). split; reflexivity.
Qed.

Lemma transform_keeps_mask_aligned_witness :
  exists x' m',
    Transform.transform (Transform.mkEOTransformer true true 4)
      (Transform.mkDraws 4 4 1 0 0) Sample.stack7 Sample.mask7
    = Ok (Transform.Image4 x', Transform.MaskArray m') /\
    shape4 x' = (1, 1, 4, 4)%nat /\ shape2 m' = (4, 4)%nat.
Proof.
  destruct (transform_keeps_mask_aligned (Transform.mkEOTransformer true true 4)
              (Transform.mkDraws 4 4 1 0 0) Sample.stack7 Sample.mask7
              1%nat 1%nat 7%nat 7%nat eq_refl ltac:(cbn; lia)
              wf_stack7 wf_mask7 eq_refl eq_refl)
    as [(x' & m' & E & S4 & S2 & _) _].
  exists x', m'. split; [exact E|]. split; [exact S4 | exact S2].
Defined.

(* ------------------------------------------------------------------------- *)
(** ** Without spatial encoder: the masked mean *)







Lemma Qltb_true (a b : Q) : Transform.Qltb a b = true <-> (a < b)%Q.
Proof.
  unfold Transform.Qltb. rewrite negb_true_iff. split.
  - intros Hf. apply Qnot_le_lt. intros Hle.
    apply Qle_bool_iff in Hle. congruence.
  - intros Hlt. destruct (Qle_bool b a) eqn:E; [|reflexivity].
    apply Qle_bool_iff in E. exfalso. exact (Qlt_not_le _ _ Hlt E).
Qed.





(* ------------------------------------------------------------------------- *)
(** ** The z-normalisation uses one mean and one deviation for all channels *)

Lemma scale_image_entry (normalize : bool) (jm js : Q) (x : ndarray4 (A := Q))
    (T D H W t c i j : nat) :
  wf4 x -> shape4 x = (T, D, H, W) ->
  (t < T)%nat -> (c < D)%nat -> (i < H)%nat -> (j < W)%nat ->
  exists y,
    Transform.scale_image normalize jm js (Transform.Image4 x)
    = Transform.Image4 y /\
    shape4 y = shape4 x /\
    get4 0%Q (data4 y) t c i j
    = Transform.scale_entry normalize jm js (get4 0%Q (data4 x) t c i j).
Proof.
  intros Hx Sx Ht Hc Hi Hj. eexists. split; [reflexivity|].
  split; [reflexivity|]. cbn [data4].
  apply (get4_map_in_range 0%Q 0%Q _ T D H W); try assumption.
  destruct x as [sx xd]. cbn in Sx |- *. subst sx. exact Hx.
Qed.

(** A stack of one date and [D] channels of one pixel, all zero. *)
Lemma zero_stack_wf (D : nat) :
  wf4 (mk4 (1, D, 1, 1)%nat [repeat [[0%Q]] D]).
Proof.
  split; [reflexivity|]. constructor; [|constructor].
  split; [apply repeat_length|].
  apply List.Forall_forall. intros p Hp. apply repeat_spec in Hp. subst p.
  split; [reflexivity|]. constructor; [reflexivity | constructor].
Qed.

Lemma zero_stack_get (D c : nat) :
  get4 0%Q (data4 (mk4 (1, D, 1, 1)%nat [repeat [[0%Q]] D])) 0 c 0 0 = 0%Q.
Proof.
  unfold get4, get2. cbn [data4 nth].
  destruct (Nat.lt_ge_cases c D) as [Hlt|Hge].
  - rewrite (nth_indep _ [] [[0%Q]]) by (rewrite repeat_length; exact Hlt).
    rewrite nth_repeat. reflexivity.
  - rewrite (nth_overflow (repeat [[0%Q]] D)) by (rewrite repeat_length; exact Hge).
    reflexivity.
Qed.

Lemma Qdiv_zero_den (a d : Q) : (d == 0 -> a / d == 0)%Q.
Proof. intros Hd. unfold Qdiv. rewrite Hd. unfold Qinv. cbn. ring. Qed.

Lemma Qdiv_eq_mul (a b d : Q) : (~ d == 0 -> a / d == b -> a == b * d)%Q.
Proof. intros Hd E. rewrite <- E. field. exact Hd. Qed.

(** Two affine-over-affine maps of the jitters that agree everywhere have the
    same constants. *)
Lemma same_constants (k nm ns mu sigma : Q) :
  (~ nm == 0)%Q -> (~ ns == 0)%Q ->
  (forall jm js,
     (0 * k - (nm + jm)) / (ns + js) == (0 * k - (mu + jm)) / (sigma + js))%Q ->
  (mu == nm)%Q /\ (sigma == ns)%Q.
Proof.
  intros Hnm Hns Hat.
  assert (Hmu : (mu == nm)%Q).
  { pose proof (Hat (- mu)%Q 0%Q) as E.
    assert (E0 : ((0 * k - (mu + - mu)) / (sigma + 0) == 0)%Q).
    { unfold Qdiv. assert (Z0 : (0 * k - (mu + - mu) == 0)%Q) by ring.
      rewrite Z0. ring. }
    rewrite E0 in E.
    apply Qdiv_eq_mul in E; [lra | lra]. }
  split; [exact Hmu|].
  pose proof (Hat 0%Q (1 - sigma)%Q) as E.
  assert (D1 : (sigma + (1 - sigma) == 1)%Q) by ring.
  rewrite D1 in E.
  assert (Er : ((0 * k - (mu + 0)) / 1 == - nm)%Q) by (rewrite Hmu; field).
  rewrite Er in E. clear Er D1.
  destruct (Qeq_dec (ns + (1 - sigma)) 0) as [Hd0|Hd0].
  - rewrite (Qdiv_zero_den _ _ Hd0) in E. lra.
  - apply Qdiv_eq_mul in E; [|exact Hd0].
    assert (E2 : (nm * ((ns + (1 - sigma)) - 1) == 0)%Q) by lra.
    apply Qmult_integral in E2. destruct E2 as [E2|E2]; [contradiction|]. lra.
Qed.

(** If the normalisation is one with per-channel constants, these constants
    are the two scalars of the code, for every channel. *)
Lemma normalised_with_constants (mu sigma : nat -> Q) :
  normalised_with mu sigma ->
  forall c, (mu c == Transform.norm_mean)%Q /\ (sigma c == Transform.norm_std)%Q.
Proof.
  intros Hn c.
  apply (same_constants (1 # 10000)).
  - vm_compute. discriminate.
  - vm_compute. discriminate.
  - intros jm js.
    pose proof (Hn jm js (mk4 (1, S c, 1, 1)%nat [repeat [[0%Q]] (S c)])
                  1%nat (S c) 1%nat 1%nat 0%nat c 0%nat 0%nat
                  (zero_stack_wf (S c)) eq_refl
                  ltac:(lia) ltac:(lia) ltac:(lia) ltac:(lia)) as Hc.
    destruct (scale_image_entry true jm js
                (mk4 (1, S c, 1, 1)%nat [repeat [[0%Q]] (S c)])
                1%nat (S c) 1%nat 1%nat 0%nat c 0%nat 0%nat
                (zero_stack_wf (S c)) eq_refl
                ltac:(lia) ltac:(lia) ltac:(lia) ltac:(lia))
      as (y & Ey & _ & Gy).
    rewrite Ey in Hc. rewrite Gy in Hc.
    rewrite zero_stack_get in Hc. exact Hc.
Qed.

(** C8, as stated, fails: no family of constants that differ from one
    channel to another describes the normalisation of the code. *)
Lemma normalisation_not_per_channel :
  ~ exists mu sigma, differ_per_channel mu sigma /\ normalised_with mu sigma.
Proof.
  intros (mu & sigma & (c & c' & Hd) & Hn).
  destruct (normalised_with_constants mu sigma Hn c) as [Hm Hs].
  destruct (normalised_with_constants mu sigma Hn c') as [Hm' Hs'].
  destruct Hd as [Hd|Hd]; apply Hd.
  - rewrite Hm, Hm'. reflexivity.
  - rewrite Hs, Hs'. reflexivity.
Qed.

(** C8 (amended).  With [normalize] set, the image returned by [transform]
    is the pre-normalisation image passed entry by entry through
    [x * 1e-4 - (0.1014 + jm)) / (0.1171 + js)], where [jm] and [js] are the
    two jitters drawn once per call; the mean 0.1014 and the deviation 0.1171
    are the same for every channel, and no other constants describe the
    normalisation. *)
Theorem normalisation_shared_by_channels :
  forall (self : Transform.EOTransformer) (r : Transform.draws)
         (x : ndarray4 (A := Q)) (m : ndarray2 (A := Q)),
    Transform.normalize self = true ->
    (forall im mk, Transform.transform self r x m = Ok (im, mk) ->
       exists im0,
         im = Transform.scale_image true (Transform.draw_mean r)
                (Transform.draw_std r) im0) /\
    (forall jm js v,
       Transform.scale_entry true jm js v
       = ((v * (1 # 10000) - ((1014 # 10000) + jm)) / ((1171 # 10000) + js))%Q) /\
    normalised_with (fun _ => (1014 # 10000)%Q) (fun _ => (1171 # 10000)%Q) /\
    (forall mu sigma, normalised_with mu sigma ->
       forall c, (mu c == 1014 # 10000)%Q /\ (sigma c == 1171 # 10000)%Q).
Proof.
  intros self r x m Hn. split; [|split; [|split]].
  - intros im mk. unfold Transform.transform. rewrite Hn.
    destruct (negb (Transform.spatial_encoder self)).
    + destruct (Transform.masked_mean x m) as [y|e]; cbn [bind fst snd];
        [|discriminate].
      intros E. injection E as E _. exists (Transform.Image2 y).
      symmetry. exact E.
    + destruct (transform_spatial _ _ _ _ _ x m) as [xs ms]. cbn [bind fst snd].
      intros E. injection E as E _. exists (Transform.Image4 xs).
      symmetry. exact E.
  - reflexivity.
  - intros jm js x0 T D H W t c i j Hx Sx Ht Hc Hi Hj.
    destruct (scale_image_entry true jm js x0 T D H W t c i j Hx Sx Ht Hc Hi Hj)
      as (y & Ey & _ & Gy).
    rewrite Ey, Gy. reflexivity.
  - exact normalised_with_constants.
Qed.

Lemma normalisation_shared_by_channels_witness :
  normalised_with (fun _ => (1014 # 10000)%Q) (fun _ => (1171 # 10000)%Q).
Proof.
  exact (proj1 (proj2 (proj2
           (normalisation_shared_by_channels
              (Transform.mkEOTransformer true true 4)
              (Transform.mkDraws 4 4 1 0 0) Sample.stack7 Sample.mask7
              eq_refl)))).
Defined.

(* ------------------------------------------------------------------------- *)
(** ** [save_predictions] *)

Section SavePredictionsFacts.

Variable softmax : list Q -> list Q.
Variable ModelState Input : Type.
Variable forward : ModelState -> Input -> list Q.

Lemma predict_loop_rows (st : ModelState) (label_ids : list Z)
    (label_names : list string) (data_loader : list (list (Input * Z)))
    (rows acc : list (prediction)) :
  Forall2 (fun b r => predict_batch softmax ModelState Input forward st
                        label_ids label_names b = Ok r) data_loader rows ->
  predict_loop softmax ModelState Input forward st label_ids label_names
    data_loader acc = Ok (acc ++ rows).
Proof.
  intros HF. revert acc.
  induction HF as [|b r bs rs Hb _ IH]; intros acc.
  - cbn. rewrite app_nil_r. reflexivity.
  - cbn [predict_loop]. rewrite Hb. cbn [bind].
    rewrite IH, <- app_assoc. reflexivity.
Qed.

Lemma predict_batch_first (st : ModelState) (label_ids : list Z)
    (label_names : list string) (b : list (Input * Z)) (r : prediction) :
  predict_batch softmax ModelState Input forward st label_ids label_names b = Ok r ->
  exists x f rest, b = (x, f) :: rest /\ fid r = f /\
                   crop_probs r = softmax (forward st x).
Proof.
  unfold predict_batch. destruct b as [|[x f] rest]; [discriminate|].
  cbn [map index nth_error fst snd bind].
  destruct (argmax _) as [k|e]; cbn [bind]; [|discriminate].
  destruct (index label_ids k) as [cid|e]; cbn [bind]; [|discriminate].
  destruct (index label_names k) as [cname|e]; cbn [bind]; [|discriminate].
  intros E. injection E as <-. exists x, f, rest. repeat split.
Qed.

End SavePredictionsFacts.

(** C9.  When nothing exists at [save_model_path], [save_predictions]
    returns normally; it has printed the one line
    [INFO: no best model found ...] and nothing else, the file system is as
    before (no prediction file is written) and the model object is
    untouched (parameters and train/eval flag). *)
Theorem save_predictions_missing_checkpoint :
  forall (softmax : list Q -> list Q) (ModelState Input : Type)
         (forward : ModelState -> Input -> list Q)
         (save_model_path : string) (data_loader : list (list (Input * Z)))
         (label_ids : list Z) (label_names : list string) (args : Args)
         (w : world ModelState),
    files ModelState w !! save_model_path = None ->
    exists w',
      save_predictions softmax ModelState Input forward save_model_path
        data_loader label_ids label_names args w = Ok w' /\
      stdout ModelState w'
      = stdout ModelState w ++ [Print "INFO: no best model found ..."] /\
      files ModelState w' = files ModelState w /\
      model ModelState w' = model ModelState w /\
      model_training ModelState w' = model_training ModelState w.
Proof.
  intros softmax MS Input forward path loader ids names args w Hnone.
  unfold save_predictions. rewrite Hnone.
  rewrite bool_decide_eq_false_2 by (intros [v Hv]; discriminate).
  eexists. split; [reflexivity|]. repeat split.
Qed.

Lemma save_predictions_missing_checkpoint_witness :
  exists w',
    save_predictions SampleRun.probs unit (list Q) SampleRun.forward0
      "missing.pt" SampleRun.loader2 SampleRun.label_ids SampleRun.label_names
      SampleRun.args0 SampleRun.world0 = Ok w' /\
    files unit w' = files unit SampleRun.world0.
Proof.
  destruct (save_predictions_missing_checkpoint SampleRun.probs unit (list Q)
              SampleRun.forward0 "missing.pt" SampleRun.loader2
              SampleRun.label_ids SampleRun.label_names SampleRun.args0
              SampleRun.world0 ltac:(vm_compute; reflexivity))
    as (w' & E & _ & Hf & _).
  exists w'. split; [exact E | exact Hf].
Defined.

(** C2.  What the code does: with a checkpoint at [save_model_path], the
    loop appends one record per batch, built from the first sample of the
    batch (its field id and the softmax of its logits); the exported file
    holds exactly these records, so their number is the number of batches
    and the other samples of a batch get no record. *)
Theorem save_predictions_one_record_per_batch :
  forall (softmax : list Q -> list Q) (ModelState Input : Type)
         (forward : ModelState -> Input -> list Q)
         (save_model_path : string) (data_loader : list (list (Input * Z)))
         (label_ids : list Z) (label_names : list string) (args : Args)
         (w : world ModelState) (epoch : Z) (st : ModelState)
         (rows : list prediction),
    files ModelState w !! save_model_path
    = Some (CheckpointFile ModelState epoch st) ->
    Forall2 (fun b r => predict_batch softmax ModelState Input forward st
                          label_ids label_names b = Ok r) data_loader rows ->
    exists w',
      save_predictions softmax ModelState Input forward save_model_path
        data_loader label_ids label_names args w = Ok w' /\
      files ModelState w'
      = <[(if String.eqb (split args) "train"
           then path_join (target_dir args) "validation.json"
           else path_join (target_dir args) "submission.json")
          := JsonFile ModelState rows]> (files ModelState w) /\
      length rows = length data_loader /\
      Forall2 (fun b r => exists x f rest,
                 b = (x, f) :: rest /\ fid r = f /\
                 crop_probs r = softmax (forward st x)) data_loader rows.
Proof.
  intros softmax MS Input forward path loader ids names args w e st rows Hf HF.
  unfold save_predictions. rewrite Hf.
  rewrite bool_decide_eq_true_2 by (eexists; reflexivity).
  unfold torch_load. rewrite Hf. cbn [bind fst snd files stdout model model_training].
  rewrite (predict_loop_rows softmax MS Input forward st ids names loader rows [] HF).
  cbn [bind app]. eexists. split; [reflexivity|].
  cbn [files]. split; [reflexivity|]. split.
  - symmetry. eapply Forall2_length. exact HF.
  - eapply Forall2_impl; [exact HF|].
    intros b r Hb. eapply predict_batch_first. exact Hb.
Qed.

(** The failing input: one batch of two samples yields one record. *)
Lemma save_predictions_one_record_per_batch_witness :
  exists w',
    save_predictions SampleRun.probs unit (list Q) SampleRun.forward0
      "best_model.pt" SampleRun.loader2 SampleRun.label_ids
      SampleRun.label_names SampleRun.args0 SampleRun.world0 = Ok w' /\
    files unit w'
    = <["./submission.json" := JsonFile unit [SampleRun.row11]]>
        (files unit SampleRun.world0) /\
    length [SampleRun.row11] = length SampleRun.loader2 /\
    length (concat SampleRun.loader2) = 2%nat.
Proof.
  destruct (save_predictions_one_record_per_batch SampleRun.probs unit (list Q)
              SampleRun.forward0 "best_model.pt" SampleRun.loader2
              SampleRun.label_ids SampleRun.label_names SampleRun.args0
              SampleRun.world0 7%Z tt [SampleRun.row11])
    as (w' & E & Hf & Hl & _).
  - vm_compute. reflexivity.
  - constructor; [|constructor]. vm_compute. reflexivity.
  - exists w'. split; [exact E|]. split; [exact Hf|]. split; [exact Hl|].
    reflexivity.
Defined.

(* ------------------------------------------------------------------------- *)
(** ** [bin_cross_entr_each_crop] and the batch size *)

Lemma batch_sampler_drop_last {X : Type} (batch_size : nat) (sampler batch : list X) :
  (length batch < batch_size)%nat ->
  Forall (fun b => length b = batch_size)
         (batch_sampler batch_size true sampler batch).
Proof.
  revert batch. induction sampler as [|idx rest IH]; intros batch Hlt.
  - cbn. rewrite andb_false_r. constructor.
  - cbn [batch_sampler].
    destruct (Nat.eqb_spec (length (batch ++ [idx])) batch_size) as [Heq|Hne].
    + constructor; [exact Heq|]. apply IH. cbn. lia.
    + apply IH. rewrite length_app in *. cbn [length] in *. lia.
Qed.

Section LossFacts.

Variable softmax : list Q -> list Q.
Variable bce : list Q -> list Q -> Q.

Lemma scatter_onehot_ok (batch_size classes : Z) (y_true : list Z)
    (t : ndarray2 (A := Q)) :
  scatter_onehot batch_size classes y_true = Ok t ->
  (0 <= batch_size)%Z /\ (0 <= classes)%Z /\
  (length y_true <= Z.to_nat batch_size)%nat /\
  Forall (fun y => (0 <= y < classes)%Z) y_true /\
  shape2 t = (Z.to_nat batch_size, Z.to_nat classes) /\
  length (data2 t) = Z.to_nat batch_size.
Proof.
  unfold scatter_onehot.
  destruct (Z.ltb_spec batch_size 0); [discriminate|].
  destruct (Z.ltb_spec classes 0); [discriminate|]. cbn [orb].
  destruct (Nat.ltb_spec (Z.to_nat batch_size) (length y_true)); [discriminate|].
  destruct (forallb _ y_true) eqn:Hall; [|discriminate]. cbn [negb].
  intros E. injection E as <-. cbn [shape2 data2].
  repeat split; try assumption.
  - rewrite forallb_forall in Hall. apply List.Forall_forall. intros y Hy.
    specialize (Hall y Hy). apply andb_true_iff in Hall.
    destruct Hall as [Hlo Hhi].
    apply Z.leb_le in Hlo. apply Z.ltb_lt in Hhi. lia.
  - rewrite length_app, length_map, repeat_length. lia.
Qed.

Lemma bin_ce_loop_ok (cols : list nat) (y_prob onehot : ndarray2 (A := Q)) (acc : Q) :
  Forall (fun i => (i < snd (shape2 y_prob))%nat /\ (i < snd (shape2 onehot))%nat) cols ->
  length (data2 y_prob) = length (data2 onehot) ->
  exists v, bin_ce_loop bce cols y_prob onehot acc = Ok v.
Proof.
  intros Hcols Hlen. revert acc.
  induction Hcols as [|i rest [Hi1 Hi2] _ IH]; intros acc.
  - eexists. reflexivity.
  - cbn [bin_ce_loop]. unfold column, BCELoss.
    apply Nat.ltb_lt in Hi1. apply Nat.ltb_lt in Hi2. rewrite Hi1, Hi2.
    cbn [bind]. rewrite !length_map, Hlen, Nat.eqb_refl. cbn [bind]. apply IH.
Qed.

End LossFacts.

(** C10.  The one-hot target of [bin_cross_entr_each_crop] has
    [args.batch_size] rows.  For a batch of [n] samples (non-empty, or with
    at least one class) the function returns a loss only if
    [n = args.batch_size]; and it does return one when [n = args.batch_size],
    the labels are valid classes and the model outputs at least [classes]
    columns.  The train and validation loaders of the training loop are built
    with [drop_last=True]: each batch they yield has exactly
    [args.batch_size] samples, and they exist as soon as the batch size is
    positive. *)
Theorem bin_cross_entr_needs_full_batch :
  (forall (softmax : list Q -> list Q) (bce : list Q -> list Q -> Q)
          (logprobs : ndarray2 (A := Q)) (y_true : list Z) (classes : Z)
          (args : Args) (n : nat) (v : Q),
     wf2 logprobs -> fst (shape2 logprobs) = n -> length y_true = n ->
     (1 <= n)%nat \/ (1 <= classes)%Z ->
     bin_cross_entr_each_crop softmax bce logprobs y_true classes args = Ok v ->
     Z.of_nat n = batch_size args) /\
  (forall (softmax : list Q -> list Q) (bce : list Q -> list Q -> Q)
          (logprobs : ndarray2 (A := Q)) (y_true : list Z) (classes : Z)
          (args : Args) (n : nat),
     wf2 logprobs -> fst (shape2 logprobs) = n -> length y_true = n ->
     Z.of_nat n = batch_size args ->
     (0 <= classes <= Z.of_nat (snd (shape2 logprobs)))%Z ->
     Forall (fun y => (0 <= y < classes)%Z) y_true ->
     exists v,
       bin_cross_entr_each_crop softmax bce logprobs y_true classes args = Ok v) /\
  (forall (X : Type) (args : Args) (ids : list X) (batches : list (list X)),
     train_loader args ids = Ok batches \/ valid_loader args ids = Ok batches ->
     Forall (fun b => Z.of_nat (length b) = batch_size args) batches) /\
  (forall (X : Type) (args : Args) (ids : list X),
     (0 < batch_size args)%Z ->
     exists batches, train_loader args ids = Ok batches /\
                     valid_loader args ids = Ok batches).
Proof.
  split; [|split; [|split]].
  - intros softmax bce logprobs y_true classes args n v [Hl Hr] Sn Ly Hne.
    rewrite Sn in Hl.
    unfold bin_cross_entr_each_crop.
    destruct (scatter_onehot (batch_size args) classes y_true) as [t|e] eqn:Es;
      cbn [bind]; [|discriminate].
    destruct (scatter_onehot_ok _ _ _ _ Es) as (Hb & Hc & Hn & Hv & St & Lt).
    assert (Hcl : (1 <= classes)%Z).
    { destruct Hne as [Hn1|Hc1]; [|exact Hc1].
      destruct y_true as [|y ys]; [cbn in Ly; lia|].
      inversion Hv as [|? ? Hy _]; subst. lia. }
    destruct (Z.to_nat classes) as [|k] eqn:Ek; [lia|].
    cbn [seq bin_ce_loop]. unfold column at 1. cbn [shape2 data2].
    destruct (0 <? snd (shape2 logprobs))%nat; cbn [bind]; [|discriminate].
    unfold column at 1. destruct (0 <? snd (shape2 t))%nat; cbn [bind];
      [|discriminate].
    unfold BCELoss. rewrite !length_map, Hl, Lt.
    destruct (Nat.eqb_spec n (Z.to_nat (batch_size args))) as [Heq|Hneq];
      cbn [bind]; [|discriminate].
    intros _. lia.
  - intros softmax bce logprobs y_true classes args n [Hl Hr] Sn Ly Hbs Hcl Hv.
    rewrite Sn in Hl.
    unfold bin_cross_entr_each_crop, scatter_onehot.
    destruct (Z.ltb_spec (batch_size args) 0); [lia|].
    destruct (Z.ltb_spec classes 0); [lia|]. cbn [orb].
    destruct (Nat.ltb_spec (Z.to_nat (batch_size args)) (length y_true)); [lia|].
    assert (Hall : forallb (fun y => (0 <=? y)%Z && (y <? classes)%Z) y_true = true).
    { apply forallb_forall. intros y Hy. rewrite List.Forall_forall in Hv.
      specialize (Hv y Hy). apply andb_true_iff. split;
        [apply Z.leb_le | apply Z.ltb_lt]; lia. }
    rewrite Hall. cbn [negb bind].
    apply bin_ce_loop_ok.
    + apply List.Forall_forall. intros i Hi. apply in_seq in Hi.
      cbn [shape2 snd]. lia.
    + cbn [data2]. rewrite length_app, !length_map, repeat_length. lia.
  - intros X args ids batches Hld.
    assert (E : DataLoader ids (batch_size args) true = Ok batches)
      by (destruct Hld as [E|E]; exact E).
    unfold DataLoader in E.
    destruct (Z.leb_spec (batch_size args) 0); [discriminate|].
    injection E as <-.
    eapply Forall_impl;
      [apply batch_sampler_drop_last; cbn; lia|].
    intros b Hb. cbn beta in Hb. lia.
  - intros X args ids Hpos. unfold train_loader, valid_loader, DataLoader.
    destruct (Z.leb_spec (batch_size args) 0); [lia|].
    eexists. split; reflexivity.
Qed.

Lemma bin_cross_entr_needs_full_batch_witness :
  Z.of_nat 2 = batch_size SampleRun.args0 /\
  exists batches,
    train_loader SampleRun.args0 [1; 2; 3; 4; 5]%nat = Ok batches /\
    Forall (fun b => Z.of_nat (length b) = batch_size SampleRun.args0) batches.
Proof.
  split.
  - eapply (proj1 bin_cross_entr_needs_full_batch SampleRun.probs SampleRun.bce0
              (mk2 (2, 5)%nat [[1; 3; 1; 0; 0]; [4; 1; 0; 0; 0]]%Q)
              [1; 0]%Z 5%Z SampleRun.args0 2%nat).
    + split; [reflexivity|]. repeat constructor.
    + reflexivity.
    + reflexivity.
    + left. lia.
    + vm_compute. reflexivity.
  - eexists. split; [vm_compute; reflexivity|].
    apply (proj1 (proj2 (proj2 bin_cross_entr_needs_full_batch))
             nat SampleRun.args0 [1; 2; 3; 4; 5]%nat).
    left. vm_compute. reflexivity.
Defined.

(* ------------------------------------------------------------------------- *)
(** ** The epoch loop of a fold *)

Section FoldFacts.

Variable ModelState OptimizerState : Type.
Variable model_state : nat -> ModelState.
Variable optimizer_state : nat -> OptimizerState.
Variable valid_loss : nat -> Training.loss.

Local Abbreviation epoch_loop :=
  (Training.epoch_loop ModelState OptimizerState model_state optimizer_state
     valid_loss).
Local Abbreviation epoch_body :=
  (Training.epoch_body ModelState OptimizerState model_state optimizer_state
     valid_loss).
Local Abbreviation early_stopping :=
  (Training.early_stopping ModelState OptimizerState model_state
     optimizer_state valid_loss).
Local Abbreviation fold_init := (Training.fold_init ModelState OptimizerState).
Local Abbreviation loop_state :=
  (FoldSpec.loop_state ModelState OptimizerState model_state optimizer_state
     valid_loss).
Local Abbreviation periodic_saves :=
  (FoldSpec.periodic_saves ModelState OptimizerState model_state
     optimizer_state).
Local Abbreviation stale := (FoldSpec.stale valid_loss).
Local Abbreviation improves := (FoldSpec.improves valid_loss).
Local Abbreviation best_before := (FoldSpec.best_before valid_loss).
Local Abbreviation last_improving := (FoldSpec.last_improving valid_loss).
Local Abbreviation stop_epoch := (FoldSpec.stop_epoch valid_loss).
Local Abbreviation executed := (FoldSpec.executed valid_loss).
Local Abbreviation completed := (FoldSpec.completed valid_loss).

Lemma epoch_loop_app (args : Args) (l1 l2 : list nat)
    (s : Training.fold_state ModelState OptimizerState) :
  epoch_loop args (l1 ++ l2) s
  = match epoch_loop args l1 s with
    | Ok (s', None) => epoch_loop args l2 s'
    | r => r
    end.
Proof.
  revert s. induction l1 as [|e l1 IH]; intros s; [reflexivity|].
  cbn [app Training.epoch_loop].
  destruct (epoch_body args e s) as [[s'|s']|err]; cbn [bind];
    [apply IH | reflexivity | reflexivity].
Qed.

Lemma find_snoc {X : Type} (f : X -> bool) (l : list X) (x : X) :
  find f (l ++ [x])
  = match find f l with
    | Some b => Some b
    | None => if f x then Some x else None
    end.
Proof.
  induction l as [|a l IH]; [reflexivity|].
  cbn [app find]. destruct (f a); [reflexivity | exact IH].
Qed.

Lemma stop_epoch_S (args : Args) (N : nat) :
  stop_epoch args (S N)
  = match stop_epoch args N with
    | Some b => Some b
    | None => if (Z.of_nat (stale N) =? patience args)%Z then Some N else None
    end.
Proof. unfold FoldSpec.stop_epoch. rewrite seq_S, find_snoc. reflexivity. Qed.

Lemma stale_step (e : nat) :
  stale e = if improves e then 0%nat
            else S (match e with O => 0%nat | S e' => stale e' end).
Proof. destruct e; reflexivity. Qed.

Lemma periodic_saves_S (args : Args) (n : nat) :
  periodic_saves args (S n)
  = periodic_saves args n
    ++ (if FoldSpec.periodic args n
        then [(Training.epoch_path args n,
               Training.mkCheckpoint ModelState OptimizerState
                 (model_state n) (optimizer_state n) n)]
        else []).
Proof.
  unfold FoldSpec.periodic_saves. rewrite seq_S, List.filter_app, map_app.
  cbn [List.filter Nat.add]. destruct (FoldSpec.periodic args n); reflexivity.
Qed.

(** The loop computes [loop_state] and leaves at [stop_epoch]. *)
Lemma epoch_loop_spec (args : Args)
    (prev : option (ModelState * OptimizerState)) (N : nat) :
  checkpoint_epoch args <> 0%Z ->
  epoch_loop args (seq 0 N) (fold_init prev)
  = Ok (loop_state args prev N, stop_epoch args N).
Proof.
  intros Hce. induction N as [|N IH]; [reflexivity|].
  rewrite seq_S, epoch_loop_app, IH. cbn [Nat.add].
  unfold FoldSpec.loop_state, FoldSpec.executed, FoldSpec.completed.
  rewrite stop_epoch_S.
  destruct (stop_epoch args N) as [b|] eqn:Es; [reflexivity|].
  cbn [Training.epoch_loop]. unfold Training.epoch_body, Training.early_stopping.
  cbn [Training.best_loss Training.best_epoch Training.best_snapshot
       Training.patience_count Training.saved].
  change (Training.loss_ltb (valid_loss N) (best_before N)) with (improves N).
  rewrite (stale_step N).
  destruct (improves N) eqn:Ei;
    cbn [Training.best_loss Training.best_epoch Training.best_snapshot
         Training.patience_count Training.saved];
    match goal with
    | |- context [(?a =? patience args)%Z] =>
        destruct (Z.eqb_spec a (patience args)) as [Hp|Hp]
    end;
    cbn [bind FoldSpec.best_before FoldSpec.last_improving];
    change (Training.loss_ltb (valid_loss N) (best_before N)) with (improves N);
    rewrite ?(stale_step N), ?Ei; try reflexivity;
    destruct (Z.eqb_spec (checkpoint_epoch args) 0) as [Hz|_];
    try contradiction;
    rewrite periodic_saves_S; unfold FoldSpec.periodic;
    destruct ((Z.of_nat N mod checkpoint_epoch args =? 0)%Z
              && negb (Z.of_nat N =? 0)%Z);
    cbn [bind Training.epoch_loop
         Training.best_loss Training.best_epoch Training.best_snapshot
         Training.patience_count Training.saved];
    rewrite ?app_nil_r; reflexivity.
Qed.

Lemma stop_epoch_none (args : Args) (N : nat) :
  stop_epoch args N = None <->
  forall e, (e < N)%nat -> Z.of_nat (stale e) <> patience args.
Proof.
  induction N as [|N IH].
  - split; [intros _ e He; lia | reflexivity].
  - rewrite stop_epoch_S. destruct (stop_epoch args N) as [b0|] eqn:Es.
    + split; [discriminate|]. intros Hall.
      assert (Hn : Some b0 = None) by (apply IH; intros e He; apply Hall; lia).
      discriminate.
    + destruct (Z.eqb_spec (Z.of_nat (stale N)) (patience args)) as [Hp|Hp].
      * split; [discriminate|]. intros Hall. exfalso.
        exact (Hall N ltac:(lia) Hp).
      * split; [|reflexivity]. intros _ e He.
        destruct (Nat.eq_dec e N) as [->|Hne]; [exact Hp|].
        apply (proj1 IH eq_refl). lia.
Qed.

Lemma stop_epoch_first (args : Args) (N b : nat) :
  stop_epoch args N = Some b <->
  (b < N)%nat /\ Z.of_nat (stale b) = patience args /\
  forall e, (e < b)%nat -> Z.of_nat (stale e) <> patience args.
Proof.
  revert b. induction N as [|N IH]; intros b.
  - cbn. split; [discriminate | lia].
  - rewrite stop_epoch_S.
    destruct (stop_epoch args N) as [b0|] eqn:Es.
    + destruct (proj1 (IH b0) eq_refl) as (Hb0 & Hs0 & Hf0). split.
      * intros E. injection E as <-. repeat split; [lia | exact Hs0 | exact Hf0].
      * intros (Hb & Hs & Hf). f_equal.
        destruct (Nat.lt_trichotomy b0 b) as [Hlt|[Heq|Hgt]];
          [exfalso; exact (Hf b0 Hlt Hs0) | exact Heq
          | exfalso; exact (Hf0 b Hgt Hs)].
    + pose proof (proj1 (stop_epoch_none args N) Es) as Hnone.
      destruct (Z.eqb_spec (Z.of_nat (stale N)) (patience args)) as [Hp|Hp].
      * split.
        -- intros E. injection E as <-. repeat split; [lia | exact Hp | exact Hnone].
        -- intros (Hb & Hs & Hf). f_equal.
           destruct (Nat.eq_dec b N) as [->|Hne]; [reflexivity|].
           exfalso. exact (Hnone b ltac:(lia) Hs).
      * split; [discriminate|]. intros (Hb & Hs & Hf). exfalso.
        destruct (Nat.eq_dec b N) as [->|Hne]; [exact (Hp Hs)|].
        exact (Hnone b ltac:(lia) Hs).
Qed.

(** Before an executed epoch nothing has stopped the loop. *)
Lemma executed_prefix (args : Args) (N e : nat) :
  (e < executed args N)%nat ->
  (e < N)%nat /\ stop_epoch args e = None.
Proof.
  unfold FoldSpec.executed. intros He.
  destruct (stop_epoch args N) as [b|] eqn:Es.
  - destruct (proj1 (stop_epoch_first args N b) Es) as (Hb & _ & Hf).
    split; [lia|]. apply stop_epoch_none. intros e' He'. apply Hf. lia.
  - split; [exact He|]. apply stop_epoch_none. intros e' He'.
    apply (proj1 (stop_epoch_none args N) Es). lia.
Qed.

(** [stale e] counts the non-improving epochs up to [e] since the last
    improving one (or since the start of the fold). *)
Lemma stale_run (e : nat) :
  (stale e <= S e)%nat /\
  (forall i, (S e - stale e <= i <= e)%nat -> improves i = false) /\
  ((stale e <= e)%nat -> improves (e - stale e) = true).
Proof.
  induction e as [|e (IH1 & IH2 & IH3)].
  - cbn [FoldSpec.stale]. destruct (improves 0) eqn:E0.
    + repeat split; [lia | intros i Hi; lia | intros _; exact E0].
    + repeat split; [lia | | lia].
      intros i Hi. replace i with 0%nat by lia. exact E0.
  - cbn [FoldSpec.stale]. destruct (improves (S e)) eqn:ES.
    + repeat split; [lia | intros i Hi; lia |].
      intros _. rewrite Nat.sub_0_r. exact ES.
    + repeat split; [lia | |].
      * intros i Hi. destruct (Nat.eq_dec i (S e)) as [->|Hne]; [exact ES|].
        apply IH2. lia.
      * intros Hle. replace (S e - S (stale e))%nat with (e - stale e)%nat by lia.
        apply IH3. lia.
Qed.

Lemma last_improving_spec (n : nat) :
  match last_improving n with
  | Some b => (b < n)%nat /\ improves b = true /\
              forall e, (b < e < n)%nat -> improves e = false
  | None => forall e, (e < n)%nat -> improves e = false
  end.
Proof.
  induction n as [|n IH].
  - cbn. intros e He. lia.
  - cbn [FoldSpec.last_improving]. destruct (improves n) eqn:En.
    + repeat split; [lia | exact En | intros e He; lia].
    + destruct (last_improving n) as [b|].
      * destruct IH as (Hb & Hi & Hf). repeat split; [lia | exact Hi |].
        intros e He. destruct (Nat.eq_dec e n) as [->|Hne]; [exact En|].
        apply Hf. lia.
      * intros e He. destruct (Nat.eq_dec e n) as [->|Hne]; [exact En|].
        apply IH. lia.
Qed.

Lemma in_periodic_saves (args : Args) (n : nat) (path : string)
    (ck : Training.checkpoint ModelState OptimizerState) :
  In (path, ck) (periodic_saves args n) <->
  exists e, (e < n)%nat /\ FoldSpec.periodic args e = true /\
            path = Training.epoch_path args e /\
            ck = Training.mkCheckpoint ModelState OptimizerState
                   (model_state e) (optimizer_state e) e.
Proof.
  unfold FoldSpec.periodic_saves. rewrite in_map_iff. split.
  - intros (e & E & Hin). apply filter_In in Hin. destruct Hin as [Hs Hp].
    apply in_seq in Hs. injection E as <- <-.
    exists e. repeat split; [lia | exact Hp].
  - intros (e & He & Hp & -> & ->). exists e. split; [reflexivity|].
    apply filter_In. split; [apply in_seq; lia | exact Hp].
Qed.

End FoldFacts.

(** C4.  In every fold, for every sequence of validation losses (with a
    non-zero [checkpoint_epoch], so that the loop body can run): the patience
    counter becomes 0 on an epoch whose loss is below the best loss so far and
    grows by 1 otherwise; at each epoch that runs, the best loss held by the
    loop is the best of the earlier epochs and the counter after the update is
    the number of consecutive non-improving epochs ending there; and the loop
    leaves by [break] at epoch [b] exactly when [b] is the first epoch of
    [range(max_epochs)] at which that number equals [args.patience]. *)
Theorem early_stopping_after_patience :
  forall (ModelState OptimizerState : Type) (model_state : nat -> ModelState)
         (optimizer_state : nat -> OptimizerState)
         (valid_loss : nat -> Training.loss) (args : Args)
         (prev : option (ModelState * OptimizerState)),
    checkpoint_epoch args <> 0%Z ->
    let N := Z.to_nat (max_epochs args) in
    let loop := Training.epoch_loop ModelState OptimizerState model_state
                  optimizer_state valid_loss args in
    let update := Training.early_stopping ModelState OptimizerState model_state
                    optimizer_state valid_loss in
    let count := Training.patience_count ModelState OptimizerState in
    let best := Training.best_loss ModelState OptimizerState in
    let init := Training.fold_init ModelState OptimizerState prev in
    (forall e s,
       count (update e s)
       = if Training.loss_ltb (valid_loss e) (best s) then 0%nat
         else S (count s)) /\
    (forall e, (e < FoldSpec.executed valid_loss args N)%nat ->
       exists s_e,
         loop (seq 0 e) init = Ok (s_e, None) /\
         best s_e = FoldSpec.best_before valid_loss e /\
         Training.loss_ltb (valid_loss e) (best s_e)
         = FoldSpec.improves valid_loss e /\
         count (update e s_e) = FoldSpec.stale valid_loss e) /\
    (exists s, loop (seq 0 N) init = Ok (s, FoldSpec.stop_epoch valid_loss args N)) /\
    (forall b,
       FoldSpec.stop_epoch valid_loss args N = Some b <->
       (b < N)%nat /\
       Z.of_nat (FoldSpec.stale valid_loss b) = patience args /\
       forall e, (e < b)%nat ->
                 Z.of_nat (FoldSpec.stale valid_loss e) <> patience args) /\
    (FoldSpec.stop_epoch valid_loss args N = None <->
     forall e, (e < N)%nat ->
               Z.of_nat (FoldSpec.stale valid_loss e) <> patience args) /\
    (forall e,
       (FoldSpec.stale valid_loss e <= S e)%nat /\
       (forall i, (S e - FoldSpec.stale valid_loss e <= i <= e)%nat ->
                  FoldSpec.improves valid_loss i = false) /\
       ((FoldSpec.stale valid_loss e <= e)%nat ->
        FoldSpec.improves valid_loss (e - FoldSpec.stale valid_loss e) = true)).
Proof.
  intros MS OS ms os valid_loss args prev Hce N loop update count best init.
  split; [|split; [|split; [|split; [|split]]]].
  - intros e s. subst count update best. unfold Training.early_stopping.
    destruct (Training.loss_ltb _ _); reflexivity.
  - intros e He.
    destruct (executed_prefix valid_loss args N e He) as [HeN Hnone].
    exists (FoldSpec.loop_state MS OS ms os valid_loss args prev e).
    subst loop init.
    rewrite (epoch_loop_spec MS OS ms os valid_loss args prev e Hce), Hnone.
    split; [reflexivity|].
    assert (Hb : best (FoldSpec.loop_state MS OS ms os valid_loss args prev e)
                 = FoldSpec.best_before valid_loss e).
    { subst best. unfold FoldSpec.loop_state, FoldSpec.executed.
      rewrite Hnone. reflexivity. }
    split; [exact Hb|]. split; [rewrite Hb; reflexivity|].
    subst count update. unfold Training.early_stopping.
    fold best. rewrite Hb.
    change (Training.loss_ltb (valid_loss e) (FoldSpec.best_before valid_loss e))
      with (FoldSpec.improves valid_loss e).
    rewrite (stale_step valid_loss e).
    unfold FoldSpec.loop_state, FoldSpec.executed. rewrite Hnone.
    destruct (FoldSpec.improves valid_loss e); reflexivity.
  - eexists. subst loop init. apply epoch_loop_spec. exact Hce.
  - intros b. apply stop_epoch_first.
  - apply stop_epoch_none.
  - intros e. apply stale_run.
Qed.

Lemma early_stopping_after_patience_witness :
  exists s,
    Training.epoch_loop nat nat SampleFold.state_of SampleFold.state_of
      SampleFold.losses SampleRun.args0 (seq 0 10)
      (Training.fold_init nat nat None) = Ok (s, Some 3%nat).
Proof.
  destruct (early_stopping_after_patience nat nat SampleFold.state_of
              SampleFold.state_of SampleFold.losses SampleRun.args0 None
              ltac:(vm_compute; discriminate))
    as (_ & _ & (s & Hs) & _).
  exists s. exact Hs.
Defined.

(** C3, as stated, fails: in the sample fold epoch 0 attains a new best loss
    and epoch 3 is a positive multiple of [checkpoint_epoch], yet the only
    checkpoint saved holds the states of epoch 1. *)
Lemma not_saved_at_every_periodic_and_best :
  ~ FoldSpec.saved_at_every_periodic_and_best nat nat SampleFold.state_of
      SampleFold.state_of SampleFold.losses SampleRun.args0 0 None.
Proof.
  intros Hclaim.
  destruct (Training.run_fold nat nat SampleFold.state_of SampleFold.state_of
              SampleFold.losses SampleRun.args0 0 None) as [[s exit]|err] eqn:E;
    [|vm_compute in E; discriminate].
  specialize (Hclaim s exit E 0%nat).
  vm_compute in E. injection E as <- <-.
  destruct Hclaim as (path & ck & Hin & Hep & _).
  - vm_compute. lia.
  - right. reflexivity.
  - cbn [Training.saved In] in Hin. destruct Hin as [Hin|[]].
    injection Hin as _ <-. cbn in Hep. discriminate.
Qed.

(** C3 (amended).  With a non-zero [checkpoint_epoch], a fold that ends
    normally has saved, in this order: one checkpoint
    [epoch_<e>_model.pt] with the model and optimizer states of epoch [e] for
    every epoch [e] that is a positive multiple of [checkpoint_epoch] and whose
    body ran to its end (every epoch before the [break], or all of them); then
    one checkpoint [best_model_fold_<k>.pt] with the states snapshotted at the
    last epoch that attained a new best validation loss.  Nothing is saved at
    the time a new best is found, and nothing at the epoch of the [break].
    The fold ends normally as soon as some executed epoch improved. *)
Theorem checkpoints_of_a_fold :
  forall (ModelState OptimizerState : Type) (model_state : nat -> ModelState)
         (optimizer_state : nat -> OptimizerState)
         (valid_loss : nat -> Training.loss) (args : Args) (fold : nat)
         (prev : option (ModelState * OptimizerState)),
    checkpoint_epoch args <> 0%Z ->
    let N := Z.to_nat (max_epochs args) in
    let ex := FoldSpec.executed valid_loss args N in
    let finished := FoldSpec.completed valid_loss args N in
    let run := Training.run_fold ModelState OptimizerState model_state
                 optimizer_state valid_loss args fold prev in
    (forall s exit, run = Ok (s, exit) ->
       exit = FoldSpec.stop_epoch valid_loss args N /\
       exists m o be,
         Training.saved ModelState OptimizerState s
         = FoldSpec.periodic_saves ModelState OptimizerState model_state
             optimizer_state args finished
           ++ [(Training.best_path args fold,
                Training.mkCheckpoint ModelState OptimizerState m o be)] /\
         match FoldSpec.last_improving valid_loss ex with
         | Some b => m = model_state b /\ o = optimizer_state b /\ be = b
         | None => prev = Some (m, o) /\ be = 0%nat
         end) /\
    (forall b, FoldSpec.last_improving valid_loss ex = Some b ->
       exists s, run = Ok (s, FoldSpec.stop_epoch valid_loss args N)) /\
    (forall path ck,
       In (path, ck) (FoldSpec.periodic_saves ModelState OptimizerState
                        model_state optimizer_state args finished) <->
       exists e, (e < finished)%nat /\ FoldSpec.periodic args e = true /\
                 path = Training.epoch_path args e /\
                 ck = Training.mkCheckpoint ModelState OptimizerState
                        (model_state e) (optimizer_state e) e) /\
    (forall e, FoldSpec.periodic args e = true <->
               (Z.of_nat e mod checkpoint_epoch args = 0)%Z /\ (0 < e)%nat) /\
    match FoldSpec.stop_epoch valid_loss args N with
    | Some b => finished = b /\ ex = S b
    | None => finished = N /\ ex = N
    end /\
    match FoldSpec.last_improving valid_loss ex with
    | Some b => (b < ex)%nat /\ FoldSpec.improves valid_loss b = true /\
                forall e, (b < e < ex)%nat -> FoldSpec.improves valid_loss e = false
    | None => forall e, (e < ex)%nat -> FoldSpec.improves valid_loss e = false
    end.
Proof.
  intros MS OS ms os valid_loss args fold prev Hce N ex finished run.
  assert (Hrun : run
    = match Training.best_snapshot MS OS
              (FoldSpec.loop_state MS OS ms os valid_loss args prev N) with
      | None => Raise NameError
      | Some (m, o) =>
          Ok (Training.mkFoldState MS OS
                (FoldSpec.best_before valid_loss ex)
                (match FoldSpec.last_improving valid_loss ex with
                 | Some b => b | None => 0%nat end)
                (Training.best_snapshot MS OS
                   (FoldSpec.loop_state MS OS ms os valid_loss args prev N))
                (match ex with O => 0%nat | S e => FoldSpec.stale valid_loss e end)
                (FoldSpec.periodic_saves MS OS ms os args finished
                 ++ [(Training.best_path args fold,
                      Training.mkCheckpoint MS OS m o
                        (match FoldSpec.last_improving valid_loss ex with
                         | Some b => b | None => 0%nat end))]),
              FoldSpec.stop_epoch valid_loss args N)
      end).
  { subst run. unfold Training.run_fold. fold N.
    rewrite (epoch_loop_spec MS OS ms os valid_loss args prev N Hce).
    cbn [bind fst snd]. reflexivity. }
  split; [|split; [|split; [|split; [|split]]]].
  - intros s exit E. rewrite Hrun in E.
    unfold FoldSpec.loop_state in E. fold ex in E.
    cbn [Training.best_snapshot] in E.
    destruct (FoldSpec.last_improving valid_loss ex) as [b|] eqn:El.
    + injection E as <- <-. split; [reflexivity|].
      exists (ms b), (os b), b. cbn [Training.saved]. split; [reflexivity|].
      repeat split.
    + destruct prev as [[m o]|]; [|discriminate].
      injection E as <- <-. split; [reflexivity|].
      exists m, o, 0%nat. cbn [Training.saved]. split; [reflexivity|].
      split; reflexivity.
  - intros b El. rewrite Hrun. unfold FoldSpec.loop_state. fold ex.
    cbn [Training.best_snapshot]. rewrite El. eexists. reflexivity.
  - intros path ck. apply in_periodic_saves.
  - intros e. unfold FoldSpec.periodic. rewrite andb_true_iff, negb_true_iff.
    rewrite Z.eqb_eq, Z.eqb_neq. lia.
  - subst ex finished. unfold FoldSpec.executed, FoldSpec.completed.
    destruct (FoldSpec.stop_epoch valid_loss args N); split; reflexivity.
  - apply last_improving_spec.
Qed.

Lemma checkpoints_of_a_fold_witness :
  exists s,
    Training.run_fold nat nat SampleFold.state_of SampleFold.state_of
      SampleFold.losses SampleRun.args0 0 None = Ok (s, Some 3%nat).
Proof.
  destruct (proj1 (proj2 (checkpoints_of_a_fold nat nat SampleFold.state_of
              SampleFold.state_of SampleFold.losses SampleRun.args0 0%nat None
              ltac:(vm_compute; discriminate))) 1%nat
              ltac:(vm_compute; reflexivity)) as (s & Hs).
  exists s. exact Hs.
Defined.

(* ------------------------------------------------------------------------- *)
(** ** The loaders of [main] *)

Lemma batch_sampler_drop_last_prefix {X : Type} (bs : nat) (l acc : list X) :
  (length acc < bs)%nat ->
  exists rest,
    acc ++ l = concat (batch_sampler bs true l acc) ++ rest /\
    (length rest < bs)%nat.
Proof.
  revert acc. induction l as [|idx l IH]; intros acc Hacc.
  - exists acc. cbn. rewrite andb_false_r, app_nil_r. split; [reflexivity | exact Hacc].
  - cbn [batch_sampler].
    destruct (Nat.eqb_spec (length (acc ++ [idx])) bs) as [Heq|Hne].
    + destruct (IH [] ltac:(cbn; lia)) as (rest & E & Hr).
      exists rest. split; [|exact Hr].
      cbn [concat]. rewrite <- app_assoc, <- E. cbn [app].
      rewrite <- app_assoc. reflexivity.
    + rewrite length_app in Hne. cbn [length] in Hne.
      destruct (IH (acc ++ [idx]) ltac:(rewrite length_app; cbn; lia))
        as (rest & E & Hr).
      exists rest. split; [|exact Hr].
      rewrite <- E, <- app_assoc. reflexivity.
Qed.

Lemma batch_sampler_keep_last {X : Type} (bs : nat) (l acc : list X) :
  (length acc < bs)%nat ->
  acc ++ l = concat (batch_sampler bs false l acc) /\
  Forall (fun b => (1 <= length b <= bs)%nat) (batch_sampler bs false l acc).
Proof.
  revert acc. induction l as [|idx l IH]; intros acc Hacc.
  - cbn [batch_sampler negb]. rewrite andb_true_r.
    destruct (Nat.ltb_spec 0 (length acc)) as [Hpos|Hzero].
    + cbn. rewrite !app_nil_r. split; [reflexivity|].
      constructor; [lia | constructor].
    + destruct acc; [|cbn in Hzero; lia]. split; [reflexivity | constructor].
  - cbn [batch_sampler].
    destruct (Nat.eqb_spec (length (acc ++ [idx])) bs) as [Heq|Hne].
    + destruct (IH [] ltac:(cbn; lia)) as (E & Hall). split.
      * cbn [concat]. rewrite <- E. cbn [app]. rewrite <- app_assoc. reflexivity.
      * constructor; [|exact Hall]. rewrite length_app in *. cbn [length] in *. lia.
    + rewrite length_app in Hne. cbn [length] in Hne.
      destruct (IH (acc ++ [idx]) ltac:(rewrite length_app; cbn; lia))
        as (E & Hall).
      split; [|exact Hall]. rewrite <- E, <- app_assoc. reflexivity.
Qed.




(** X2.  The loader of the prediction export loses no sample: its batches,
    concatenated, are the ids; every batch is non-empty and has at most
    [batch_size] samples. *)
Theorem test_loader_covers_all :
  forall (X : Type) (args : Args) (ids : list X) (batches : list (list X)),
    test_loader args ids = Ok batches ->
    concat batches = ids /\
    Forall (fun b => (1 <= Z.of_nat (length b) <= batch_size args)%Z) batches.
Proof.
  intros X args ids batches E. unfold test_loader, DataLoader in E.
  destruct (Z.leb_spec (batch_size args) 0) as [|Hpos]; [discriminate|].
  injection E as <-.
  destruct (batch_sampler_keep_last (Z.to_nat (batch_size args)) ids [])
    as (Ec & Hall); [cbn; lia|].
  split; [symmetry; exact Ec|].
  eapply Forall_impl; [exact Hall|]. intros b Hb. cbn beta in Hb. lia.
Qed.

Lemma test_loader_covers_all_witness :
  concat [[1; 2]; [3; 4]; [5]]%nat = [1; 2; 3; 4; 5]%nat.
Proof.
  exact (proj1 (test_loader_covers_all nat SampleRun.args0 [1; 2; 3; 4; 5]%nat
                  [[1; 2]; [3; 4]; [5]]%nat eq_refl)).
Defined.

(* ------------------------------------------------------------------------- *)
(** ** [train_epoch] and [validation_epoch] *)

Ltac step_train_loop E := cbn [train_loop] in E.
Ltac step_validation_loop E := cbn [validation_loop] in E.
Ltac open_model_call := unfold model_call.

Section EpochFacts.

Variable softmax : list Q -> list Q.
Variable bce : list Q -> list Q -> Q.
Variable ModelState Input : Type.
Variable out_dim : nat.
Variable forward : ModelState -> Input -> list Q.
Variable optimizer_step : ModelState -> list (Input * Z * Z) -> ModelState.
Variable exp_row : list Q -> list Q.

Local Abbreviation model_call := (model_call ModelState Input out_dim forward).
Local Abbreviation train_loop :=
  (train_loop softmax bce ModelState Input out_dim forward optimizer_step).
Local Abbreviation validation_loop :=
  (validation_loop softmax bce ModelState Input out_dim forward exp_row).

(** A loss is returned only for a batch of [batch_size] rows. *)
Lemma loss_ok_full_batch (logprobs : ndarray2 (A := Q)) (y_true : list Z)
    (classes : Z) (args : Args) (n : nat) (v : Q) :
  length (data2 logprobs) = n -> length y_true = n -> (1 <= classes)%Z ->
  bin_cross_entr_each_crop softmax bce logprobs y_true classes args = Ok v ->
  Z.of_nat n = batch_size args.
Proof.
  intros Hl Ly Hcl. unfold bin_cross_entr_each_crop.
  destruct (scatter_onehot (batch_size args) classes y_true) as [t|e] eqn:Es;
    cbn [bind]; [|discriminate].
  destruct (scatter_onehot_ok _ _ _ _ Es) as (Hb & Hc & Hn & Hv & St & Lt).
  destruct (Z.to_nat classes) as [|k] eqn:Ek; [lia|].
  cbn [seq bin_ce_loop]. unfold column at 1. cbn [shape2 data2].
  destruct (0 <? snd (shape2 logprobs))%nat; cbn [bind]; [|discriminate].
  unfold column at 1. destruct (0 <? snd (shape2 t))%nat; cbn [bind];
    [|discriminate].
  unfold BCELoss. rewrite !length_map, Hl, Lt.
  destruct (Nat.eqb_spec n (Z.to_nat (batch_size args))) as [Heq|Hneq];
    cbn [bind]; [|discriminate].
  intros _. lia.
Qed.

(** A full batch with valid labels and enough output columns has a loss. *)
Lemma loss_ok_when_full (logprobs : ndarray2 (A := Q)) (y_true : list Z)
    (classes : Z) (args : Args) :
  length (data2 logprobs) = length y_true ->
  Z.of_nat (length y_true) = batch_size args ->
  (0 <= classes <= Z.of_nat (snd (shape2 logprobs)))%Z ->
  Forall (fun y => (0 <= y < classes)%Z) y_true ->
  exists v,
    bin_cross_entr_each_crop softmax bce logprobs y_true classes args = Ok v.
Proof.
  intros Hl Hbs Hcl Hv. unfold bin_cross_entr_each_crop, scatter_onehot.
  destruct (Z.ltb_spec (batch_size args) 0); [lia|].
  destruct (Z.ltb_spec classes 0); [lia|]. cbn [orb].
  destruct (Nat.ltb_spec (Z.to_nat (batch_size args)) (length y_true)); [lia|].
  assert (Hall : forallb (fun y => (0 <=? y)%Z && (y <? classes)%Z) y_true = true).
  { apply forallb_forall. intros y Hy. rewrite List.Forall_forall in Hv.
    specialize (Hv y Hy). apply andb_true_iff. split;
      [apply Z.leb_le | apply Z.ltb_lt]; lia. }
  rewrite Hall. cbn [negb bind].
  apply bin_ce_loop_ok.
  - apply List.Forall_forall. intros i Hi. apply in_seq in Hi.
    cbn [shape2 snd]. lia.
  - cbn [data2]. rewrite length_app, !length_map, repeat_length. lia.
Qed.

Lemma train_loop_ok (st st' : ModelState)
    (dataloader : list (list (Input * Z * Z))) (classes : Z) (args : Args)
    (acc losses : list Q) :
  (1 <= classes)%Z ->
  train_loop st dataloader classes args acc = Ok (st', losses) ->
  Forall (fun b => Z.of_nat (length b) = batch_size args) dataloader /\
  length losses = (length acc + length dataloader)%nat.
Proof.
  intros Hcl. revert st acc.
  induction dataloader as [|b rest IH]; intros st acc E.
  - cbn in E. injection E as _ <-. split; [constructor | cbn; lia].
  - step_train_loop E.
    destruct (bin_cross_entr_each_crop _ _ _ _ _ _) as [v|e] eqn:El;
      cbn [bind] in E; [|discriminate].
    apply loss_ok_full_batch with (n := length b) in El;
      [| cbn; apply length_map | apply length_map | exact Hcl].
    destruct (IH _ _ E) as [Hall Hlen]. split.
    + constructor; assumption.
    + rewrite Hlen, length_app. cbn. lia.
Qed.

End EpochFacts.

Lemma batch_sampler_too_few {X : Type} (bs : nat) (l acc : list X) :
  (length acc + length l < bs)%nat -> batch_sampler bs true l acc = [].
Proof.
  revert acc. induction l as [|idx l IH]; intros acc Hlt.
  - cbn. rewrite andb_false_r. reflexivity.
  - cbn [batch_sampler]. cbn [length] in Hlt.
    destruct (Nat.eqb_spec (length (acc ++ [idx])) bs) as [Heq|Hne].
    + rewrite length_app in Heq. cbn in Heq. lia.
    + apply IH. rewrite length_app. cbn. lia.
Qed.

Lemma argmax_rows_each (rows : list (list Q)) (ks : list nat) :
  argmax_rows rows = Ok ks ->
  Forall2 (fun row k => torch_argmax row = Ok k) rows ks.
Proof.
  revert ks. induction rows as [|row rest IH]; intros ks E.
  - cbn in E. injection E as <-. constructor.
  - cbn [argmax_rows] in E.
    destruct (torch_argmax row) as [k|e] eqn:Ek; cbn [bind] in E; [|discriminate].
    destruct (argmax_rows rest) as [ks'|e] eqn:Er; cbn [bind] in E; [|discriminate].
    injection E as <-. constructor; [exact Ek | apply IH; reflexivity].
Qed.

Lemma Forall2_concat_rows {X Y : Type} (P : X -> Y -> Prop)
    (ls : list (list X)) (ks : list (list Y)) :
  Forall2 (Forall2 P) ls ks -> Forall2 P (concat ls) (concat ks).
Proof.
  intros H. induction H as [|l k ls ks Hlk _ IH]; [constructor|].
  cbn [concat]. apply Forall2_app; assumption.
Qed.

Section ValidationFacts.

Variable softmax : list Q -> list Q.
Variable bce : list Q -> list Q -> Q.
Variable ModelState Input : Type.
Variable out_dim : nat.
Variable forward : ModelState -> Input -> list Q.
Variable exp_row : list Q -> list Q.

Local Abbreviation validation_loop :=
  (validation_loop softmax bce ModelState Input out_dim forward exp_row).

Lemma validation_loop_ok (st : ModelState)
    (dataloader : list (list (Input * Z * Z))) (classes : Z) (args : Args)
    (acc acc' : validation) :
  (1 <= classes)%Z ->
  validation_loop st dataloader classes args acc = Ok acc' ->
  Forall (fun b => Z.of_nat (length b) = batch_size args) dataloader /\
  length (v_losses acc') = (length (v_losses acc) + length dataloader)%nat /\
  v_y_true acc' = v_y_true acc ++ map (map (fun s => snd (fst s))) dataloader /\
  v_field_ids acc' = v_field_ids acc ++ map (map snd) dataloader /\
  v_y_score acc'
  = v_y_score acc
    ++ map (map (fun s => exp_row (forward st (fst (fst s))))) dataloader /\
  exists preds,
    v_y_pred acc' = v_y_pred acc ++ preds /\
    Forall2 (Forall2 (fun s k => torch_argmax (forward st (fst (fst s))) = Ok k))
            dataloader preds.
Proof.
  intros Hcl. revert acc.
  induction dataloader as [|b rest IH]; intros acc E.
  - cbn in E. injection E as <-. cbn [map length].
    rewrite !app_nil_r. repeat split; [constructor | lia |].
    exists []. rewrite app_nil_r. split; [reflexivity | constructor].
  - step_validation_loop E.
    destruct (bin_cross_entr_each_crop _ _ _ _ _ _) as [v|e] eqn:El;
      cbn [bind] in E; [|discriminate].
    destruct (argmax_rows _) as [pred|e] eqn:Ep; cbn [bind] in E; [|discriminate].
    apply (loss_ok_full_batch softmax bce) with (n := length b) in El;
      [| cbn; apply length_map | apply length_map | exact Hcl].
    apply argmax_rows_each in Ep. cbn [model_call data2] in Ep.
    destruct (IH _ E) as (Hall & Hlen & Hy & Hf & Hs & preds & Hp & Hpp).
    cbn [v_losses v_y_true v_y_pred v_y_score v_field_ids] in *.
    split; [constructor; assumption|].
    split; [rewrite Hlen, length_app; cbn; lia|].
    split; [rewrite Hy, <- app_assoc; reflexivity|].
    split; [rewrite Hf, <- app_assoc; reflexivity|].
    split; [rewrite Hs, <- app_assoc; open_model_call;
            cbn [data2 map app]; rewrite map_map; reflexivity|].
    exists (pred :: preds). split; [rewrite Hp, <- app_assoc; reflexivity|].
    constructor; [|exact Hpp].
    apply Forall2_fmap_l in Ep. exact Ep.
Qed.

End ValidationFacts.

(** X3.  If [train_epoch] returns (with at least one class), the loader
    yielded at least one batch, every batch had exactly [args.batch_size]
    samples, one loss per batch is returned, and the model is left in
    training mode. *)
Theorem train_epoch_needs_full_batches :
  forall (softmax : list Q -> list Q) (bce : list Q -> list Q -> Q)
         (ModelState Input : Type) (out_dim : nat)
         (forward : ModelState -> Input -> list Q)
         (optimizer_step : ModelState -> list (Input * Z * Z) -> ModelState)
         (model model' : net ModelState)
         (dataloader : list (list (Input * Z * Z))) (classes : Z) (args : Args)
         (losses : list Q),
    (1 <= classes)%Z ->
    train_epoch softmax bce ModelState Input out_dim forward optimizer_step
      model dataloader classes args = Ok (model', losses) ->
    dataloader <> [] /\
    Forall (fun b => Z.of_nat (length b) = batch_size args) dataloader /\
    length losses = length dataloader /\
    net_training ModelState model' = true.
Proof.
  intros softmax bce MS Input out_dim forward step model model' dl classes args
         losses Hcl E.
  unfold train_epoch in E. cbn [net_state net_training] in E.
  destruct (train_loop _ _ _ _ _ _ _ _ dl classes args []) as [[st ls]|e] eqn:El;
    cbn [bind fst snd] in E; [|discriminate].
  destruct (train_loop_ok _ _ _ _ _ _ _ _ _ _ _ _ _ _ Hcl El) as [Hall Hlen].
  destruct ls as [|l0 ls]; cbn [torch_stack bind] in E; [discriminate|].
  injection E as <- <-. cbn [length] in Hlen.
  split; [intros ->; cbn in Hlen; lia|].
  split; [exact Hall|]. split; [exact Hlen | reflexivity].
Qed.

Lemma train_epoch_needs_full_batches_witness :
  Forall (fun b => Z.of_nat (length b) = batch_size SampleRun.args0)
         [firstn 2 SampleEpoch.samples].
Proof.
  destruct (train_epoch SampleRun.probs SampleRun.bce0 unit (list Q) 5%nat
              SampleRun.forward0 SampleEpoch.step0 SampleEpoch.model0
              [firstn 2 SampleEpoch.samples] 5%Z SampleRun.args0)
    as [[m l]|e] eqn:E; [|vm_compute in E; discriminate].
  exact (proj1 (proj2 (train_epoch_needs_full_batches SampleRun.probs
            SampleRun.bce0 unit (list Q) 5%nat SampleRun.forward0
            SampleEpoch.step0 SampleEpoch.model0 m
            [firstn 2 SampleEpoch.samples] 5%Z SampleRun.args0 l
            ltac:(lia) E))).
Defined.

(** X4.  With fewer sample ids than [batch_size], the train and validation
    loaders yield no batch at all, and both [train_epoch] and
    [validation_epoch] raise on such a loader ([torch.stack] of an empty
    list). *)
Theorem epochs_raise_without_batches :
  forall (softmax : list Q -> list Q) (bce : list Q -> list Q -> Q)
         (ModelState Input : Type) (out_dim : nat)
         (forward : ModelState -> Input -> list Q)
         (optimizer_step : ModelState -> list (Input * Z * Z) -> ModelState)
         (exp_row : list Q -> list Q)
         (model : net ModelState) (ids : list (Input * Z * Z))
         (classes : Z) (args : Args),
    (0 < batch_size args)%Z ->
    (Z.of_nat (length ids) < batch_size args)%Z ->
    train_loader args ids = Ok [] /\
    valid_loader args ids = Ok [] /\
    train_epoch softmax bce ModelState Input out_dim forward optimizer_step
      model [] classes args = Raise RuntimeError /\
    validation_epoch softmax bce ModelState Input out_dim forward exp_row
      model [] classes args = Raise RuntimeError.
Proof.
  intros softmax bce MS Input out_dim forward step exp_row model ids classes
         args Hpos Hfew.
  assert (E : DataLoader ids (batch_size args) true = Ok []).
  { unfold DataLoader. destruct (Z.leb_spec (batch_size args) 0); [lia|].
    rewrite batch_sampler_too_few by (cbn; lia). reflexivity. }
  repeat split; try exact E; reflexivity.
Qed.

Lemma epochs_raise_without_batches_witness :
  train_loader SampleRun.args0 (firstn 1 SampleEpoch.samples) = Ok [] /\
  train_epoch SampleRun.probs SampleRun.bce0 unit (list Q) 5%nat
    SampleRun.forward0 SampleEpoch.step0 SampleEpoch.model0 [] 5%Z
    SampleRun.args0 = Raise RuntimeError.
Proof.
  destruct (epochs_raise_without_batches SampleRun.probs SampleRun.bce0 unit
              (list Q) 5%nat SampleRun.forward0 SampleEpoch.step0
              SampleEpoch.exp0 SampleEpoch.model0
              (firstn 1 SampleEpoch.samples) 5%Z SampleRun.args0
              ltac:(cbn; lia) ltac:(cbn; lia))
    as (Ht & _ & Hr & _).
  split; [exact Ht | exact Hr].
Defined.

Lemma Forall_concat_inv {X : Type} (P : X -> Prop) (ls : list (list X)) :
  Forall P (concat ls) -> Forall (Forall P) ls.
Proof.
  induction ls as [|l ls IH]; intros H; [constructor|].
  cbn [concat] in H. apply Forall_app in H. destruct H as [Hl Hls].
  constructor; [exact Hl | apply IH, Hls].
Qed.

Lemma argmax_rows_ok (rows : list (list Q)) :
  Forall (fun r => r <> []) rows -> exists ks, argmax_rows rows = Ok ks.
Proof.
  intros H. induction H as [|r rows Hr _ [ks IH]]; [eexists; reflexivity|].
  cbn [argmax_rows]. destruct r as [|x r]; [contradiction|].
  cbn [torch_argmax bind]. rewrite IH. cbn [bind]. eexists. reflexivity.
Qed.

Section EpochSuccess.

Variable softmax : list Q -> list Q.
Variable bce : list Q -> list Q -> Q.
Variable ModelState Input : Type.
Variable out_dim : nat.
Variable forward : ModelState -> Input -> list Q.
Variable optimizer_step : ModelState -> list (Input * Z * Z) -> ModelState.
Variable exp_row : list Q -> list Q.

Lemma train_loop_succeeds (dataloader : list (list (Input * Z * Z)))
    (classes : Z) (args : Args) (st : ModelState) (acc : list Q) :
  (0 <= classes <= Z.of_nat out_dim)%Z ->
  Forall (fun b => Z.of_nat (length b) = batch_size args /\
                   Forall (fun s => (0 <= snd (fst s) < classes)%Z) b)
         dataloader ->
  exists st' losses,
    train_loop softmax bce ModelState Input out_dim forward optimizer_step
      st dataloader classes args acc = Ok (st', losses).
Proof.
  intros Hcl Hall. revert st acc.
  induction Hall as [|b rest [Hb Hlab] _ IH]; intros st acc.
  - eexists. eexists. reflexivity.
  - cbn [train_loop].
    destruct (loss_ok_when_full softmax bce
                (model_call ModelState Input out_dim forward st b)
                (map (fun s => snd (fst s)) b) classes args) as [v Ev].
    + cbn [model_call data2]. rewrite !length_map. reflexivity.
    + rewrite length_map. exact Hb.
    + cbn [model_call shape2 snd]. exact Hcl.
    + rewrite Forall_map. exact Hlab.
    + rewrite Ev. cbn [bind]. apply IH.
Qed.

Lemma validation_loop_succeeds (dataloader : list (list (Input * Z * Z)))
    (classes : Z) (args : Args) (st : ModelState) (acc : validation) :
  (0 <= classes <= Z.of_nat out_dim)%Z ->
  Forall (fun b => (Z.of_nat (length b) = batch_size args /\
                    Forall (fun s => (0 <= snd (fst s) < classes)%Z) b) /\
                   Forall (fun s => forward st (fst (fst s)) <> []) b)
         dataloader ->
  exists acc',
    validation_loop softmax bce ModelState Input out_dim forward exp_row
      st dataloader classes args acc = Ok acc'.
Proof.
  intros Hcl Hall. revert acc.
  induction Hall as [|b rest [[Hb Hlab] Hfw] _ IH]; intros acc.
  - eexists. reflexivity.
  - cbn [validation_loop].
    destruct (loss_ok_when_full softmax bce
                (model_call ModelState Input out_dim forward st b)
                (map (fun s => snd (fst s)) b) classes args) as [v Ev].
    + cbn [model_call data2]. rewrite !length_map. reflexivity.
    + rewrite length_map. exact Hb.
    + cbn [model_call shape2 snd]. exact Hcl.
    + rewrite Forall_map. exact Hlab.
    + rewrite Ev. cbn [bind].
      destruct (argmax_rows_ok
                  (data2 (model_call ModelState Input out_dim forward st b)))
        as [ks Ek].
      * cbn [model_call data2]. rewrite Forall_map. exact Hfw.
      * rewrite Ek. cbn [bind]. apply IH.
Qed.

End EpochSuccess.

(** X6.  On the loaders that [main] builds from at least [batch_size]
    samples whose labels are valid classes, with a model that has at least
    [classes] output columns, [train_epoch] and [validation_epoch] both
    return: the loaders yield at least one batch and none of the losses
    fails. *)
Theorem epochs_succeed_on_main_loaders :
  forall (softmax : list Q -> list Q) (bce : list Q -> list Q -> Q)
         (ModelState Input : Type) (out_dim : nat)
         (forward : ModelState -> Input -> list Q)
         (optimizer_step : ModelState -> list (Input * Z * Z) -> ModelState)
         (exp_row : list Q -> list Q)
         (model : net ModelState) (ids : list (Input * Z * Z))
         (classes : Z) (args : Args),
    (0 < batch_size args <= Z.of_nat (length ids))%Z ->
    (1 <= classes <= Z.of_nat out_dim)%Z ->
    Forall (fun s => (0 <= snd (fst s) < classes)%Z) ids ->
    Forall (fun s => forward (net_state ModelState model) (fst (fst s)) <> [])
           ids ->
    exists batches,
      train_loader args ids = Ok batches /\
      valid_loader args ids = Ok batches /\
      batches <> [] /\
      (exists model' losses,
         train_epoch softmax bce ModelState Input out_dim forward
           optimizer_step model batches classes args = Ok (model', losses) /\
         length losses = length batches) /\
      (exists r,
         validation_epoch softmax bce ModelState Input out_dim forward exp_row
           model batches classes args = Ok r).
Proof.
  intros softmax bce MS Input out_dim forward step exp_row model ids classes
         args Hbs Hcl Hlab Hfw.
  assert (Hc0 : (0 <= classes <= Z.of_nat out_dim)%Z) by lia.
  assert (Hc1 : (1 <= classes)%Z) by lia.
  set (dl := batch_sampler (Z.to_nat (batch_size args)) true ids []).
  assert (E : DataLoader ids (batch_size args) true = Ok dl).
  { unfold DataLoader. destruct (Z.leb_spec (batch_size args) 0); [lia|].
    reflexivity. }
  destruct (batch_sampler_drop_last_prefix (Z.to_nat (batch_size args)) ids [])
    as (rest & Er & Hr); [cbn; lia|]. fold dl in Er. cbn [app] in Er.
  assert (Hne : dl <> []).
  { intros Hnil. rewrite Hnil in Er. cbn in Er. rewrite Er in Hbs. lia. }
  assert (Hfull : Forall (fun b => length b = Z.to_nat (batch_size args)) dl)
    by (apply batch_sampler_drop_last; cbn; lia).
  assert (Hlab' : Forall (Forall (fun s : Input * Z * Z =>
                                    (0 <= snd (fst s) < classes)%Z)) dl).
  { rewrite Er in Hlab. apply Forall_app in Hlab. destruct Hlab as [Hlab _].
    apply Forall_concat_inv. exact Hlab. }
  assert (Hfw' : Forall (Forall (fun s : Input * Z * Z =>
                    forward (net_state MS model) (fst (fst s)) <> [])) dl).
  { rewrite Er in Hfw. apply Forall_app in Hfw. destruct Hfw as [Hfw _].
    apply Forall_concat_inv. exact Hfw. }
  assert (Hall : Forall (fun b => Z.of_nat (length b) = batch_size args /\
                   Forall (fun s => (0 <= snd (fst s) < classes)%Z) b) dl).
  { rewrite List.Forall_forall in *. intros b Hb. split.
    - rewrite (Hfull b Hb). lia.
    - apply Hlab', Hb. }
  assert (Hallv : Forall (fun b =>
                   (Z.of_nat (length b) = batch_size args /\
                    Forall (fun s => (0 <= snd (fst s) < classes)%Z) b) /\
                   Forall (fun s => forward (net_state MS model) (fst (fst s))
                                    <> []) b) dl).
  { rewrite List.Forall_forall in *. intros b Hb. split.
    - apply Hall, Hb.
    - apply Hfw', Hb. }
  exists dl. split; [exact E|]. split; [exact E|]. split; [exact Hne|]. split.
  - destruct (train_loop_succeeds softmax bce MS Input out_dim forward step
                dl classes args (net_state MS model) [] Hc0 Hall)
      as (st' & losses & El).
    destruct (train_loop_ok softmax bce MS Input out_dim forward step
                _ _ _ _ _ _ _ Hc1 El) as [_ Hlen].
    unfold train_epoch. cbn [net_state net_training]. rewrite El.
    cbn [bind fst snd].
    destruct losses as [|l0 ls];
      [destruct dl; [contradiction | cbn in Hlen; lia]|].
    cbn [torch_stack bind]. eexists. eexists. split; [reflexivity|].
    cbn in Hlen |- *. lia.
  - destruct (validation_loop_succeeds softmax bce MS Input out_dim forward
                exp_row dl classes args (net_state MS model)
                (mkValidation [] [] [] [] []) Hc0 Hallv) as (acc & El).
    destruct (validation_loop_ok softmax bce MS Input out_dim forward exp_row
                _ _ _ _ _ _ Hc1 El)
      as (_ & Hlen & Hy & Hf & Hs & preds & Hp & Hpp).
    unfold validation_epoch. cbn [net_state]. rewrite El. cbn [bind].
    cbn [v_losses v_y_true v_y_pred v_y_score v_field_ids app length] in *.
    destruct dl as [|b dl']; [contradiction|].
    destruct (v_losses acc) as [|l0 ls]; [cbn in Hlen; lia|].
    destruct preds as [|p0 preds]; [inversion Hpp|].
    rewrite Hy, Hf, Hs, Hp. cbn [map torch_stack torch_cat bind].
    eexists. reflexivity.
Qed.

Lemma epochs_succeed_on_main_loaders_witness :
  exists batches,
    train_loader SampleRun.args0 SampleEpoch.samples = Ok batches /\
    batches <> [].
Proof.
  destruct (epochs_succeed_on_main_loaders SampleRun.probs SampleRun.bce0 unit
              (list Q) 5%nat SampleRun.forward0 SampleEpoch.step0
              SampleEpoch.exp0 SampleEpoch.model0 SampleEpoch.samples 5%Z
              SampleRun.args0)
    as (batches & Ht & _ & Hne & _).
  - cbn. lia.
  - lia.
  - repeat constructor; cbn; lia.
  - repeat constructor; discriminate.
  - exists batches. split; [exact Ht | exact Hne].
Defined.

(* ------------------------------------------------------------------------- *)
(** ** Edge cases of the fold *)

Lemma Qltb_false (a b : Q) : Transform.Qltb a b = false <-> (b <= a)%Q.
Proof.
  unfold Transform.Qltb. rewrite negb_false_iff. apply Qle_bool_iff.
Qed.

Lemma loss_ltb_irrefl (a : Training.loss) : Training.loss_ltb a a = false.
Proof.
  destruct a; cbn; try reflexivity. apply Qltb_false. apply Qle_refl.
Qed.

Lemma loss_ltb_trans (a b c : Training.loss) :
  Training.loss_ltb a b = true -> Training.loss_ltb b c = true ->
  Training.loss_ltb a c = true.
Proof.
  destruct a, b, c; cbn; try discriminate; try reflexivity.
  rewrite !Qltb_true. intros H1 H2. lra.
Qed.

(** Below a bound that [e] does not undercut, unless [e] is NaN. *)
Lemma loss_ltb_below (a bound e : Training.loss) :
  Training.loss_ltb a bound = true -> Training.loss_ltb e bound = false ->
  e = Training.NaN \/ Training.loss_ltb a e = true.
Proof.
  destruct a, bound, e; cbn; try discriminate; auto.
  rewrite Qltb_true, Qltb_false, Qltb_true. intros H1 H2. right. lra.
Qed.

Section FoldEdges.

Variable ModelState OptimizerState : Type.
Variable model_state : nat -> ModelState.
Variable optimizer_state : nat -> OptimizerState.
Variable valid_loss : nat -> Training.loss.

Local Abbreviation improves := (FoldSpec.improves valid_loss).
Local Abbreviation best_before := (FoldSpec.best_before valid_loss).
Local Abbreviation last_improving := (FoldSpec.last_improving valid_loss).

Lemma best_before_attained (n b : nat) :
  last_improving n = Some b -> best_before n = valid_loss b.
Proof.
  induction n as [|n IH]; [discriminate|].
  cbn [FoldSpec.last_improving FoldSpec.best_before].
  change (Training.loss_ltb (valid_loss n) (best_before n)) with (improves n).
  destruct (improves n).
  - intros E. injection E as <-. reflexivity.
  - exact IH.
Qed.

Lemma best_before_not_undercut (n e : nat) :
  (e < n)%nat -> Training.loss_ltb (valid_loss e) (best_before n) = false.
Proof.
  induction n as [|n IH]; [lia|]. intros He.
  cbn [FoldSpec.best_before].
  destruct (Training.loss_ltb (valid_loss n) (best_before n)) eqn:En.
  - destruct (Nat.eq_dec e n) as [->|Hne]; [apply loss_ltb_irrefl|].
    destruct (Training.loss_ltb (valid_loss e) (valid_loss n)) eqn:Ee;
      [|reflexivity].
    rewrite <- (IH ltac:(lia)). symmetry.
    exact (loss_ltb_trans _ _ _ Ee En).
  - destruct (Nat.eq_dec e n) as [->|Hne]; [exact En | apply IH; lia].
Qed.

Lemma run_fold_unfold (args : Args) (fold : nat)
    (prev : option (ModelState * OptimizerState)) :
  checkpoint_epoch args <> 0%Z ->
  Training.run_fold ModelState OptimizerState model_state optimizer_state
    valid_loss args fold prev
  = let N := Z.to_nat (max_epochs args) in
    let s := FoldSpec.loop_state ModelState OptimizerState model_state
               optimizer_state valid_loss args prev N in
    match Training.best_snapshot ModelState OptimizerState s with
    | None => Raise NameError
    | Some (m, o) =>
        Ok (Training.mkFoldState ModelState OptimizerState
              (Training.best_loss ModelState OptimizerState s)
              (Training.best_epoch ModelState OptimizerState s)
              (Training.best_snapshot ModelState OptimizerState s)
              (Training.patience_count ModelState OptimizerState s)
              (Training.saved ModelState OptimizerState s
               ++ [(Training.best_path args fold,
                    Training.mkCheckpoint ModelState OptimizerState m o
                      (Training.best_epoch ModelState OptimizerState s))]),
            FoldSpec.stop_epoch valid_loss args N)
    end.
Proof.
  intros Hce. unfold Training.run_fold.
  rewrite (epoch_loop_spec ModelState OptimizerState model_state
             optimizer_state valid_loss args prev _ Hce).
  reflexivity.
Qed.

End FoldEdges.

(** X7.  In a fold entered without a snapshot from an earlier fold (the
    first fold), if no executed epoch has a validation loss below the best so
    far (for instance [max_epochs <= 0], or only NaN or infinite losses),
    saving the best model after the loop raises [NameError]: [best_model] was
    never assigned. *)
Theorem first_fold_without_improvement_raises :
  forall (ModelState OptimizerState : Type) (model_state : nat -> ModelState)
         (optimizer_state : nat -> OptimizerState)
         (valid_loss : nat -> Training.loss) (args : Args) (fold : nat),
    checkpoint_epoch args <> 0%Z ->
    (forall e,
       (e < FoldSpec.executed valid_loss args (Z.to_nat (max_epochs args)))%nat ->
       FoldSpec.improves valid_loss e = false) ->
    Training.run_fold ModelState OptimizerState model_state optimizer_state
      valid_loss args fold None = Raise NameError.
Proof.
  intros MS OS ms os valid_loss args fold Hce Hno.
  rewrite run_fold_unfold by exact Hce. cbv zeta.
  unfold FoldSpec.loop_state. cbn [Training.best_snapshot].
  pose proof (last_improving_spec valid_loss
                (FoldSpec.executed valid_loss args (Z.to_nat (max_epochs args))))
    as Hl.
  destruct (FoldSpec.last_improving valid_loss _) as [b|]; [|reflexivity].
  destruct Hl as (Hb & Hi & _). rewrite (Hno b Hb) in Hi. discriminate.
Qed.

Lemma first_fold_without_improvement_raises_witness :
  Training.run_fold nat nat SampleFold.state_of SampleFold.state_of
    (fun _ => Training.NaN) SampleRun.args0 0 None = Raise NameError.
Proof.
  apply (first_fold_without_improvement_raises nat nat SampleFold.state_of
           SampleFold.state_of (fun _ => Training.NaN) SampleRun.args0 0%nat).
  - vm_compute. discriminate.
  - intros e _. unfold FoldSpec.improves. reflexivity.
Defined.

(** X8.  In a later fold, [best_model] still holds the snapshot of the
    previous fold.  If no executed epoch of the fold improves, that old
    snapshot is what the fold saves as its best model, labelled with
    epoch 0. *)
Theorem later_fold_saves_previous_snapshot :
  forall (ModelState OptimizerState : Type) (model_state : nat -> ModelState)
         (optimizer_state : nat -> OptimizerState)
         (valid_loss : nat -> Training.loss) (args : Args) (fold : nat)
         (m : ModelState) (o : OptimizerState),
    checkpoint_epoch args <> 0%Z ->
    (forall e,
       (e < FoldSpec.executed valid_loss args (Z.to_nat (max_epochs args)))%nat ->
       FoldSpec.improves valid_loss e = false) ->
    exists s exit,
      Training.run_fold ModelState OptimizerState model_state optimizer_state
        valid_loss args fold (Some (m, o)) = Ok (s, exit) /\
      Training.saved ModelState OptimizerState s
      = FoldSpec.periodic_saves ModelState OptimizerState model_state
          optimizer_state args
          (FoldSpec.completed valid_loss args (Z.to_nat (max_epochs args)))
        ++ [(Training.best_path args fold,
             Training.mkCheckpoint ModelState OptimizerState m o 0)] /\
      Training.best_loss ModelState OptimizerState s = Training.PInf.
Proof.
  intros MS OS ms os valid_loss args fold m o Hce Hno.
  rewrite run_fold_unfold by exact Hce. cbv zeta.
  unfold FoldSpec.loop_state.
  cbn [Training.best_snapshot Training.best_epoch Training.best_loss
       Training.saved Training.patience_count].
  pose proof (last_improving_spec valid_loss
                (FoldSpec.executed valid_loss args (Z.to_nat (max_epochs args))))
    as Hl.
  destruct (FoldSpec.last_improving valid_loss _) as [b|] eqn:El.
  - destruct Hl as (Hb & Hi & _). rewrite (Hno b Hb) in Hi. discriminate.
  - eexists. eexists. split; [reflexivity|].
    cbn [Training.saved Training.best_loss]. split; [reflexivity|].
    assert (Hn : forall k, (forall e, (e < k)%nat ->
                   FoldSpec.improves valid_loss e = false) ->
                 FoldSpec.best_before valid_loss k = Training.PInf).
    { induction k as [|k IH]; intros Hk; [reflexivity|].
      cbn [FoldSpec.best_before].
      change (Training.loss_ltb (valid_loss k) (FoldSpec.best_before valid_loss k))
        with (FoldSpec.improves valid_loss k).
      rewrite (Hk k ltac:(lia)). apply IH. intros e He. apply Hk. lia. }
    apply Hn. exact Hl.
Qed.

Lemma later_fold_saves_previous_snapshot_witness :
  exists s exit,
    Training.run_fold nat nat SampleFold.state_of SampleFold.state_of
      (fun _ => Training.NaN) SampleRun.args0 1 (Some (7, 7)%nat) = Ok (s, exit) /\
    Training.best_loss nat nat s = Training.PInf.
Proof.
  destruct (later_fold_saves_previous_snapshot nat nat SampleFold.state_of
              SampleFold.state_of (fun _ => Training.NaN) SampleRun.args0 1%nat
              7%nat 7%nat)
    as (s & exit & E & _ & Hb).
  - vm_compute. discriminate.
  - intros e _. unfold FoldSpec.improves. reflexivity.
  - exists s, exit. split; [exact E | exact Hb].
Defined.

(** X9.  With [checkpoint_epoch = 0] and at least one epoch to run, the
    fold raises [ZeroDivisionError] in its first epoch ([epoch % 0]), unless
    early stopping already breaks the loop there. *)
Theorem zero_checkpoint_epoch_raises :
  forall (ModelState OptimizerState : Type) (model_state : nat -> ModelState)
         (optimizer_state : nat -> OptimizerState)
         (valid_loss : nat -> Training.loss) (args : Args) (fold : nat)
         (prev : option (ModelState * OptimizerState)),
    checkpoint_epoch args = 0%Z ->
    (1 <= max_epochs args)%Z ->
    Z.of_nat (FoldSpec.stale valid_loss 0) <> patience args ->
    Training.run_fold ModelState OptimizerState model_state optimizer_state
      valid_loss args fold prev = Raise ZeroDivisionError.
Proof.
  intros MS OS ms os valid_loss args fold prev Hce Hmax Hp.
  unfold Training.run_fold.
  destruct (Z.to_nat (max_epochs args)) as [|n] eqn:En; [lia|].
  cbn [seq Training.epoch_loop]. unfold Training.epoch_body, Training.early_stopping.
  cbn [Training.fold_init Training.best_loss Training.patience_count].
  cbn [FoldSpec.stale] in Hp. unfold FoldSpec.improves in Hp.
  cbn [FoldSpec.best_before] in Hp.
  destruct (Training.loss_ltb (valid_loss 0%nat) Training.PInf);
    cbn [Training.patience_count];
    match goal with
    | |- context [(?a =? patience args)%Z] =>
        destruct (Z.eqb_spec a (patience args)); [contradiction|]
    end;
    rewrite Hce; reflexivity.
Qed.

Lemma zero_checkpoint_epoch_raises_witness :
  Training.run_fold nat nat SampleFold.state_of SampleFold.state_of
    SampleFold.losses (mkArgs "test" "." 2 10 2 0) 0 None
  = Raise ZeroDivisionError.
Proof.
  apply (zero_checkpoint_epoch_raises nat nat SampleFold.state_of
           SampleFold.state_of SampleFold.losses (mkArgs "test" "." 2 10 2 0)
           0%nat None); [reflexivity | cbn; lia | vm_compute; discriminate].
Defined.

(** X10.  The checkpoint saved as best model after a fold in which some
    epoch improved holds the states of an epoch [b] whose validation loss is
    the loop's best loss; no executed epoch has a strictly lower loss, and
    every earlier epoch has a strictly higher loss or a NaN loss: [b] is the
    first epoch that attains the minimum. *)
Theorem best_checkpoint_is_first_minimum :
  forall (ModelState OptimizerState : Type) (model_state : nat -> ModelState)
         (optimizer_state : nat -> OptimizerState)
         (valid_loss : nat -> Training.loss) (args : Args) (fold : nat)
         (prev : option (ModelState * OptimizerState)) (b : nat),
    checkpoint_epoch args <> 0%Z ->
    let ex := FoldSpec.executed valid_loss args (Z.to_nat (max_epochs args)) in
    FoldSpec.last_improving valid_loss ex = Some b ->
    exists s exit,
      Training.run_fold ModelState OptimizerState model_state optimizer_state
        valid_loss args fold prev = Ok (s, exit) /\
      last (Training.saved ModelState OptimizerState s)
      = Some (Training.best_path args fold,
              Training.mkCheckpoint ModelState OptimizerState
                (model_state b) (optimizer_state b) b) /\
      Training.best_loss ModelState OptimizerState s = valid_loss b /\
      (b < ex)%nat /\
      (forall e, (e < ex)%nat ->
         Training.loss_ltb (valid_loss e) (valid_loss b) = false) /\
      (forall e, (e < b)%nat ->
         valid_loss e = Training.NaN \/
         Training.loss_ltb (valid_loss b) (valid_loss e) = true).
Proof.
  intros MS OS ms os valid_loss args fold prev b Hce ex El.
  rewrite run_fold_unfold by exact Hce. cbv zeta.
  unfold FoldSpec.loop_state. fold ex.
  cbn [Training.best_snapshot Training.best_epoch Training.best_loss
       Training.saved Training.patience_count].
  rewrite El. eexists. eexists. split; [reflexivity|].
  cbn [Training.saved Training.best_loss].
  pose proof (last_improving_spec valid_loss ex) as Hl. rewrite El in Hl.
  destruct Hl as (Hb & Hi & _).
  pose proof (best_before_attained valid_loss ex b El) as Hbest.
  split; [apply last_snoc|]. split; [exact Hbest|]. split; [exact Hb|]. split.
  - intros e He. rewrite <- Hbest. apply best_before_not_undercut. exact He.
  - intros e He. unfold FoldSpec.improves in Hi.
    apply (loss_ltb_below _ (FoldSpec.best_before valid_loss b)); [exact Hi|].
    apply best_before_not_undercut. exact He.
Qed.

Lemma best_checkpoint_is_first_minimum_witness :
  exists s exit,
    Training.run_fold nat nat SampleFold.state_of SampleFold.state_of
      SampleFold.losses SampleRun.args0 0 None = Ok (s, exit) /\
    Training.best_loss nat nat s = SampleFold.losses 1.
Proof.
  destruct (best_checkpoint_is_first_minimum nat nat SampleFold.state_of
              SampleFold.state_of SampleFold.losses SampleRun.args0 0%nat None
              1%nat ltac:(vm_compute; discriminate)
              ltac:(vm_compute; reflexivity))
    as (s & exit & E & _ & Hb & _).
  exists s, exit. split; [exact E | exact Hb].
Defined.

(** X11.  A patience that is negative or larger than [max_epochs] never
    stops a fold early (for a non-zero [checkpoint_epoch]): the loop over
    [range(max_epochs)] ends without [break], every epoch below
    [max_epochs] that is a positive multiple of [checkpoint_epoch] has
    saved its checkpoint, and a fold that returns reports no break. *)
Theorem patience_out_of_range_never_stops :
  forall (ModelState OptimizerState : Type) (model_state : nat -> ModelState)
         (optimizer_state : nat -> OptimizerState)
         (valid_loss : nat -> Training.loss) (args : Args)
         (prev : option (ModelState * OptimizerState)),
    checkpoint_epoch args <> 0%Z ->
    (patience args < 0 \/ max_epochs args < patience args)%Z ->
    exists s,
      Training.epoch_loop ModelState OptimizerState model_state optimizer_state
        valid_loss args (seq 0 (Z.to_nat (max_epochs args)))
        (Training.fold_init ModelState OptimizerState prev)
      = Ok (s, None) /\
      (forall e, (0 < Z.of_nat e < max_epochs args)%Z ->
                 (Z.of_nat e mod checkpoint_epoch args = 0)%Z ->
         In (Training.epoch_path args e,
             Training.mkCheckpoint ModelState OptimizerState
               (model_state e) (optimizer_state e) e)
            (Training.saved ModelState OptimizerState s)) /\
      forall fold s' exit,
        Training.run_fold ModelState OptimizerState model_state
          optimizer_state valid_loss args fold prev = Ok (s', exit) ->
        exit = None.
Proof.
  intros MS OS ms os valid_loss args prev Hce Hp.
  set (N := Z.to_nat (max_epochs args)).
  assert (Hs : FoldSpec.stop_epoch valid_loss args N = None).
  { apply stop_epoch_none. intros e He.
    pose proof (proj1 (stale_run valid_loss e)) as Hle. subst N. lia. }
  exists (FoldSpec.loop_state MS OS ms os valid_loss args prev N).
  split; [|split].
  - rewrite (epoch_loop_spec MS OS ms os valid_loss args prev N Hce), Hs.
    reflexivity.
  - intros e He Hmod. unfold FoldSpec.loop_state, FoldSpec.completed.
    rewrite Hs. cbn [Training.saved].
    apply in_periodic_saves. exists e.
    split; [subst N; lia|]. split; [|split; reflexivity].
    unfold FoldSpec.periodic. rewrite Hmod, Z.eqb_refl.
    destruct (Z.eqb_spec (Z.of_nat e) 0); [lia | reflexivity].
  - intros fold s' exit E.
    rewrite (run_fold_unfold MS OS ms os valid_loss args fold prev Hce) in E.
    cbv zeta in E. fold N in E. rewrite Hs in E.
    destruct (Training.best_snapshot MS OS _) as [[m o]|]; [|discriminate].
    injection E as _ <-. reflexivity.
Qed.

Lemma patience_out_of_range_never_stops_witness :
  exists s,
    Training.epoch_loop nat nat SampleFold.state_of SampleFold.state_of
      SampleFold.losses (mkArgs "test" "." 2 10 (-1) 3) (seq 0 10)
      (Training.fold_init nat nat None)
    = Ok (s, None) /\
    In (Training.epoch_path (mkArgs "test" "." 2 10 (-1) 3) 9,
        Training.mkCheckpoint nat nat
          (SampleFold.state_of 9%nat) (SampleFold.state_of 9%nat) 9)
       (Training.saved nat nat s).
Proof.
  destruct (patience_out_of_range_never_stops nat nat SampleFold.state_of
              SampleFold.state_of SampleFold.losses
              (mkArgs "test" "." 2 10 (-1) 3) None
              ltac:(vm_compute; discriminate) ltac:(left; cbn; lia))
    as (s & E & Hsaved & _).
  exists s. split; [exact E|].
  apply (Hsaved 9%nat); [cbn; lia | reflexivity].
Defined.

(** X12.  With [patience = 0] the loop breaks at the first epoch that
    improves: when the loss of epoch 0 is below infinity, the fold stops
    after that single epoch and saves only its best-model checkpoint, the
    states of epoch 0. *)
Theorem zero_patience_stops_after_first_epoch :
  forall (ModelState OptimizerState : Type) (model_state : nat -> ModelState)
         (optimizer_state : nat -> OptimizerState)
         (valid_loss : nat -> Training.loss) (args : Args) (fold : nat)
         (prev : option (ModelState * OptimizerState)),
    checkpoint_epoch args <> 0%Z ->
    patience args = 0%Z ->
    (1 <= max_epochs args)%Z ->
    Training.loss_ltb (valid_loss 0%nat) Training.PInf = true ->
    exists s,
      Training.run_fold ModelState OptimizerState model_state optimizer_state
        valid_loss args fold prev = Ok (s, Some 0%nat) /\
      Training.saved ModelState OptimizerState s
      = [(Training.best_path args fold,
          Training.mkCheckpoint ModelState OptimizerState
            (model_state 0%nat) (optimizer_state 0%nat) 0)].
Proof.
  intros MS OS ms os valid_loss args fold prev Hce Hp Hmax H0.
  assert (Hs : FoldSpec.stop_epoch valid_loss args (Z.to_nat (max_epochs args))
               = Some 0%nat).
  { apply stop_epoch_first. split; [lia|]. split; [|intros e He; lia].
    cbn [FoldSpec.stale]. unfold FoldSpec.improves. cbn [FoldSpec.best_before].
    rewrite H0, Hp. reflexivity. }
  rewrite run_fold_unfold by exact Hce. cbv zeta.
  unfold FoldSpec.loop_state, FoldSpec.executed, FoldSpec.completed.
  rewrite Hs.
  cbn [FoldSpec.last_improving FoldSpec.best_before FoldSpec.periodic_saves
       seq List.filter map Training.best_snapshot Training.best_epoch
       Training.best_loss Training.saved Training.patience_count].
  unfold FoldSpec.improves. cbn [FoldSpec.best_before]. rewrite H0.
  eexists. split; reflexivity.
Qed.

Lemma zero_patience_stops_after_first_epoch_witness :
  exists s,
    Training.run_fold nat nat SampleFold.state_of SampleFold.state_of
      SampleFold.losses (mkArgs "test" "." 2 10 0 3) 0 None = Ok (s, Some 0%nat).
Proof.
  destruct (zero_patience_stops_after_first_epoch nat nat SampleFold.state_of
              SampleFold.state_of SampleFold.losses (mkArgs "test" "." 2 10 0 3)
              0%nat None ltac:(vm_compute; discriminate) eq_refl
              ltac:(cbn; lia) eq_refl) as (s & E & _).
  exists s. exact E.
Defined.

(* ------------------------------------------------------------------------- *)
(** ** The records written by [save_predictions] *)

Lemma argmax_from_max (l pre : list Q) (bi : nat) :
  (bi < length pre)%nat ->
  (forall j, (j < length pre)%nat -> (nth j pre 0 <= nth bi pre 0)%Q) ->
  (forall j, (j < bi)%nat -> (nth j pre 0 < nth bi pre 0)%Q) ->
  let k := argmax_from bi (nth bi pre 0%Q) (length pre) l in
  (k < length (pre ++ l))%nat /\
  (forall j, (j < length (pre ++ l))%nat ->
             (nth j (pre ++ l) 0 <= nth k (pre ++ l) 0)%Q) /\
  (forall j, (j < k)%nat -> (nth j (pre ++ l) 0 < nth k (pre ++ l) 0)%Q).
Proof.
  revert pre bi. induction l as [|x l IH]; intros pre bi Hbi Hmax Hfirst.
  - cbn [argmax_from]. rewrite app_nil_r. repeat split; assumption.
  - cbn [argmax_from].
    destruct (Transform.Qltb (nth bi pre 0%Q) x) eqn:E.
    + apply Qltb_true in E.
      pose proof (IH (pre ++ [x]) (length pre)) as IH'.
      rewrite nth_middle, length_app, <- app_assoc in IH'.
      cbn [length app] in IH'. rewrite Nat.add_1_r in IH'.
      apply IH'; [lia | |].
      * intros j Hj. destruct (Nat.eq_dec j (length pre)) as [->|Hne].
        -- rewrite nth_middle. apply Qle_refl.
        -- rewrite app_nth1 by lia. apply Qlt_le_weak.
           eapply Qle_lt_trans; [apply Hmax; lia | exact E].
      * intros j Hj. rewrite app_nth1 by lia.
        eapply Qle_lt_trans; [apply Hmax; lia | exact E].
    + apply Qltb_false in E.
      pose proof (IH (pre ++ [x]) bi) as IH'.
      rewrite (app_nth1 pre [x]) in IH' by exact Hbi.
      rewrite length_app, <- app_assoc in IH'.
      cbn [length app] in IH'. rewrite Nat.add_1_r in IH'.
      apply IH'; [lia | |].
      * intros j Hj. destruct (Nat.eq_dec j (length pre)) as [->|Hne].
        -- rewrite nth_middle. exact E.
        -- rewrite app_nth1 by lia. apply Hmax. lia.
      * intros j Hj. rewrite app_nth1 by lia. apply Hfirst. exact Hj.
Qed.

(** [np.argmax]: the first index of a maximal entry. *)
Lemma argmax_first_max (p : list Q) (k : nat) :
  argmax p = Ok k ->
  (k < length p)%nat /\
  (forall j, (j < length p)%nat -> (nth j p 0 <= nth k p 0)%Q) /\
  (forall j, (j < k)%nat -> (nth j p 0 < nth k p 0)%Q).
Proof.
  destruct p as [|x r]; [discriminate|]. cbn [argmax]. intros E.
  injection E as <-.
  apply (argmax_from_max r [x] 0%nat); [cbn; lia | |].
  - intros j Hj. cbn in Hj. replace j with 0%nat by lia. apply Qle_refl.
  - intros j Hj. lia.
Qed.

(** [row.argmax(-1)]: the first index of a maximal entry. *)
Lemma torch_argmax_first_max (p : list Q) (k : nat) :
  torch_argmax p = Ok k -> first_maximum p k.
Proof.
  destruct p as [|x r]; [discriminate|]. cbn [torch_argmax]. intros E.
  injection E as <-.
  apply (argmax_from_max r [x] 0%nat); [cbn; lia | |].
  - intros j Hj. cbn in Hj. replace j with 0%nat by lia. apply Qle_refl.
  - intros j Hj. lia.
Qed.

(** X5.  If [validation_epoch] returns (with at least one class), every
    batch had exactly [args.batch_size] samples; the labels and field ids it
    returns are those of the loader's samples in order, there is one
    prediction per sample, namely the first index of a maximal entry of that
    sample's model output, one score row per sample and one loss per batch;
    the model parameters are unchanged and the model is in eval mode. *)
Theorem validation_epoch_covers_batches :
  forall (softmax : list Q -> list Q) (bce : list Q -> list Q -> Q)
         (ModelState Input : Type) (out_dim : nat)
         (forward : ModelState -> Input -> list Q)
         (exp_row : list Q -> list Q)
         (model model' : net ModelState)
         (dataloader : list (list (Input * Z * Z))) (classes : Z) (args : Args)
         (losses : list Q) (y_true : list Z) (y_pred : list nat)
         (y_score : list (list Q)) (field_ids : list Z),
    (1 <= classes)%Z ->
    validation_epoch softmax bce ModelState Input out_dim forward exp_row
      model dataloader classes args
    = Ok (model', (losses, y_true, y_pred, y_score, field_ids)) ->
    Forall (fun b => Z.of_nat (length b) = batch_size args) dataloader /\
    length losses = length dataloader /\
    y_true = map (fun s => snd (fst s)) (concat dataloader) /\
    field_ids = map snd (concat dataloader) /\
    y_score = map (fun s => exp_row (forward (net_state ModelState model)
                                             (fst (fst s))))
                  (concat dataloader) /\
    Forall2 (fun s k => first_maximum (forward (net_state ModelState model)
                                               (fst (fst s))) k)
            (concat dataloader) y_pred /\
    net_state ModelState model' = net_state ModelState model /\
    net_training ModelState model' = false.
Proof.
  intros softmax bce MS Input out_dim forward exp_row model model' dl classes
         args losses y_true y_pred y_score fids Hcl E.
  unfold validation_epoch in E. cbn [net_state] in E.
  destruct (validation_loop _ _ _ _ _ _ _ _ dl classes args _) as [acc|e] eqn:El;
    cbn [bind] in E; [|discriminate].
  destruct (validation_loop_ok _ _ _ _ _ _ _ _ _ _ _ _ _ Hcl El)
    as (Hall & Hlen & Hy & Hf & Hs & preds & Hp & Hpp).
  cbn [v_losses v_y_true v_y_pred v_y_score v_field_ids app length] in *.
  destruct (v_losses acc) as [|l0 ls] eqn:Elo; cbn [torch_stack bind] in E;
    [discriminate|].
  destruct dl as [|b rest]; [cbn in Hlen; lia|].
  rewrite Hy, Hp, Hs, Hf in E.
  destruct preds as [|p0 preds]; [inversion Hpp|].
  cbn [map torch_cat bind] in E. injection E as <- <- <- <- <- <-.
  split; [exact Hall|]. split; [exact Hlen|].
  assert (Hc : forall (Y : Type) (g : Input * Z * Z -> Y),
            concat (map g b :: map (map g) rest) = map g (concat (b :: rest))).
  { intros Y g. cbn [concat]. rewrite map_app, concat_map. reflexivity. }
  split; [apply Hc|]. split; [apply Hc|]. split; [apply Hc|].
  split.
  - eapply Forall2_impl; [exact (Forall2_concat_rows _ _ _ Hpp)|].
    cbn beta. intros s k Hk. apply torch_argmax_first_max. exact Hk.
  - split; reflexivity.
Qed.

Lemma validation_epoch_covers_batches_witness :
  exists y_pred,
    length y_pred = 4%nat /\
    Forall2 (fun s k => first_maximum (SampleRun.forward0 tt (fst (fst s))) k)
            (concat [firstn 2 SampleEpoch.samples;
                     firstn 2 (skipn 2 SampleEpoch.samples)]) y_pred.
Proof.
  destruct (validation_epoch SampleRun.probs SampleRun.bce0 unit (list Q) 5%nat
              SampleRun.forward0 SampleEpoch.exp0 SampleEpoch.model0
              [firstn 2 SampleEpoch.samples;
               firstn 2 (skipn 2 SampleEpoch.samples)] 5%Z SampleRun.args0)
    as [[m [[[[lo yt] yp] ys] fi]]|e] eqn:E; [|vm_compute in E; discriminate].
  destruct (validation_epoch_covers_batches SampleRun.probs SampleRun.bce0 unit
              (list Q) 5%nat SampleRun.forward0 SampleEpoch.exp0
              SampleEpoch.model0 m _ 5%Z SampleRun.args0 lo yt yp ys fi
              ltac:(lia) E) as (_ & _ & _ & _ & _ & Hp & _).
  exists yp. split; [|exact Hp].
  apply Forall2_length in Hp. rewrite <- Hp. reflexivity.
Defined.

Section RecordFacts.

Variable softmax : list Q -> list Q.
Variable ModelState Input : Type.
Variable forward : ModelState -> Input -> list Q.

Lemma predict_batch_top1 (st : ModelState) (label_ids : list Z)
    (label_names : list string) (b : list (Input * Z)) (r : prediction) :
  predict_batch softmax ModelState Input forward st label_ids label_names b = Ok r ->
  top1_record softmax ModelState Input forward st label_ids label_names b r.
Proof.
  unfold predict_batch, top1_record. destruct b as [|[x f] rest]; [discriminate|].
  cbn [map index nth_error fst snd bind].
  destruct (argmax _) as [k|e] eqn:Ek; cbn [bind]; [|discriminate].
  unfold index.
  destruct (nth_error label_ids k) as [cid|] eqn:Ei; cbn [bind]; [|discriminate].
  destruct (nth_error label_names k) as [cname|] eqn:En; cbn [bind];
    [|discriminate].
  intros E. injection E as <-. cbn [fid crop_probs crop_id crop_name].
  destruct (argmax_first_max _ _ Ek) as (Hk & Hmax & Hfirst).
  exists x, f, rest, k. repeat split; assumption.
Qed.

Lemma predict_loop_inv (st : ModelState) (label_ids : list Z)
    (label_names : list string) (data_loader : list (list (Input * Z)))
    (acc out : list prediction) :
  predict_loop softmax ModelState Input forward st label_ids label_names
    data_loader acc = Ok out ->
  exists rows,
    out = acc ++ rows /\
    Forall2 (fun b r => predict_batch softmax ModelState Input forward st
                          label_ids label_names b = Ok r) data_loader rows.
Proof.
  revert acc. induction data_loader as [|b rest IH]; intros acc E.
  - cbn in E. injection E as <-. exists []. rewrite app_nil_r.
    split; [reflexivity | constructor].
  - cbn [predict_loop] in E.
    destruct (predict_batch _ _ _ _ _ _ _ b) as [r|e] eqn:Eb; cbn [bind] in E;
      [|discriminate].
    destruct (IH _ E) as (rows & -> & HF).
    exists (r :: rows). rewrite <- app_assoc. split; [reflexivity|].
    constructor; assumption.
Qed.

(** What a successful run with an existing file has done. *)
Lemma save_predictions_inv (save_model_path : string)
    (data_loader : list (list (Input * Z))) (label_ids : list Z)
    (label_names : list string) (args : Args) (w w' : world ModelState) :
  is_Some (files ModelState w !! save_model_path) ->
  save_predictions softmax ModelState Input forward save_model_path data_loader
    label_ids label_names args w = Ok w' ->
  exists epoch st rows,
    files ModelState w !! save_model_path
    = Some (CheckpointFile ModelState epoch st) /\
    Forall2 (fun b r => predict_batch softmax ModelState Input forward st
                          label_ids label_names b = Ok r) data_loader rows /\
    w' = mkWorld ModelState
           (<[(if String.eqb (split args) "train"
               then path_join (target_dir args) "validation.json"
               else path_join (target_dir args) "submission.json")
              := JsonFile ModelState rows]> (files ModelState w))
           (stdout ModelState w
            ++ [PrintResuming save_model_path epoch]
            ++ [(if String.eqb (split args) "train"
                 then Print ("Validation was saved to location: "
                             ++ path_join (target_dir args) "validation.json")
                 else Print ("Submission was saved to location: "
                             ++ path_join (target_dir args) "submission.json"));
                PrintFrameHead (firstn 5 rows)])
           st false.
Proof.
  intros Hex E. unfold save_predictions in E.
  rewrite bool_decide_eq_true_2 in E by exact Hex.
  unfold torch_load in E.
  destruct (files ModelState w !! save_model_path) as [[e st|rows|]|] eqn:Ef;
    cbn [bind] in E; try discriminate.
  cbn [fst snd files stdout model model_training] in E.
  destruct (predict_loop _ _ _ _ _ _ _ data_loader []) as [out|err] eqn:El;
    cbn [bind] in E; [|discriminate].
  destruct (predict_loop_inv _ _ _ _ _ _ El) as (rows & -> & HF).
  cbn [app] in E. injection E as <-.
  exists e, st, rows. split; [reflexivity|]. split; [exact HF|].
  rewrite <- app_assoc. destruct (String.eqb (split args) "train"); reflexivity.
Qed.

End RecordFacts.

(** X13.  Every record that [save_predictions] exports is a top-1 record
    of the first sample of its batch: its probability vector is the softmax
    of that sample's model output under the checkpoint's parameters, its
    class id and class name are the entries of [label_ids] and [label_names]
    at one and the same index, and that index is the first one holding a
    maximal probability. *)
Theorem save_predictions_records_are_top1 :
  forall (softmax : list Q -> list Q) (ModelState Input : Type)
         (forward : ModelState -> Input -> list Q)
         (save_model_path : string) (data_loader : list (list (Input * Z)))
         (label_ids : list Z) (label_names : list string) (args : Args)
         (w w' : world ModelState),
    is_Some (files ModelState w !! save_model_path) ->
    save_predictions softmax ModelState Input forward save_model_path
      data_loader label_ids label_names args w = Ok w' ->
    exists epoch st rows,
      files ModelState w !! save_model_path
      = Some (CheckpointFile ModelState epoch st) /\
      files ModelState w'
        !! (if String.eqb (split args) "train"
            then path_join (target_dir args) "validation.json"
            else path_join (target_dir args) "submission.json")
      = Some (JsonFile ModelState rows) /\
      Forall2 (top1_record softmax ModelState Input forward st
                 label_ids label_names) data_loader rows.
Proof.
  intros softmax MS Input forward path dl ids names args w w' Hex E.
  destruct (save_predictions_inv softmax MS Input forward path dl ids names
              args w w' Hex E) as (e & st & rows & Hf & HF & ->).
  exists e, st, rows. split; [exact Hf|]. split.
  - cbn [files]. apply lookup_insert_eq.
  - eapply Forall2_impl; [exact HF|]. intros b r Hb.
    apply predict_batch_top1. exact Hb.
Qed.

Lemma save_predictions_records_are_top1_witness :
  exists rows,
    Forall2 (top1_record SampleRun.probs unit (list Q) SampleRun.forward0 tt
               SampleRun.label_ids SampleRun.label_names)
            SampleRun.loader2 rows.
Proof.
  destruct (save_predictions SampleRun.probs unit (list Q) SampleRun.forward0
              "best_model.pt" SampleRun.loader2 SampleRun.label_ids
              SampleRun.label_names SampleRun.args0 SampleRun.world0)
    as [w'|e] eqn:E; [|vm_compute in E; discriminate].
  destruct (save_predictions_records_are_top1 SampleRun.probs unit (list Q)
              SampleRun.forward0 "best_model.pt" SampleRun.loader2
              SampleRun.label_ids SampleRun.label_names SampleRun.args0
              SampleRun.world0 w' ltac:(vm_compute; eexists; reflexivity) E)
    as (ep & st & rows & _ & _ & HF).
  destruct st. exists rows. exact HF.
Defined.

(** X14.  A successful export replaces the parameters of the model object
    by those of the checkpoint and leaves the model in eval mode; it writes
    the one output file and changes no other path of the file system; it
    prints, in this order and nothing else, the resuming line with the path
    and the epoch of the checkpoint, the line that says where the validation
    or the submission was saved, and the head (five rows) of the table. *)
Theorem save_predictions_effects :
  forall (softmax : list Q -> list Q) (ModelState Input : Type)
         (forward : ModelState -> Input -> list Q)
         (save_model_path : string) (data_loader : list (list (Input * Z)))
         (label_ids : list Z) (label_names : list string) (args : Args)
         (w w' : world ModelState),
    is_Some (files ModelState w !! save_model_path) ->
    save_predictions softmax ModelState Input forward save_model_path
      data_loader label_ids label_names args w = Ok w' ->
    let output_name :=
      if String.eqb (split args) "train"
      then path_join (target_dir args) "validation.json"
      else path_join (target_dir args) "submission.json" in
    exists epoch st rows,
      files ModelState w !! save_model_path
      = Some (CheckpointFile ModelState epoch st) /\
      model ModelState w' = st /\
      model_training ModelState w' = false /\
      files ModelState w' !! output_name = Some (JsonFile ModelState rows) /\
      (forall path, path <> output_name ->
         files ModelState w' !! path = files ModelState w !! path) /\
      stdout ModelState w'
      = stdout ModelState w
        ++ [PrintResuming save_model_path epoch;
            (if String.eqb (split args) "train"
             then Print ("Validation was saved to location: " ++ output_name)
             else Print ("Submission was saved to location: " ++ output_name));
            PrintFrameHead (firstn 5 rows)].
Proof.
  intros softmax MS Input forward path dl ids names args w w' Hex E output_name.
  destruct (save_predictions_inv softmax MS Input forward path dl ids names
              args w w' Hex E) as (e & st & rows & Hf & HF & ->).
  exists e, st, rows. cbn [files model model_training stdout].
  split; [exact Hf|]. split; [reflexivity|]. split; [reflexivity|].
  split; [apply lookup_insert_eq|]. split.
  - intros p Hp. apply lookup_insert_ne. intros Heq. apply Hp.
    symmetry. exact Heq.
  - subst output_name. destruct (String.eqb (split args) "train"); reflexivity.
Qed.

Lemma save_predictions_effects_witness :
  exists w',
    save_predictions SampleRun.probs unit (list Q) SampleRun.forward0
      "best_model.pt" SampleRun.loader2 SampleRun.label_ids
      SampleRun.label_names SampleRun.args0 SampleRun.world0 = Ok w' /\
    model_training unit w' = false.
Proof.
  destruct (save_predictions SampleRun.probs unit (list Q) SampleRun.forward0
              "best_model.pt" SampleRun.loader2 SampleRun.label_ids
              SampleRun.label_names SampleRun.args0 SampleRun.world0)
    as [w'|e] eqn:E; [|vm_compute in E; discriminate].
  destruct (save_predictions_effects SampleRun.probs unit (list Q)
              SampleRun.forward0 "best_model.pt" SampleRun.loader2
              SampleRun.label_ids SampleRun.label_names SampleRun.args0
              SampleRun.world0 w' ltac:(vm_compute; eexists; reflexivity) E)
    as (ep & st & rows & _ & _ & Ht & _).
  exists w'. split; [reflexivity | exact Ht].
Defined.

(* ------------------------------------------------------------------------- *)
(** ** More on the spatial branch of [transform] *)

Section CropFacts.

Context {A : Type}.
Variable zero : A.

Lemma random_crop_cropped (H W : nat) (size h w : Z) :
  (0 <= size)%Z ->
  (size <= h < Z.of_nat H - size / 2)%Z ->
  (size <= w < Z.of_nat W - size / 2)%Z ->
  random_crop_shape H W size h w
  = (Z.to_nat (2 * (size / 2)), Z.to_nat (2 * (size / 2))) /\
  forall (p : plane (A := A)) i j,
    (i < Z.to_nat (2 * (size / 2)))%nat -> (j < Z.to_nat (2 * (size / 2)))%nat ->
    get2 zero (random_crop_plane H W size h w p) i j
    = get2 zero p (Z.to_nat (h - size / 2) + i) (Z.to_nat (w - size / 2) + j).
Proof.
  intros Hs Hh Hw.
  assert (Hhalf : (0 <= size / 2 /\ 2 * (size / 2) <= size)%Z)
    by (Z.to_euclidean_division_equations; lia).
  assert (Ia : forall n c, (size <= c < Z.of_nat n - size / 2)%Z ->
            Py.slice_index n (c - size / 2) = Z.to_nat (c - size / 2) /\
            Py.slice_index n (c + size / 2) = Z.to_nat (c + size / 2)).
  { intros n c Hc. unfold Py.slice_index.
    destruct (Z.ltb_spec (c - size / 2) 0); [lia|].
    destruct (Z.ltb_spec (c + size / 2) 0); [lia|]. split; f_equal; lia. }
  destruct (Ia H h Hh) as [E1 E2]. destruct (Ia W w Hw) as [E3 E4].
  assert (L1 : Py.slice_len H (h - size / 2) (h + size / 2)
               = Z.to_nat (2 * (size / 2)))
    by (unfold Py.slice_len; rewrite E1, E2; lia).
  assert (L2 : Py.slice_len W (w - size / 2) (w + size / 2)
               = Z.to_nat (2 * (size / 2)))
    by (unfold Py.slice_len; rewrite E3, E4; lia).
  unfold random_crop_shape, random_crop_plane.
  destruct (Z.leb_spec (Z.of_nat H - size / 2) size); [lia|].
  destruct (Z.leb_spec (Z.of_nat W - size / 2) size); [lia|].
  rewrite L1, L2. split; [reflexivity|].
  intros p i j Hi Hj.
  rewrite get2_slice_cols, L2, (proj2 (Nat.ltb_lt _ _) Hj), E3.
  rewrite get2_slice_rows, L1, (proj2 (Nat.ltb_lt _ _) Hi), E1.
  reflexivity.
Qed.

Lemma crop_or_pad_fixed (x : ndarray4 (A := A)) (m : ndarray2 (A := A))
    (T D : nat) (size : Z) :
  (0 <= size)%Z ->
  shape4 x = (T, D, Z.to_nat size, Z.to_nat size) ->
  shape2 m = (Z.to_nat size, Z.to_nat size) ->
  crop_or_pad_to_size zero x m size = (x, m).
Proof.
  intros Hs Sx Sm. destruct x as [sx xd], m as [sm md].
  cbn [shape4 shape2] in Sx, Sm. subst sx sm.
  unfold crop_or_pad_to_size. cbn [shape4 shape2].
  rewrite !Z.gtb_ltb.
  destruct (Z.ltb_spec (size - Z.of_nat (Z.to_nat size)) 0); [lia|].
  destruct (Z.ltb_spec 0 (size - Z.of_nat (Z.to_nat size))); [lia|].
  reflexivity.
Qed.

End CropFacts.

(** The result of [random_crop] when it crops, pixel by pixel. *)
Lemma random_crop_general :
  forall (A : Type) (zero : A) (x : ndarray4 (A := A)) (m : ndarray2 (A := A))
         (T D H W : nat) (image_size h w : Z),
    (0 <= image_size)%Z -> wf4 x -> wf2 m ->
    shape4 x = (T, D, H, W) -> shape2 m = (H, W) ->
    let half := (image_size / 2)%Z in
    Py.randint_returns image_size (Z.of_nat H - half) h ->
    Py.randint_returns image_size (Z.of_nat W - half) w ->
    let r := random_crop x m image_size h w in
    let n := Z.to_nat (2 * half) in
    shape4 (fst r) = (T, D, n, n) /\ shape2 (snd r) = (n, n) /\
    wf4 (fst r) /\ wf2 (snd r) /\
    forall i j, (i < n)%nat -> (j < n)%nat ->
      let i0 := (Z.to_nat (h - half) + i)%nat in
      let j0 := (Z.to_nat (w - half) + j)%nat in
      (Z.to_nat (image_size - half) <= i0 < H)%nat /\
      (Z.to_nat (image_size - half) <= j0 < W)%nat /\
      get2 zero (data2 (snd r)) i j = get2 zero (data2 m) i0 j0 /\
      forall t d, (t < T)%nat -> (d < D)%nat ->
        get4 zero (data4 (fst r)) t d i j = get4 zero (data4 x) t d i0 j0.
Proof.
  intros A zero x m T D H W size h w Hs Hx Hm Sx Sm half Hh Hw r n.
  unfold Py.randint_returns in Hh, Hw.
  destruct (random_crop_cropped zero H W size h w Hs Hh Hw) as [Hshape Hpix].
  fold half in Hshape, Hpix. fold n in Hshape, Hpix.
  assert (Hx' : wf4 (mk4 (T, D, H, W) (data4 x))).
  { destruct x as [sx xd]. cbn in Sx |- *. subst sx. exact Hx. }
  assert (Hm' : wf_plane H W (data2 m)).
  { unfold wf2 in Hm. rewrite Sm in Hm. exact Hm. }
  assert (HF : forall p : plane (A := A), wf_plane H W p ->
                 wf_plane n n (random_crop_plane H W size h w p)).
  { intros p Hp. pose proof (wf_random_crop_plane H W size h w p Hp) as Hc.
    rewrite Hshape in Hc. exact Hc. }
  subst r. rewrite (random_crop_factor x m T D H W size h w Sx Sm).
  rewrite Hshape. cbn [fst snd shape4 shape2 data4 data2].
  split; [reflexivity|]. split; [reflexivity|].
  split; [apply (wf4_on_planes _ T D H W); assumption|].
  split; [apply HF, Hm'|].
  intros i j Hi Hj.
  assert (Hhalf : (0 <= half /\ 2 * half <= size)%Z)
    by (subst half; Z.to_euclidean_division_equations; lia).
  split; [subst n; lia|]. split; [subst n; lia|].
  split; [apply Hpix; assumption|].
  intros t d Ht Hd.
  rewrite (get4_on_planes zero _ T D H W) by assumption.
  apply Hpix; assumption.
Qed.

(** X15.  When [random_crop] crops (both extents exceed
    [image_size + image_size // 2]) every pixel of its result, in every
    plane of the image and in the mask, is the input pixel displaced by
    [(h - image_size // 2, w - image_size // 2)].  The window has
    [2 (image_size // 2)] rows and columns, lies inside the input, and never
    reaches the first [image_size - image_size // 2] rows and columns of the
    input, since the centre is drawn from [image_size] upwards. *)
Theorem random_crop_pixels :
  forall (A : Type) (zero : A) (x : ndarray4 (A := A)) (m : ndarray2 (A := A))
         (T D H W : nat) (image_size h w : Z),
    (0 <= image_size)%Z -> wf4 x -> wf2 m ->
    shape4 x = (T, D, H, W) -> shape2 m = (H, W) ->
    let half := (image_size / 2)%Z in
    Py.randint_returns image_size (Z.of_nat H - half) h ->
    Py.randint_returns image_size (Z.of_nat W - half) w ->
    let r := random_crop x m image_size h w in
    let n := Z.to_nat (2 * half) in
    shape4 (fst r) = (T, D, n, n) /\ shape2 (snd r) = (n, n) /\
    wf4 (fst r) /\ wf2 (snd r) /\
    forall i j, (i < n)%nat -> (j < n)%nat ->
      let i0 := (Z.to_nat (h - half) + i)%nat in
      let j0 := (Z.to_nat (w - half) + j)%nat in
      (Z.to_nat (image_size - half) <= i0 < H)%nat /\
      (Z.to_nat (image_size - half) <= j0 < W)%nat /\
      get2 zero (data2 (snd r)) i j = get2 zero (data2 m) i0 j0 /\
      forall t d, (t < T)%nat -> (d < D)%nat ->
        get4 zero (data4 (fst r)) t d i j = get4 zero (data4 x) t d i0 j0.
Proof. exact random_crop_general. Qed.

Lemma random_crop_pixels_witness :
  shape4 (fst (random_crop Sample.stack7 Sample.mask7 4 4 4)) = (1, 1, 4, 4)%nat.
Proof.
  exact (proj1 (random_crop_pixels Q 0%Q Sample.stack7 Sample.mask7
                  1%nat 1%nat 7%nat 7%nat 4%Z 4%Z 4%Z ltac:(lia)
                  wf_stack7 wf_mask7 eq_refl eq_refl
                  ltac:(split; vm_compute; [discriminate | reflexivity])
                  ltac:(split; vm_compute; [discriminate | reflexivity]))).
Defined.

(** X16.  For an odd [image_size], an input that [random_crop] crops comes
    out of [crop_or_pad_to_size] with its last row and its last column
    zero-padded, in every image plane and in the mask: the cropped window has
    only [image_size - 1] rows and columns, and the missing one is added at
    the trailing edge.  All other pixels are those of the window. *)
Theorem odd_size_crop_pads_trailing_edge :
  forall (A : Type) (zero : A) (x : ndarray4 (A := A)) (m : ndarray2 (A := A))
         (T D H W : nat) (image_size h w : Z),
    (0 <= image_size)%Z -> Z.odd image_size = true ->
    wf4 x -> wf2 m -> shape4 x = (T, D, H, W) -> shape2 m = (H, W) ->
    let half := (image_size / 2)%Z in
    Py.randint_returns image_size (Z.of_nat H - half) h ->
    Py.randint_returns image_size (Z.of_nat W - half) w ->
    let c := random_crop x m image_size h w in
    let r := crop_or_pad_to_size zero (fst c) (snd c) image_size in
    let n := Z.to_nat image_size in
    shape4 (fst r) = (T, D, n, n) /\ shape2 (snd r) = (n, n) /\
    forall i j, (i < n)%nat -> (j < n)%nat ->
      ((i = n - 1 \/ j = n - 1)%nat ->
         get2 zero (data2 (snd r)) i j = zero /\
         forall t d, (t < T)%nat -> (d < D)%nat ->
           get4 zero (data4 (fst r)) t d i j = zero) /\
      ((i < n - 1)%nat -> (j < n - 1)%nat ->
         get2 zero (data2 (snd r)) i j = get2 zero (data2 (snd c)) i j /\
         forall t d, (t < T)%nat -> (d < D)%nat ->
           get4 zero (data4 (fst r)) t d i j
           = get4 zero (data4 (fst c)) t d i j).
Proof.
  intros A zero x m T D H W size h w Hs Hodd Hx Hm Sx Sm half Hh Hw c r n.
  assert (Hsz : (size = 2 * half + 1)%Z).
  { subst half. rewrite (Z.div_mod size 2) at 1 by lia.
    rewrite Zmod_odd, Hodd. reflexivity. }
  destruct (random_crop_general A zero x m T D H W size h w Hs Hx Hm Sx Sm Hh Hw)
    as (S4 & S2 & W4 & W2 & _).
  fold half in S4, S2. fold c in S4, S2, W4, W2.
  destruct (crop_or_pad_general zero (fst c) (snd c) T D
              (Z.to_nat (2 * half)) (Z.to_nat (2 * half)) size
              Hs W4 W2 S4 S2) as (R4 & _ & R2 & _ & P4 & P2).
  fold r in R4, R2, P4, P2. fold n in R4, R2, P4, P2.
  split; [exact R4|]. split; [exact R2|].
  assert (Hlead : lead (Z.to_nat (2 * half)) size = 0%Z).
  { unfold lead. destruct (Z.ltb_spec size (Z.of_nat (Z.to_nat (2 * half))));
      [lia|].
    replace (size - Z.of_nat (Z.to_nat (2 * half)))%Z with 1%Z by lia.
    reflexivity. }
  rewrite Hlead in P4, P2.
  assert (Hat : forall (p : plane (A := A)) i j,
            at_or_zero zero (Z.to_nat (2 * half)) (Z.to_nat (2 * half)) p
              (Z.of_nat i + 0) (Z.of_nat j + 0)
            = if ((i <? n - 1) && (j <? n - 1))%nat then get2 zero p i j
              else zero).
  { intros p i j. unfold at_or_zero. rewrite !Z.add_0_r, !Nat2Z.id.
    destruct (Z.leb_spec 0 (Z.of_nat i)); [|lia].
    destruct (Z.leb_spec 0 (Z.of_nat j)); [|lia].
    destruct (Z.ltb_spec (Z.of_nat i) (Z.of_nat (Z.to_nat (2 * half))));
      destruct (Z.ltb_spec (Z.of_nat j) (Z.of_nat (Z.to_nat (2 * half))));
      destruct (Nat.ltb_spec i (n - 1)); destruct (Nat.ltb_spec j (n - 1));
      cbn [andb]; try reflexivity; subst n; lia. }
  intros i j Hi Hj. split.
  - intros Hedge.
    assert (Hb : ((i <? n - 1) && (j <? n - 1))%nat = false).
    { destruct (Nat.ltb_spec i (n - 1)); destruct (Nat.ltb_spec j (n - 1));
        cbn [andb]; try reflexivity; lia. }
    split.
    + rewrite (P2 i j Hi Hj), Hat, Hb. reflexivity.
    + intros t d Ht Hd. rewrite (P4 t d i j Ht Hd Hi Hj), Hat, Hb. reflexivity.
  - intros Hi' Hj'.
    assert (Hb : ((i <? n - 1) && (j <? n - 1))%nat = true).
    { apply andb_true_iff. split; apply Nat.ltb_lt; assumption. }
    split.
    + rewrite (P2 i j Hi Hj), Hat, Hb. reflexivity.
    + intros t d Ht Hd. rewrite (P4 t d i j Ht Hd Hi Hj), Hat, Hb. reflexivity.
Qed.

Lemma odd_size_crop_pads_trailing_edge_witness :
  shape4 (fst (crop_or_pad_to_size 0%Q
                 (fst (random_crop Sample.stack7 Sample.mask7 3 3 3))
                 (snd (random_crop Sample.stack7 Sample.mask7 3 3 3)) 3))
  = (1, 1, 3, 3)%nat.
Proof.
  exact (proj1 (odd_size_crop_pads_trailing_edge Q 0%Q Sample.stack7
                  Sample.mask7 1%nat 1%nat 7%nat 7%nat 3%Z 3%Z 3%Z
                  ltac:(lia) eq_refl wf_stack7 wf_mask7 eq_refl eq_refl
                  ltac:(split; vm_compute; [discriminate | reflexivity])
                  ltac:(split; vm_compute; [discriminate | reflexivity]))).
Defined.

(** X17.  For [image_size >= 0] the test of line 41 never changes the
    result: [random_crop] itself returns its inputs whenever one extent is
    below [image_size], so the spatial branch always is [random_crop], then
    [crop_or_pad_to_size], then the rotation of both arrays. *)
Theorem transform_spatial_composition :
  forall (A : Type) (zero : A) (x : ndarray4 (A := A)) (m : ndarray2 (A := A))
         (T D H W : nat) (image_size h w rot : Z),
    (0 <= image_size)%Z ->
    shape4 x = (T, D, H, W) ->
    transform_spatial zero image_size h w rot x m
    = (let c := random_crop x m image_size h w in
       let r := crop_or_pad_to_size zero (fst c) (snd c) image_size in
       (rot90_4 zero rot (fst r), rot90_2 zero rot (snd r))).
Proof.
  intros A zero x m T D H W size h w rot Hs Sx. cbv zeta.
  unfold transform_spatial. rewrite Sx.
  assert (Hhalf : (0 <= size / 2)%Z) by (Z.to_euclidean_division_equations; lia).
  destruct ((Z.of_nat H >=? size) && (Z.of_nat W >=? size))%Z eqn:Eg.
  - destruct (random_crop x m size h w) as [x1 m1]. cbn [fst snd].
    destruct (crop_or_pad_to_size zero x1 m1 size) as [x2 m2]. reflexivity.
  - assert (Ec : random_crop x m size h w = (x, m)).
    { unfold random_crop. rewrite Sx.
      destruct (Z.leb_spec (Z.of_nat H - size / 2) size); [reflexivity|].
      destruct (Z.leb_spec (Z.of_nat W - size / 2) size); [reflexivity|].
      apply andb_false_iff in Eg. rewrite !Z.geb_leb in Eg.
      destruct Eg as [Eg|Eg]; apply Z.leb_gt in Eg; lia. }
    rewrite Ec. cbn [fst snd].
    destruct (crop_or_pad_to_size zero x m size) as [x2 m2]. reflexivity.
Qed.

Lemma transform_spatial_composition_witness :
  transform_spatial 0%Q 8 0 0 1 Sample.stack5 Sample.mask5
  = (rot90_4 0%Q 1 (fst (crop_or_pad_to_size 0%Q Sample.stack5 Sample.mask5 8)),
     rot90_2 0%Q 1 (snd (crop_or_pad_to_size 0%Q Sample.stack5 Sample.mask5 8))).
Proof.
  exact (transform_spatial_composition Q 0%Q Sample.stack5 Sample.mask5
           1%nat 2%nat 5%nat 5%nat 8%Z 0%Z 0%Z 1%Z ltac:(lia) eq_refl).
Defined.

(** X18.  [crop_or_pad_to_size] is idempotent: applied to its own result
    with the same [image_size >= 0] it returns that result unchanged, image
    and mask. *)
Theorem crop_or_pad_idempotent :
  forall (A : Type) (zero : A) (x : ndarray4 (A := A)) (m : ndarray2 (A := A))
         (T D H W : nat) (image_size : Z),
    (0 <= image_size)%Z ->
    shape4 x = (T, D, H, W) -> shape2 m = (H, W) ->
    let r := crop_or_pad_to_size zero x m image_size in
    crop_or_pad_to_size zero (fst r) (snd r) image_size = r.
Proof.
  intros A zero x m T D H W size Hs Sx Sm r.
  transitivity (fst r, snd r); [|destruct r; reflexivity].
  apply (crop_or_pad_fixed zero _ _ T D size Hs).
  - subst r. rewrite (crop_or_pad_factor zero x m T D H W size Sx Sm).
    rewrite (crop_or_pad_shape_exact H W size Hs). reflexivity.
  - subst r. rewrite (crop_or_pad_factor zero x m T D H W size Sx Sm).
    rewrite (crop_or_pad_shape_exact H W size Hs). reflexivity.
Qed.

Lemma crop_or_pad_idempotent_witness :
  crop_or_pad_to_size 0%Q
    (fst (crop_or_pad_to_size 0%Q Sample.stack5 Sample.mask5 8))
    (snd (crop_or_pad_to_size 0%Q Sample.stack5 Sample.mask5 8)) 8
  = crop_or_pad_to_size 0%Q Sample.stack5 Sample.mask5 8.
Proof.
  exact (crop_or_pad_idempotent Q 0%Q Sample.stack5 Sample.mask5
           1%nat 2%nat 5%nat 5%nat 8%Z ltac:(lia) eq_refl eq_refl).
Defined.

Lemma transform_plane_source {A : Type} (zero : A) (H W : nat)
    (size h w rot : Z) (p : plane (A := A)) (i j : nat) :
  wf_plane H W p ->
  get2 zero (transform_plane zero H W size h w rot p) i j
  = src zero p (source_of H W size h w rot i j).
Proof.
  intros Hp. unfold source_of.
  rewrite <- (get2_map None zero (src zero p) eq_refl).
  rewrite <- (transform_plane_map None zero (src zero p) eq_refl).
  rewrite (src_coords zero H W p Hp). reflexivity.
Qed.

(** X19.  In the image returned by the spatial branch, a position that is
    zero padding (it has no source pixel) does not hold zero once [normalize]
    is set: in every plane it holds [(0 * 1e-4 - (0.1014 + jm)) / (0.1171 + js)]
    for the two jitters of the call, while the mask holds 0 there. *)
Theorem padding_is_normalised_too :
  forall (self : Transform.EOTransformer) (r : Transform.draws)
         (x : ndarray4 (A := Q)) (m : ndarray2 (A := Q)) (T D H W : nat)
         (i j : nat),
    Transform.spatial_encoder self = true ->
    Transform.normalize self = true ->
    (0 <= Transform.image_size self)%Z ->
    wf4 x -> wf2 m -> shape4 x = (T, D, H, W) -> shape2 m = (H, W) ->
    (i < Z.to_nat (Transform.image_size self))%nat ->
    (j < Z.to_nat (Transform.image_size self))%nat ->
    source_of H W (Transform.image_size self) (Transform.draw_h r)
      (Transform.draw_w r) (Transform.draw_rot r) i j = None ->
    exists x' m',
      Transform.transform self r x m
      = Ok (Transform.Image4 x', Transform.MaskArray m') /\
      get2 0%Q (data2 m') i j = 0%Q /\
      forall t d, (t < T)%nat -> (d < D)%nat ->
        get4 0%Q (data4 x') t d i j
        = ((0 * (1 # 10000) - ((1014 # 10000) + Transform.draw_mean r))
           / ((1171 # 10000) + Transform.draw_std r))%Q.
Proof.
  intros self r x m T D H W i j Hsp Hn Hs Hx Hm Sx Sm Hi Hj Hsrc.
  destruct (transform_spatial_aligned 0%Q x m T D H W
              (Transform.image_size self) (Transform.draw_h r)
              (Transform.draw_w r) (Transform.draw_rot r) Hs Hx Hm Sx Sm)
    as (S4 & W4 & S2 & W2 & Hpix).
  unfold Transform.transform. rewrite Hsp, Hn. cbn [negb].
  destruct (transform_spatial 0%Q _ _ _ _ x m) as [xs ms] eqn:E.
  cbn [fst snd] in S4, W4, S2, W2, Hpix.
  cbn [bind fst snd Transform.scale_image].
  eexists. eexists. split; [reflexivity|]. cbn [data4 data2].
  assert (Hxs : wf4 (mk4 (T, D, Z.to_nat (Transform.image_size self),
                          Z.to_nat (Transform.image_size self)) (data4 xs))).
  { destruct xs as [sxs xsd]. cbn in S4 |- *. subst sxs. exact W4. }
  split.
  - rewrite (transform_spatial_factor 0%Q x m T D H W _ _ _ _ Sx Sm) in E.
    injection E as _ <-. cbn [data2].
    assert (Hm' : wf_plane H W (data2 m)).
    { unfold wf2 in Hm. rewrite Sm in Hm. exact Hm. }
    rewrite (transform_plane_source 0%Q H W _ _ _ _ (data2 m) i j Hm'), Hsrc.
    reflexivity.
  - intros t d Ht Hd.
    rewrite (get4_map_in_range 0%Q 0%Q _ T D _ _ (data4 xs) t d i j Hxs Ht Hd Hi Hj).
    destruct (Hpix t d i j Ht Hd) as [P4 _]. rewrite P4, Hsrc. reflexivity.
Qed.

Lemma padding_is_normalised_too_witness :
  exists x' m',
    Transform.transform (Transform.mkEOTransformer true true 8)
      (Transform.mkDraws 0 0 0 0 0) Sample.stack5 Sample.mask5
    = Ok (Transform.Image4 x', Transform.MaskArray m') /\
    get2 0%Q (data2 m') 0 0 = 0%Q.
Proof.
  destruct (padding_is_normalised_too (Transform.mkEOTransformer true true 8)
              (Transform.mkDraws 0 0 0 0 0) Sample.stack5 Sample.mask5
              1%nat 2%nat 5%nat 5%nat 0%nat 0%nat eq_refl eq_refl
              ltac:(cbn; lia) wf_stack5 wf_mask5 eq_refl eq_refl
              ltac:(cbn; lia) ltac:(cbn; lia) ltac:(vm_compute; reflexivity))
    as (x' & m' & E & Hm & _).
  exists x', m'. split; [exact E | exact Hm].
Defined.

(* ------------------------------------------------------------------------- *)
(** ** Extras: weight reset, model configuration and NNI parameters *)

Lemma layer_ind_all (P : Reset.layer -> Prop) :
  (forall n r cs, List.Forall P cs -> P (Reset.Layer n r cs)) ->
  forall m, P m.
Proof.
  intros H. fix IH 1. intros [n r cs]. apply H.
  induction cs as [|c cs IHcs]; constructor; [apply IH | exact IHcs].
Qed.

Lemma filter_flat_map {X Y : Type} (p : Y -> bool) (f : X -> list Y) l :
  List.filter p (flat_map f l) = flat_map (fun x => List.filter p (f x)) l.
Proof.
  induction l as [|x l IH]; cbn; [reflexivity|].
  rewrite List.filter_app, IH. reflexivity.
Qed.

Lemma apply_reset_weights_children (cs : list Reset.layer) :
  List.Forall
    (fun m => Permutation (Reset.apply Reset.reset_weights m)
                (List.filter Reset.has_reset_parameters (descendants m))) cs ->
  Permutation
    (flat_map (Reset.apply Reset.reset_weights) cs
       ++ List.filter Reset.has_reset_parameters cs)
    (flat_map (fun c => List.filter Reset.has_reset_parameters
                          (c :: descendants c)) cs).
Proof.
  induction cs as [|c cs IHcs]; intros IH; [constructor|].
  inversion IH as [|? ? Hc Hcs]; subst.
  specialize (IHcs Hcs).
  cbn [flat_map List.filter].
  rewrite Hc, <- IHcs.
  destruct (Reset.has_reset_parameters c).
  - rewrite <- Permutation_middle. cbn [app].
    rewrite !app_assoc. reflexivity.
  - rewrite !app_assoc. reflexivity.
Qed.

(** X20.  [model.apply(reset_weights)] calls [reset_parameters] on the modules
    strictly below the model that have it, each one once, and on nothing
    else; the model object itself is never reset, so a model without
    children is left untouched even if it has [reset_parameters]. *)
Theorem apply_reset_weights_descendants (m : Reset.layer) (n : string) (r : bool) :
  Permutation (Reset.apply Reset.reset_weights m)
              (List.filter Reset.has_reset_parameters (descendants m)) /\
  Reset.apply Reset.reset_weights (Reset.Layer n r []) = [].
Proof.
  split; [|reflexivity].
  induction m as [n0 r0 cs IH] using layer_ind_all.
  cbn [Reset.apply descendants].
  rewrite filter_flat_map.
  exact (apply_reset_weights_children cs IH).
Qed.

Import Config.

Lemma len_one_getitem v : len v = Return 1%nat -> exists x, getitem v 0 = Return x.
Proof.
  destruct v as [| | | |s|l]; cbn; try discriminate.
  - destruct s as [|c s]; cbn; [discriminate|]. eauto.
  - destruct l as [|x l]; cbn; [discriminate|]. eauto.
Qed.

Ltac rule_out_throw E :=
  exfalso;
  match type of E with
  | ?f = Throw _ =>
      let H := fresh in
      assert (H : match f with Return _ => True | Throw _ => False end)
        by (vm_compute; exact I);
      rewrite E in H; exact H
  end.

Ltac known H :=
  match type of H with
  | ?t = _ => revert H; generalize t; intros ? H; subst;
              cbv beta iota delta [bind]
  end.

(** X21.  When [args.input_dim] cannot be indexed (an int, like the argparse
    default [4]), [get_paselatae_model_config] raises [TypeError], whatever
    the number of sensors in [args.input_data]. *)
Theorem scalar_input_dim_raises_type_error
    (args : namespace) (include_extras input_data input_dim : value) (n : nat) :
  args !! "include_extras" = Some include_extras ->
  args !! "input_data" = Some input_data ->
  len input_data = Return n ->
  args !! "input_dim" = Some input_dim ->
  getitem input_dim 0 = Throw TypeError ->
  get_paselatae_model_config args = Throw TypeError.
Proof.
  intros He Hd Hn Hi Hg.
  assert (Hx : n = 1%nat -> exists x, getitem input_data 0 = Return x).
  { intros ->. exact (len_one_getitem _ Hn). }
  unfold get_paselatae_model_config, getattr.
  known He. known Hd. known Hn.
  destruct (Nat.eqb_spec n 1) as [E|Hne].
  - destruct (Hx E) as [x Hx']. known Hx'. known Hi. known Hg. reflexivity.
  - known Hi. known Hg. reflexivity.
Qed.

Lemma scalar_input_dim_raises_type_error_witness :
  get_paselatae_model_config SampleConfig.defaults = Throw TypeError.
Proof.
  apply (scalar_input_dim_raises_type_error SampleConfig.defaults
           (VInt 0) (VStr "planet") (VInt 4) 6%nat);
    reflexivity.
Defined.

(** X22.  With one entry in [args.input_data] that is none of ['planet'],
    ['planet-5'] and ['sentinel-1'], [get_paselatae_model_config] raises
    [UnboundLocalError]: no branch binds [lms], and the error comes after
    the reads of [input_dim], [n_head], [d_k] and [dropout]. *)
Theorem unknown_single_sensor_raises
    (args : namespace)
    (include_extras input_data first input_dim dim0 n_head d_k dropout : value) :
  args !! "include_extras" = Some include_extras ->
  args !! "input_data" = Some input_data ->
  len input_data = Return 1%nat ->
  getitem input_data 0 = Return first ->
  eq_str first "planet" = false ->
  eq_str first "planet-5" = false ->
  eq_str first "sentinel-1" = false ->
  args !! "input_dim" = Some input_dim ->
  getitem input_dim 0 = Return dim0 ->
  args !! "n_head" = Some n_head ->
  args !! "d_k" = Some d_k ->
  args !! "dropout" = Some dropout ->
  get_paselatae_model_config args = Throw UnboundLocalError.
Proof.
  intros He Hd Hn Hf H1 H2 H3 Hi Hg Hh Hk Hp.
  unfold get_paselatae_model_config, getattr.
  known He. known Hd. known Hn. cbv beta iota delta [Nat.eqb].
  known Hf. known H1. known H2. known H3.
  known Hi. known Hg. known Hh. known Hk. known Hp.
  reflexivity.
Qed.

Lemma unknown_single_sensor_raises_witness :
  get_paselatae_model_config (SampleConfig.single "sentinel-2" 0)
  = Throw UnboundLocalError.
Proof.
  apply (unknown_single_sensor_raises (SampleConfig.single "sentinel-2" 0)
           (VInt 0) (VList [VStr "sentinel-2"]) (VStr "sentinel-2")
           (VList [VInt 4]) (VInt 4) (VInt 16) (VInt 8) (VFloat (2 # 10)));
    vm_compute; reflexivity.
Defined.

(** X23.  When [len(args.input_data)] is not 1, the two-sensor configuration
    is built, and it needs two input dimensions: with a single entry in
    [args.input_dim] the function raises [IndexError]. *)
Theorem combined_needs_two_input_dims
    (args : namespace) (include_extras input_data dim0 : value) (n : nat) :
  args !! "include_extras" = Some include_extras ->
  args !! "input_data" = Some input_data ->
  len input_data = Return n ->
  n <> 1%nat ->
  args !! "input_dim" = Some (VList [dim0]) ->
  get_paselatae_model_config args = Throw IndexError.
Proof.
  intros He Hd Hn Hne Hi.
  unfold get_paselatae_model_config, getattr.
  known He. known Hd. known Hn.
  destruct (Nat.eqb_spec n 1) as [E|_]; [congruence|].
  known Hi. reflexivity.
Qed.

Lemma combined_needs_two_input_dims_witness :
  get_paselatae_model_config SampleConfig.combined_one_dim = Throw IndexError.
Proof.
  apply (combined_needs_two_input_dims SampleConfig.combined_one_dim
           (VInt 0) (VList [VStr "planet"; VStr "sentinel-1"]) (VInt 4) 2%nat);
    first [discriminate | vm_compute; reflexivity].
Defined.

Lemma lookup_list_to_map_find (l : list (string * value)) (k : string) :
  (list_to_map l : namespace) !! k
  = option_map snd (List.find (fun p => String.eqb (fst p) k) l).
Proof.
  induction l as [|[k' v] l IH].
  - apply lookup_empty.
  - change (list_to_map ((k', v) :: l) : namespace)
      with (<[k' := v]> (list_to_map l : namespace)).
    cbn [List.find fst snd].
    destruct (String.eqb_spec k' k) as [->|Hne].
    + apply lookup_insert_eq.
    + rewrite lookup_insert_ne by exact Hne. exact IH.
Qed.

Lemma lookup_updated (l : list (string * value)) (k k1 k2 : string)
    (v1 v2 : value) :
  (<[k1 := v1]> (<[k2 := v2]> (list_to_map l : namespace))) !! k
  = if String.eqb k1 k then Some v1
    else if String.eqb k2 k then Some v2
    else option_map snd (List.find (fun p => String.eqb (fst p) k) l).
Proof.
  destruct (String.eqb_spec k1 k) as [->|H1]; [apply lookup_insert_eq|].
  rewrite lookup_insert_ne by exact H1.
  destruct (String.eqb_spec k2 k) as [->|H2]; [apply lookup_insert_eq|].
  rewrite lookup_insert_ne by exact H2.
  apply lookup_list_to_map_find.
Qed.

Lemma Return_inj {X : Type} (x y : X) : Return x = Return y -> x = y.
Proof. intros E. injection E as ->. reflexivity. Qed.

Ltac dict_lookups :=
  cbv beta iota zeta delta
    [List.find option_map String.eqb Ascii.eqb Bool.eqb fst snd bind].

(** X24.  Whenever [get_paselatae_model_config] returns, the configuration
    follows [args.include_extras]: [with_extra] is its truth value,
    [extra_size] is [2] when it is true and [None] otherwise, both layers of
    [mlp2] have [128 + 2] or [128] neurons accordingly; [n_head], [d_k] and
    [dropout] are the arguments' and [positions] is [None]. *)
Theorem model_config_follows_include_extras
    (args model_config : namespace) :
  get_paselatae_model_config args = Return model_config ->
  exists include_extras n_head d_k dropout,
    args !! "include_extras" = Some include_extras /\
    args !! "n_head" = Some n_head /\
    args !! "d_k" = Some d_k /\
    args !! "dropout" = Some dropout /\
    model_config !! "with_extra" = Some (VBool (truthy include_extras)) /\
    model_config !! "extra_size"
      = Some (if truthy include_extras then VInt 2 else VNone) /\
    model_config !! "mlp2"
      = Some (let w := (if truthy include_extras then 130 else 128)%Z in
              VList [VInt w; VInt w]) /\
    model_config !! "n_head" = Some n_head /\
    model_config !! "d_k" = Some d_k /\
    model_config !! "dropout" = Some dropout /\
    model_config !! "positions" = Some VNone.
Proof.
  unfold get_paselatae_model_config, getattr.
  destruct (args !! "include_extras") as [ie|] eqn:He;
    cbv beta iota delta [bind]; [|discriminate].
  destruct (args !! "input_data") as [idata|];
    cbv beta iota delta [bind]; [|discriminate].
  destruct (len idata) as [n|]; cbv beta iota delta [bind]; [|discriminate].
  destruct (n =? 1)%nat.
  - destruct (getitem idata 0) as [first|];
      cbv beta iota delta [bind]; [|discriminate].
    destruct (args !! "input_dim") as [idim|];
      cbv beta iota delta [bind]; [|discriminate].
    destruct (getitem idim 0) as [d0|];
      cbv beta iota delta [bind]; [|discriminate].
    destruct (args !! "n_head") as [nh|] eqn:Hh;
      cbv beta iota delta [bind]; [|discriminate].
    destruct (args !! "d_k") as [dk|] eqn:Hk;
      cbv beta iota delta [bind]; [|discriminate].
    destruct (args !! "dropout") as [dr|] eqn:Hp;
      cbv beta iota delta [bind]; [|discriminate].
    destruct (local _) as [lms|];
      cbv beta iota delta [bind]; [|discriminate].
    cbv beta iota zeta delta [item].
    rewrite !lookup_list_to_map_find. dict_lookups.
    rewrite !lookup_list_to_map_find. dict_lookups.
    destruct (truthy ie) eqn:Et; intros E; apply Return_inj in E;
      subst model_config; exists ie, nh, dk, dr; rewrite Et;
      (repeat match goal with |- _ /\ _ => split end);
      try reflexivity; rewrite lookup_updated; reflexivity.
  - destruct (args !! "input_dim") as [idim|];
      cbv beta iota delta [bind]; [|discriminate].
    destruct (getitem idim 0) as [d0|];
      cbv beta iota delta [bind]; [|discriminate].
    destruct (getitem idim 1) as [d1|];
      cbv beta iota delta [bind]; [|discriminate].
    destruct (args !! "n_head") as [nh|] eqn:Hh;
      cbv beta iota delta [bind]; [|discriminate].
    destruct (args !! "d_k") as [dk|] eqn:Hk;
      cbv beta iota delta [bind]; [|discriminate].
    destruct (args !! "dropout") as [dr|] eqn:Hp;
      cbv beta iota delta [bind]; [|discriminate].
    cbv beta iota zeta delta [item].
    rewrite !lookup_list_to_map_find. dict_lookups.
    rewrite !lookup_list_to_map_find. dict_lookups.
    destruct (truthy ie) eqn:Et; intros E; apply Return_inj in E;
      subst model_config; exists ie, nh, dk, dr; rewrite Et;
      (repeat match goal with |- _ /\ _ => split end);
      try reflexivity; rewrite lookup_updated; reflexivity.
Qed.

Lemma model_config_follows_include_extras_witness :
  exists model_config,
    get_paselatae_model_config (SampleConfig.single "planet" 1)
    = Return model_config /\
    model_config !! "with_extra" = Some (VBool true) /\
    model_config !! "extra_size" = Some (VInt 2).
Proof.
  destruct (get_paselatae_model_config (SampleConfig.single "planet" 1))
    as [model_config|e] eqn:E; [|rule_out_throw E].
  destruct (model_config_follows_include_extras _ _ E)
    as (ie & nh & dk & dr & He & _ & _ & _ & Hw & Hx & _).
  vm_compute in He. injection He as <-.
  exists model_config. split; [reflexivity|]. split; [exact Hw | exact Hx].
Defined.

Lemma forallb_contains (args : namespace) (keys : list string) :
  forallb (contains args) keys = true <->
  (forall k, In k keys -> is_Some (args !! k)).
Proof.
  rewrite forallb_forall. unfold contains.
  split; intros H k Hk; specialize (H k Hk).
  - destruct (args !! k); [eauto | discriminate].
  - destruct H as [v ->]. reflexivity.
Qed.

Lemma casted_spec (int_of_str : string -> option Z) (args_dict : namespace)
    (items items' : list (string * value)) :
  casted int_of_str args_dict items = Return items' ->
  Forall2 (fun kv kv' =>
             fst kv' = fst kv /\
             exists old, args_dict !! fst kv = Some old /\
               if type_is_int old then exists z, snd kv' = VInt z
               else snd kv' = snd kv) items items'.
Proof.
  revert items'. induction items as [|[key v] rest IH]; intros items'; cbn.
  - intros E. injection E as <-. constructor.
  - unfold item. destruct (args_dict !! key) as [old|] eqn:Hold; cbn; [|discriminate].
    destruct (type_is_int old) eqn:Ht.
    + destruct (to_int int_of_str v) as [z|]; cbn; [|discriminate].
      destruct (casted int_of_str args_dict rest) as [rest'|]; cbn; [|discriminate].
      intros E. injection E as <-. constructor; [|apply IH; reflexivity].
      cbn. split; [reflexivity|]. exists old. rewrite Ht. eauto.
    + cbn.
      destruct (casted int_of_str args_dict rest) as [rest'|]; cbn; [|discriminate].
      intros E. injection E as <-. constructor; [|apply IH; reflexivity].
      cbn. split; [reflexivity|]. exists old. rewrite Ht. eauto.
Qed.

Lemma lookup_update_cases (d : namespace) (items : list (string * value)) k :
  (~ In k (map fst items) /\ update d items !! k = d !! k) \/
  (exists v, In (k, v) items /\ update d items !! k = Some v).
Proof.
  revert d. induction items as [|[k' v'] rest IH]; intros d; cbn.
  - left. split; [tauto | reflexivity].
  - destruct (IH (<[k' := v']> d)) as [[Hn E] | (v & Hin & E)].
    + destruct (String.eqb_spec k' k) as [->|Hne].
      * right. exists v'. split; [left; reflexivity|].
        unfold update in E. rewrite E. apply lookup_insert_eq.
      * left. split; [intros [?|?]; tauto|].
        unfold update in E. rewrite E. apply lookup_insert_ne. exact Hne.
    + right. exists v. split; [right; exact Hin | exact E].
Qed.

Lemma string_append_assoc (a b c : string) :
  ((a ++ b) ++ c)%string = (a ++ (b ++ c))%string.
Proof.
  induction a as [|x a IH]; [reflexivity|].
  change (String x ((a ++ b) ++ c) = String x (a ++ (b ++ c)))%string.
  f_equal. exact IH.
Qed.

Lemma after_last_slash_spec (p : string) :
  forall tail,
    (has_slash p = false -> after_last_slash p tail = tail) /\
    (has_slash p = true ->
     exists prefix, p = (prefix ++ "/" ++ after_last_slash p tail)%string /\
                    has_slash (after_last_slash p tail) = false).
Proof.
  induction p as [|c rest IH]; intros tail; cbn [has_slash after_last_slash].
  - split; [reflexivity | discriminate].
  - destruct (String.eqb_spec (String c EmptyString) "/") as [Ec|Ec];
      cbn [orb].
    + split; [discriminate|]. intros _.
      injection Ec as ->.
      destruct (IH rest) as [Hno Hyes].
      destruct (has_slash rest) eqn:Hs.
      * destruct (Hyes eq_refl) as (prefix & E & Hb).
        exists ("/" ++ prefix)%string. split; [|exact Hb].
        match goal with
        | |- String ?c0 _ = _ =>
            transitivity
              (String c0 (prefix ++ "/" ++ after_last_slash rest rest))
        end; [f_equal; exact E | reflexivity].
      * rewrite (Hno eq_refl). exists EmptyString. split; [reflexivity | exact Hs].
    + destruct (IH tail) as [Hno Hyes]. split; [exact Hno|].
      intros Hs. destruct (Hyes Hs) as (prefix & E & Hb).
      exists (String c prefix). split; [|exact Hb].
      transitivity (String c (prefix ++ "/" ++ after_last_slash rest tail));
        [f_equal; exact E | reflexivity].
Qed.

(** X25.  A parameter that NNI proposes under a name that is no argument
    makes [add_nni_params] raise [AssertionError]. *)
Theorem add_nni_params_unknown_key
    (int_of_str : string -> option Z)
    (args_nni : list (string * value)) (environ : gmap string string)
    (args : namespace) (key : string) :
  In key (map fst args_nni) ->
  args !! key = None ->
  add_nni_params int_of_str args_nni environ args = Throw AssertionError.
Proof.
  intros Hin Hk. unfold add_nni_params.
  destruct (forallb (contains args) (map fst args_nni)) eqn:Hall;
    [|reflexivity].
  destruct (proj1 (forallb_contains args _) Hall key Hin) as [v Hv].
  congruence.
Qed.

(** X26.  When [add_nni_params] returns, the namespace has exactly the
    argument names it had, every argument that held an int still holds an
    int, and an argument that NNI did not propose (other than [target_dir])
    keeps its value. *)
Theorem add_nni_params_keeps_names_and_int_types
    (int_of_str : string -> option Z)
    (args_nni : list (string * value)) (environ : gmap string string)
    (args args' : namespace) :
  add_nni_params int_of_str args_nni environ args = Return args' ->
  (forall k, is_Some (args' !! k) <-> is_Some (args !! k)) /\
  (forall k z, args !! k = Some (VInt z) ->
               exists z', args' !! k = Some (VInt z')) /\
  (forall k, k <> "target_dir" -> ~ In k (map fst args_nni) ->
             args' !! k = args !! k).
Proof.
  unfold add_nni_params.
  destruct (forallb (contains args) (map fst args_nni)) eqn:Hall;
    cbn [negb]; [|discriminate].
  destruct (casted int_of_str args args_nni) as [items'|] eqn:Hc;
    cbv beta iota delta [bind]; [|discriminate].
  unfold item.
  destruct (update args items' !! "target_dir") as [td|] eqn:Htd;
    cbv beta iota delta [bind]; [|discriminate].
  destruct (basename td) as [base|] eqn:Hb;
    cbv beta iota delta [bind]; [|discriminate].
  intros E. apply Return_inj in E. subst args'.
  pose proof (casted_spec _ _ _ _ Hc) as HF.
  assert (Hkeys : map fst items' = map fst args_nni).
  { clear -HF. induction HF as [|? ? ? ? [E _] _ IH]; cbn; [reflexivity|].
    rewrite E, IH. reflexivity. }
  assert (Hitems : forall k v, In (k, v) items' ->
            exists old, args !! k = Some old /\
              (type_is_int old = true -> exists z, v = VInt z)).
  { clear -HF. induction HF as [|[k0 v0] [k1 v1] ? ? [E (old & Ho & Ht)] _ IH];
      intros k v Hin; [destruct Hin|].
    cbn in E, Ho, Ht. subst k1.
    destruct Hin as [Heq|Hin]; [|exact (IH k v Hin)].
    injection Heq as <- <-. exists old. split; [exact Ho|].
    intros Hi. rewrite Hi in Ht. exact Ht. }
  assert (Hint : forall k z, args !! k = Some (VInt z) ->
            exists z', update args items' !! k = Some (VInt z')).
  { intros k z Hk.
    destruct (lookup_update_cases args items' k) as [[_ E] | (v & Hin & E)].
    - exists z. rewrite E. exact Hk.
    - destruct (Hitems k v Hin) as (old & Ho & Ht).
      rewrite Hk in Ho. injection Ho as <-.
      destruct (Ht eq_refl) as [z' ->]. exists z'. exact E. }
  split; [|split].
  - intros k. destruct (String.eqb_spec "target_dir" k) as [<-|Hne].
    + rewrite lookup_insert_eq. split; [intros _ | eauto].
      destruct (lookup_update_cases args items' "target_dir")
        as [[_ E] | (v & Hin & E)].
      * rewrite <- E, Htd. eauto.
      * destruct (Hitems _ v Hin) as (old & Ho & _). eauto.
    + rewrite lookup_insert_ne by exact Hne.
      destruct (lookup_update_cases args items' k) as [[_ E] | (v & Hin & E)].
      * rewrite E. reflexivity.
      * rewrite E. destruct (Hitems _ v Hin) as (old & Ho & _).
        rewrite Ho. split; eauto.
  - intros k z Hk. destruct (Hint k z Hk) as [z' Hz'].
    destruct (String.eqb_spec "target_dir" k) as [<-|Hne].
    + rewrite Htd in Hz'. injection Hz' as ->. discriminate Hb.
    + exists z'. rewrite lookup_insert_ne by exact Hne. exact Hz'.
  - intros k Hne Hnot.
    rewrite lookup_insert_ne by (intros Heq; apply Hne; symmetry; exact Heq).
    destruct (lookup_update_cases args items' k) as [[_ E] | (v & Hin & E)];
      [exact E|].
    exfalso. apply Hnot. rewrite <- Hkeys.
    apply (in_map fst) in Hin. exact Hin.
Qed.

(** X27.  When [add_nni_params] returns and NNI did not propose
    [target_dir], the new [target_dir] is the NNI output directory joined
    with what followed the last slash of the old one: the old path is
    [prefix ++ base], [base] has no slash, and [prefix] is empty or ends in
    a slash. *)
Theorem add_nni_params_target_dir
    (int_of_str : string -> option Z)
    (args_nni : list (string * value)) (environ : gmap string string)
    (args args' : namespace) (old : string) :
  add_nni_params int_of_str args_nni environ args = Return args' ->
  ~ In "target_dir" (map fst args_nni) ->
  args !! "target_dir" = Some (VStr old) ->
  exists prefix base,
    args' !! "target_dir"
      = Some (VStr (path_join (expandvars_nni_output_dir environ) base)) /\
    old = (prefix ++ base)%string /\
    has_slash base = false /\
    (prefix = EmptyString \/ exists p, prefix = (p ++ "/")%string).
Proof.
  unfold add_nni_params.
  destruct (forallb (contains args) (map fst args_nni)) eqn:Hall;
    cbn [negb]; [|discriminate].
  destruct (casted int_of_str args args_nni) as [items'|] eqn:Hc;
    cbv beta iota delta [bind]; [|discriminate].
  unfold item.
  destruct (update args items' !! "target_dir") as [td|] eqn:Htd;
    cbv beta iota delta [bind]; [|discriminate].
  destruct (basename td) as [base|] eqn:Hb;
    cbv beta iota delta [bind]; [|discriminate].
  intros E Hnot Hold. apply Return_inj in E. subst args'.
  pose proof (casted_spec _ _ _ _ Hc) as HF.
  assert (Hkeys : map fst items' = map fst args_nni).
  { clear -HF. induction HF as [|? ? ? ? [E _] _ IH]; cbn; [reflexivity|].
    rewrite E, IH. reflexivity. }
  destruct (lookup_update_cases args items' "target_dir")
    as [[_ E] | (v & Hin & _)].
  - rewrite E, Hold in Htd. injection Htd as <-.
    cbn in Hb. injection Hb as <-.
    destruct (after_last_slash_spec old old) as [Hno Hyes].
    destruct (has_slash old) eqn:Hs.
    + destruct (Hyes eq_refl) as (prefix & Ep & Hbase).
      exists (prefix ++ "/")%string, (after_last_slash old old).
      split; [apply lookup_insert_eq|]. split; [|split; [exact Hbase|eauto]].
      rewrite string_append_assoc. exact Ep.
    + exists EmptyString, (after_last_slash old old).
      split; [apply lookup_insert_eq|].
      rewrite (Hno eq_refl). split; [reflexivity|]. split; [exact Hs | left; reflexivity].
  - exfalso. apply Hnot. rewrite <- Hkeys.
    apply (in_map fst) in Hin. exact Hin.
Qed.

Lemma add_nni_params_unknown_key_witness :
  add_nni_params SampleConfig.no_int [("learning_rate", VFloat (1 # 100))]
    SampleConfig.environ SampleConfig.nni_args
  = Throw AssertionError.
Proof.
  apply (add_nni_params_unknown_key SampleConfig.no_int
           [("learning_rate", VFloat (1 # 100))] SampleConfig.environ
           SampleConfig.nni_args "learning_rate");
    [left; reflexivity | vm_compute; reflexivity].
Defined.

Lemma add_nni_params_keeps_names_and_int_types_witness :
  exists args',
    add_nni_params SampleConfig.no_int SampleConfig.nni_params
      SampleConfig.environ SampleConfig.nni_args = Return args' /\
    (exists z', args' !! "batch_size" = Some (VInt z')).
Proof.
  destruct (add_nni_params SampleConfig.no_int SampleConfig.nni_params
              SampleConfig.environ SampleConfig.nni_args)
    as [args'|e] eqn:E; [|rule_out_throw E].
  exists args'. split; [reflexivity|].
  exact (proj1 (proj2 (add_nni_params_keeps_names_and_int_types
                         SampleConfig.no_int _ _ _ _ E))
           "batch_size" 64%Z ltac:(vm_compute; reflexivity)).
Defined.

Lemma add_nni_params_target_dir_witness :
  exists args' prefix base,
    add_nni_params SampleConfig.no_int SampleConfig.nni_params
      SampleConfig.environ SampleConfig.nni_args = Return args' /\
    args' !! "target_dir"
      = Some (VStr (path_join
                      (expandvars_nni_output_dir SampleConfig.environ) base)) /\
    "runs/exp1"%string = (prefix ++ base)%string.
Proof.
  destruct (add_nni_params SampleConfig.no_int SampleConfig.nni_params
              SampleConfig.environ SampleConfig.nni_args)
    as [args'|e] eqn:E; [|rule_out_throw E].
  destruct (add_nni_params_target_dir SampleConfig.no_int _ _ _ _ "runs/exp1" E)
    as (prefix & base & H1 & H2 & _).
  - cbn. intros [H|[H|[]]]; discriminate H.
  - vm_compute; reflexivity.
  - exists args', prefix, base. split; [reflexivity|]. split; assumption.
Defined.


